(** * OTP lifecycle of the sms-app backend

    A shallow embedding of the OTP service of [backend/sms_service/service.go],
    of the Mongo-backed OTP repository it talks to
    ([backend/repository/mongo/mongo.go]) and of the HTTP glue in
    [backend/sms_service/transport] (the send-otp endpoint and the rate-limit
    middleware), followed by the properties of the OTP engine.

    Conventions.
    - A [time.Time] is the number of nanoseconds since the Unix epoch, a
      [time.Duration] a number of nanoseconds (an int64 in Go; the only
      duration the code computes, [time.Until], saturates and is written so).
    - Go's [(value, error)] results are pairs whose components are options:
      [None] is [nil].
    - Everything a call obtains from outside the process (the clock, the
      outcome of each repository call, the random source, the outcome of the
      SMS dispatch) is given by an environment record, one field per place of
      the source where the outside world is consulted.
    - Calls are taken one at a time: the cleanup goroutine, the TTL index of
      the collection and requests served in parallel are outside the model.
    - A time that the code keeps or returns and also stores (the expiry of
      an OTP, the creation time of a callback) enters the store as a BSON
      datetime, cut to whole milliseconds. A clock reading that the code only
      hands to the store stands for the datetime the driver sends.
    - [log.Printf] calls are not modelled. *)

From Stdlib Require Import ZArith String Ascii List Lia Bool.
From stdpp Require Import base option gmap strings list pretty.

Open Scope string_scope.
Open Scope Z_scope.

(** ** Package time *)

Module time.

Definition Time := Z.
Definition Duration := Z.

Definition Nanosecond : Duration := 1.
Definition Millisecond : Duration := 1000000 * Nanosecond.
Definition Second : Duration := 1000000000 * Nanosecond.
Definition Minute : Duration := 60 * Second.

Definition minDuration : Duration := - 2 ^ 63.
Definition maxDuration : Duration := 2 ^ 63 - 1.

(** [t.Sub(u)]: the difference, clamped to the range of a Duration. *)
Definition Sub (t u : Time) : Duration :=
  if t - u <? minDuration then minDuration
  else if maxDuration <? t - u then maxDuration
  else t - u.

(** [time.Until(t)] is [t.Sub(time.Now())]; [now] is the clock reading. *)
Definition Until (now t : Time) : Duration := Sub t now.

(** [t.After(u)]. *)
Definition After (t u : Time) : bool := u <? t.

(** [t.Add(d)]. *)
Definition Add (t : Time) (d : Duration) : Time := t + d.

(** [t.Unix()]: the whole seconds since the epoch. *)
Definition Unix (t : Time) : Z := t / Second.

End time.

(** ** Package models *)

Module OTP.
Record t := mk {
  Phone : string;
  Code : string;
  ExpiresAt : time.Time;
  Attempts : Z;
  MaxAttempts : Z;
  CreatedAt : time.Time;
  UpdatedAt : time.Time
}.
End OTP.

Module OTPRequest.
Record t := mk { PhoneNumber : string }.
End OTPRequest.

Module OTPResponse.
Record t := mk {
  Success : bool;
  Message : string;
  OTP : string;
  ExpiresAt : time.Time
}.
End OTPResponse.

Module VerifyOTPRequest.
Record t := mk { PhoneNumber : string; OTP : string }.
End VerifyOTPRequest.

Module VerifyOTPResponse.
Record t := mk {
  Success : bool;
  Message : string;
  Valid : bool
}.
End VerifyOTPResponse.

(** The zero [time.Time] of a response that sets no expiry. Only its being a
    fixed value matters here. *)
Definition zeroTime : time.Time := -62135596800 * time.Second.

(** ** Package common *)

(** Package [common] has no file of its own among the sources; its code is
    found at the end of [README.md] (lines 456 to 547). An [AppError] there
    is a struct that each constructor fills from its one argument, with a
    code of its own; the service and the transport only build such errors
    and hand them on, so an error is written here as the constructor call
    that made it, and its fields are functions of that call. *)
Inductive AppError :=
| NewInternalError (message : string)
| NewServiceUnavailableError (service : string)
| NewValidationError (message : string).

Module common.

Definition Code (e : AppError) : Z :=
  match e with
  | NewValidationError _ => 1001
  | NewInternalError _ => 1004
  | NewServiceUnavailableError _ => 1005
  end.

Definition Message (e : AppError) : string :=
  match e with
  | NewValidationError _ => "Validation Error"
  | NewInternalError _ => "Internal Server Error"
  | NewServiceUnavailableError _ => "Service Unavailable"
  end.

Definition Details (e : AppError) : string :=
  match e with
  | NewValidationError message => message
  | NewInternalError message => message
  | NewServiceUnavailableError service =>
      service +:+ " service is currently unavailable"
  end.

(** [http.StatusBadRequest], [http.StatusInternalServerError],
    [http.StatusServiceUnavailable]. *)
Definition StatusCode (e : AppError) : Z :=
  match e with
  | NewValidationError _ => 400
  | NewInternalError _ => 500
  | NewServiceUnavailableError _ => 503
  end.

End common.

(** ** BSON datetimes *)

(** The Mongo driver is outside the repository. It writes a [time.Time] as
    a BSON datetime, the number of whole milliseconds since the epoch
    ([primitive.NewDateTimeFromTime]), and reads a datetime back as the time
    of that millisecond ([DateTime.Time]). *)
Module primitive.

Definition DateTime := Z.

Definition NewDateTimeFromTime (t : time.Time) : DateTime :=
  t / time.Millisecond.

Definition Time (d : DateTime) : time.Time := d * time.Millisecond.

End primitive.

(** A time as it comes back from the store: cut to milliseconds. *)
Definition stored_time (t : time.Time) : time.Time :=
  primitive.Time (primitive.NewDateTimeFromTime t).

(** ** The OTP repository (repository/mongo) *)

(** Errors of the Mongo driver as the repository passes them on. *)
Inductive StoreError :=
| ErrNoDocuments
| ErrDuplicateKey
| ErrUnavailable.

(** The [otps] collection. [NewOTPRepository] declares a unique index on
    [phone], so the collection holds at most one document per phone and is a
    finite map from phone to document. *)
Abbreviation Collection := (gmap string OTP.t).

Module repo.

(** Each operation takes [down], whether the driver call fails for a reason
    of its own (connection lost, deadline exceeded); a failed call leaves the
    collection as it is. *)

(** The document of [otp] as the collection holds it and gives it back:
    its three times are BSON datetimes. *)
Definition document (otp : OTP.t) : OTP.t :=
  OTP.mk (OTP.Phone otp) (OTP.Code otp) (stored_time (OTP.ExpiresAt otp))
    (OTP.Attempts otp) (OTP.MaxAttempts otp) (stored_time (OTP.CreatedAt otp))
    (stored_time (OTP.UpdatedAt otp)).

(** [Create]: stamps the bookkeeping times, then [InsertOne]; the unique
    index refuses a second document for the phone. *)
Definition Create (down : bool) (now1 now2 : time.Time) (otp : OTP.t)
    (c : Collection) : Collection * option StoreError :=
  let otp := OTP.mk (OTP.Phone otp) (OTP.Code otp) (OTP.ExpiresAt otp)
               (OTP.Attempts otp) (OTP.MaxAttempts otp) now1 now2 in
  if down then (c, Some ErrUnavailable)
  else match c !! OTP.Phone otp with
       | Some _ => (c, Some ErrDuplicateKey)
       | None => (<[OTP.Phone otp := document otp]> c, None)
       end.

(** [FindByPhone]: [FindOne(...).Decode]; no document is an error
    ([mongo.ErrNoDocuments]) and the returned pointer is then nil. *)
Definition FindByPhone (down : bool) (phone : string) (c : Collection)
    : option OTP.t * option StoreError :=
  if down then (None, Some ErrUnavailable)
  else match c !! phone with
       | Some otp => (Some otp, None)
       | None => (None, Some ErrNoDocuments)
       end.

(** [DeleteByPhone]: [DeleteOne]; deleting nothing is not an error. *)
Definition DeleteByPhone (down : bool) (phone : string) (c : Collection)
    : Collection * option StoreError :=
  if down then (c, Some ErrUnavailable) else (delete phone c, None).

(** [IncrementAttempts]: [UpdateOne] with [$inc attempts 1] and
    [$set updated_at now]; matching no document is not an error. *)
Definition IncrementAttempts (down : bool) (now : time.Time) (phone : string)
    (c : Collection) : Collection * option StoreError :=
  if down then (c, Some ErrUnavailable)
  else (alter (fun otp =>
                 OTP.mk (OTP.Phone otp) (OTP.Code otp) (OTP.ExpiresAt otp)
                   (OTP.Attempts otp + 1) (OTP.MaxAttempts otp)
                   (OTP.CreatedAt otp) now) phone c, None).

End repo.

(** ** The SMS service (sms_service/service.go) *)

(** What the service acts on: the OTP collection behind [s.repo.OTP()] and
    the calls made to [s.smsClient.SendOTP], as (phone, code) pairs, oldest
    first. *)
Record World := mkWorld {
  otps : Collection;
  dispatched : list (string * string)
}.

Definition with_otps (c : Collection) (w : World) : World :=
  mkWorld c (dispatched w).

(** *** VerifyOTP *)

(** The outside world during one [VerifyOTP] call. A call deletes at most
    once (on expiry, or after a match), so one flag covers both places. *)
Record VerifyEnv := mkVerifyEnv {
  v_find_down : bool;       (* FindByPhone, line 213 *)
  v_now : time.Time;        (* time.Now(), line 224 *)
  v_delete_down : bool;     (* DeleteByPhone, line 227 or 256 *)
  v_incr_down : bool;       (* IncrementAttempts, line 246 *)
  v_incr_now : time.Time    (* time.Now() inside IncrementAttempts *)
}.

Definition msgNotFound : string :=
  "OTP not found or expired. Please request a new OTP.".
Definition msgExpired : string :=
  "OTP expired. Please request a new OTP.".
Definition msgMaxAttempts : string :=
  "Maximum verification attempts reached. Please request a new OTP.".
Definition msgVerified : string := "OTP verified successfully".
Definition msgInvalid : string := "Invalid OTP. Please try again.".

Definition rejected (message : string) : VerifyOTPResponse.t :=
  VerifyOTPResponse.mk false message false.

Definition verified : VerifyOTPResponse.t :=
  VerifyOTPResponse.mk true msgVerified true.

Definition VerifyOTP (env : VerifyEnv) (req : VerifyOTPRequest.t) (w : World)
    : World * (option VerifyOTPResponse.t * option AppError) :=
  let phone := VerifyOTPRequest.PhoneNumber req in
  (* Get stored OTP *)
  match repo.FindByPhone (v_find_down env) phone (otps w) with
  | (Some storedOTP, None) =>
      (* Check if OTP has expired *)
      if time.After (v_now env) (OTP.ExpiresAt storedOTP) then
        let '(c, _) := repo.DeleteByPhone (v_delete_down env) phone (otps w) in
        (with_otps c w, (Some (rejected msgExpired), None))
      (* Check if max attempts reached *)
      else if OTP.MaxAttempts storedOTP <=? OTP.Attempts storedOTP then
        (w, (Some (rejected msgMaxAttempts), None))
      else
        (* Increment attempts; a failure is logged and nothing more *)
        let '(c1, _) :=
          repo.IncrementAttempts (v_incr_down env) (v_incr_now env) phone (otps w) in
        (* Check if OTP matches *)
        if String.eqb (OTP.Code storedOTP) (VerifyOTPRequest.OTP req) then
          let '(c2, _) := repo.DeleteByPhone (v_delete_down env) phone c1 in
          (with_otps c2 w, (Some verified, None))
        else
          (with_otps c1 w, (Some (rejected msgInvalid), None))
  | _ =>
      (* err != nil || storedOTP == nil *)
      (w, (Some (rejected msgNotFound), None))
  end.

(** [env] with another fate for the attempt increment. *)
Definition with_incr_down (down : bool) (env : VerifyEnv) : VerifyEnv :=
  mkVerifyEnv (v_find_down env) (v_now env) (v_delete_down env) down
    (v_incr_now env).

(** *** generateOTP *)

(** [rand.Int(rand.Reader, big.NewInt(10))] returns a number in [0, 10) or an
    error. The draws of one call are given by the environment: [rand i] is
    the outcome of draw number [i], [None] when the reader fails. The error
    of the reader has no text here, so the error [generateOTP] returns is
    the text the code puts in front of it; [SendOTP], its only caller, tests
    the error against nil and drops it. *)
Abbreviation RandSource := (nat -> option (fin 10)).

(** [num.Int64()]. *)
Definition Int64 (num : fin 10) : Z := Z.of_nat (fin_to_nat num).

(** [fmt.Sprintf("%d", n)]: the decimal numeral of [n]. *)
Definition Sprintf_d (n : Z) : string := pretty n.

(** The loop [for i := 0; i < 6; i++], with [todo = 6 - i] rounds left. *)
Fixpoint generateOTP_loop (rand : RandSource) (i : nat) (todo : nat)
    (otp : string) : string * option string :=
  match todo with
  | O => (otp, None)
  | S todo' =>
      match rand i with
      | None => ("", Some "failed to generate random number")
      | Some num =>
          generateOTP_loop rand (S i) todo' (otp +:+ Sprintf_d (Int64 num))
      end
  end.

Definition generateOTP (rand : RandSource) : string * option string :=
  generateOTP_loop rand 0 6 "".

(** *** SendOTP *)

(** The outside world during one [SendOTP] call. *)
Record SendEnv := mkSendEnv {
  s_find_down : bool;            (* FindByPhone, line 148 *)
  s_now : time.Time;             (* time.Now() inside time.Until, line 151 *)
  s_resend_delete_down : bool;   (* DeleteByPhone, line 161 *)
  s_rand : RandSource;           (* rand.Reader, line 308 *)
  s_expiry_now : time.Time;      (* time.Now(), line 172 *)
  s_create_down : bool;          (* Create, line 183 *)
  s_create_now1 : time.Time;     (* time.Now() for CreatedAt *)
  s_create_now2 : time.Time;     (* time.Now() for UpdatedAt *)
  s_dispatch_fails : bool;       (* smsClient.SendOTP, line 190 *)
  s_cleanup_delete_down : bool   (* DeleteByPhone, line 194 *)
}.

Definition msgAlreadySent : string :=
  "OTP already sent. Please wait before requesting a new one.".
Definition msgSent : string := "OTP sent successfully".

(** Lines 164-205: generate, store, dispatch. [c] is the collection as the
    first part of [SendOTP] left it. *)
Definition issue (env : SendEnv) (phone : string) (c : Collection)
    (w : World) : World * (option OTPResponse.t * option AppError) :=
  (* Generate 6-digit OTP *)
  match generateOTP (s_rand env) with
  | (_, Some _) =>
      (with_otps c w, (None, Some (NewInternalError "Failed to generate OTP")))
  | (otp, None) =>
      (* Set expiry time (5 minutes from now) *)
      let expiry := time.Add (s_expiry_now env) (5 * time.Minute) in
      let otpRecord := OTP.mk phone otp expiry 0 3 zeroTime zeroTime in
      (* Store OTP in repository *)
      match repo.Create (s_create_down env) (s_create_now1 env)
              (s_create_now2 env) otpRecord c with
      | (c1, Some _) =>
          (with_otps c1 w, (None, Some (NewInternalError "Failed to store OTP")))
      | (c1, None) =>
          (* Send OTP via SMS *)
          let calls := (dispatched w ++ [(phone, otp)])%list in
          if s_dispatch_fails env then
            (* Clean up stored OTP if SMS fails *)
            let '(c2, _) :=
              repo.DeleteByPhone (s_cleanup_delete_down env) phone c1 in
            (mkWorld c2 calls,
             (None, Some (NewServiceUnavailableError "SMS provider")))
          else
            (mkWorld c1 calls,
             (Some (OTPResponse.mk true msgSent otp expiry), None))
      end
  end.

Definition SendOTP (env : SendEnv) (req : OTPRequest.t) (w : World)
    : World * (option OTPResponse.t * option AppError) :=
  let phone := OTPRequest.PhoneNumber req in
  (* Check if OTP already exists and hasn't expired *)
  match repo.FindByPhone (s_find_down env) phone (otps w) with
  | (Some existingOTP, None) =>
      (* OTP exists, check if we should allow resend *)
      let timeUntilExpiry := time.Until (s_now env) (OTP.ExpiresAt existingOTP) in
      if 2 * time.Minute <? timeUntilExpiry then
        (w, (Some (OTPResponse.mk false msgAlreadySent ""
                     (OTP.ExpiresAt existingOTP)), None))
      else
        (* Delete existing OTP to allow resend *)
        let '(c, _) :=
          repo.DeleteByPhone (s_resend_delete_down env) phone (otps w) in
        issue env phone c w
  | _ => issue env phone (otps w) w
  end.

(** What a caller learns who looks at the [Success] flag of the response and
    at nothing else; without a response there is no flag to find set. *)
Definition success_flag (answer : option OTPResponse.t * option AppError)
    : bool :=
  match answer.1 with
  | Some resp => OTPResponse.Success resp
  | None => false
  end.

(** ** The transport (sms_service/transport) *)

(** *** The send-otp endpoint (endpoints.go) *)

Definition isDigit (ch : ascii) : bool :=
  ((48 <=? nat_of_ascii ch) && (nat_of_ascii ch <=? 57))%nat.

(** [isValidPhoneNumber]: at least 10 bytes, a leading [+], digits after. *)
Definition isValidPhoneNumber (phone : string) : bool :=
  match phone with
  | EmptyString => false
  | String first rest =>
      if (String.length phone <? 10)%nat || negb (Ascii.eqb first "+") then false
      else forallb isDigit (list_ascii_of_string rest)
  end.

(** [isValidOTP]: six bytes, all of them digits. The source ranges over
    the runes of the string; a byte that is not ASCII belongs to a rune above
    ['9'], so the test on bytes decides the same. *)
Definition isValidOTP (otp : string) : bool :=
  if negb (String.length otp =? 6)%nat then false
  else forallb isDigit (list_ascii_of_string otp).

(** What the handler writes with [c.JSON]. *)
Inductive Reply :=
| ReplyAppError (appErr : AppError)   (* c.JSON(appErr.StatusCode, appErr) *)
| ReplyNotAvailable                   (* 500, "Service not available" *)
| ReplyOTP (response : OTPResponse.t) (* c.JSON(http.StatusOK, response) *)
| Panic                               (* nil pointer dereference *).

(** The handler built by [makeSendOTPEndpoint]. [body] is the outcome of
    [c.ShouldBindJSON(&req)] (the request, or the text of the binding
    error); [svc_ok] says whether [svc] has a [SendOTP] method. *)
Definition makeSendOTPEndpoint (svc_ok : bool) (env : SendEnv)
    (body : OTPRequest.t + string) (w : World) : World * Reply :=
  match body with
  | inr err =>
      (w, ReplyAppError (NewValidationError ("Invalid request format: " +:+ err)))
  | inl req =>
      (* Validate phone number format *)
      if negb (isValidPhoneNumber (OTPRequest.PhoneNumber req)) then
        (w, ReplyAppError (NewValidationError "Invalid phone number format"))
      else if negb svc_ok then (w, ReplyNotAvailable)
      else
        match SendOTP env req w with
        | (w', (_, Some appErr)) => (w', ReplyAppError appErr)
        | (w', (Some response, None)) =>
            (* In production, don't return the actual OTP in response *)
            let response :=
              if OTPResponse.Success response then
                OTPResponse.mk (OTPResponse.Success response)
                  (OTPResponse.Message response) ""
                  (OTPResponse.ExpiresAt response)
              else response in
            (w', ReplyOTP response)
        | (w', (None, None)) => (w', Panic) (* response.Success on nil *)
        end
  end.

(** *** The rate-limit middleware (http.go) *)

(** A two's-complement int64 result. *)
Definition wrap64 (z : Z) : Z := (z + 2 ^ 63) mod 2 ^ 64 - 2 ^ 63.

(** What the middleware reads of a request: the [phone] route parameter, the
    method, and the [phone_number] of the JSON body when the body binds
    ([None] when [ShouldBindJSON] fails). *)
Record Request := mkRequest {
  Param_phone : string;
  Method : string;
  Body_phone_number : option string
}.

Inductive Outcome :=
| Next          (* c.Next() *)
| TooManyRequests (* c.JSON(http.StatusTooManyRequests, ...); c.Abort() *).

(** The closure's [requests] map. *)
Abbreviation Requests := (gmap string (list Z)).

Definition phone_of (c : Request) : string :=
  if String.eqb (Param_phone c) "" then
    if String.eqb (Method c) "POST" then
      match Body_phone_number c with
      | Some p => p
      | None => ""
      end
    else ""
  else Param_phone c.

(** One request through the handler returned by [RateLimitMiddleware];
    [now] is [time.Now().Unix()]. *)
Definition RateLimitMiddleware (now : Z) (c : Request) (requests : Requests)
    : Requests * Outcome :=
  let phone := phone_of c in
  if negb (String.eqb phone "") then
    let window := wrap64 (now - 60) in (* 1 minute window *)
    match requests !! phone with
    | Some timestamps =>
        (* Clean old requests *)
        let valid := List.filter (fun ts => window <? ts) timestamps in
        let requests := <[phone := valid]> requests in
        (* Check rate limit (max 5 requests per minute) *)
        if (5 <=? length valid)%nat then (requests, TooManyRequests)
        else (<[phone := (valid ++ [now])%list]> requests, Next)
    | None => (<[phone := [now]]> requests, Next)
    end
  else (requests, Next).

(** *** Successive calls *)

(** [VerifyOTP] calls made one after the other, each in its own
    environment; the answers come back in the order of the calls. *)
Fixpoint verify_all (calls : list (VerifyEnv * VerifyOTPRequest.t))
    (w : World)
    : World * list (option VerifyOTPResponse.t * option AppError) :=
  match calls with
  | [] => (w, [])
  | (env, req) :: calls' =>
      let '(w1, answer) := VerifyOTP env req w in
      let '(w2, answers) := verify_all calls' w1 in
      (w2, answer :: answers)
  end.

(** *** Successive requests through the middleware *)

Definition is_Next (o : Outcome) : bool :=
  match o with
  | Next => true
  | TooManyRequests => false
  end.

(** Requests served one after the other by the same handler, each with the
    reading of the clock at its arrival. *)
Fixpoint serve (arrivals : list (Z * Request)) (requests : Requests)
    : Requests * list Outcome :=
  match arrivals with
  | [] => (requests, [])
  | (now, c) :: rest =>
      let '(requests1, o) := RateLimitMiddleware now c requests in
      let '(requests2, os) := serve rest requests1 in
      (requests2, o :: os)
  end.

(** The arrival times of the requests for [phone] that were let through. *)
Fixpoint passed (phone : string) (arrivals : list (Z * Request))
    (outcomes : list Outcome) : list Z :=
  match arrivals, outcomes with
  | (now, c) :: rest, o :: os =>
      if String.eqb (phone_of c) phone && is_Next o
      then now :: passed phone rest os
      else passed phone rest os
  | _, _ => []
  end.

(** [t] lies in the 60 seconds that end at [T]. *)
Definition in_window (T t : Z) : bool := (T - 60 <? t) && (t <=? T).

(** The clock of the arrivals never goes back from [lo] on, and its readings
    are such that [now - 60] is an int64. *)
Fixpoint clock_ok (lo : Z) (arrivals : list (Z * Request)) : Prop :=
  match arrivals with
  | [] => True
  | (now, _) :: rest =>
      lo <= now /\ - 2 ^ 63 + 60 <= now < 2 ^ 63 /\ clock_ok now rest
  end.

(** *** Notions used in the statements *)

(** The record [issue] stores for a code, as the collection holds it. *)
Definition issued (env : SendEnv) (phone otp : string) : OTP.t :=
  repo.document
    (OTP.mk phone otp (time.Add (s_expiry_now env) (5 * time.Minute)) 0 3
       (s_create_now1 env) (s_create_now2 env)).

(** The four ways [issue] can end. *)
Inductive issue_outcome (env : SendEnv) (phone : string) (c : Collection)
    (w : World) : World * (option OTPResponse.t * option AppError) -> Prop :=
| no_code :
    (generateOTP (s_rand env)).2 <> None ->
    issue_outcome env phone c w
      (with_otps c w, (None, Some (NewInternalError "Failed to generate OTP")))
| not_stored otp :
    generateOTP (s_rand env) = (otp, None) ->
    s_create_down env = true \/ c !! phone <> None ->
    issue_outcome env phone c w
      (with_otps c w, (None, Some (NewInternalError "Failed to store OTP")))
| not_dispatched otp :
    generateOTP (s_rand env) = (otp, None) ->
    s_create_down env = false -> c !! phone = None ->
    s_dispatch_fails env = true ->
    issue_outcome env phone c w
      (mkWorld
         (repo.DeleteByPhone (s_cleanup_delete_down env) phone
            (<[phone := issued env phone otp]> c)).1
         (dispatched w ++ [(phone, otp)])%list,
       (None, Some (NewServiceUnavailableError "SMS provider")))
| sent otp :
    generateOTP (s_rand env) = (otp, None) ->
    s_create_down env = false -> c !! phone = None ->
    s_dispatch_fails env = false ->
    issue_outcome env phone c w
      (mkWorld (<[phone := issued env phone otp]> c)
         (dispatched w ++ [(phone, otp)])%list,
       (Some (OTPResponse.mk true msgSent otp
                (time.Add (s_expiry_now env) (5 * time.Minute))), None)).

(** The timestamps the middleware keeps: those after [lo]. *)
Definition kept (lo : Z) (l : list Z) : list Z :=
  List.filter (fun ts => lo <? ts) l.

(** How what the handler holds for [phone] stands to [hist], the requests
    for the phone let through since some moment, once the clock has reached
    [lo]: as long as there is no list for the phone none was let through,
    and the list holds at least as many timestamps after any bound, from
    60 seconds before an earlier reading of the clock on, as [hist] does. *)
Definition tracks (phone : string) (lo : Z) (hist : list Z)
    (requests : Requests) : Prop :=
  (requests !! phone = None /\ hist = []) \/
  (exists prev timestamps,
     prev <= lo /\ requests !! phone = Some timestamps /\
     forall bound, prev - 60 <= bound ->
       (length (kept bound hist) <= length (kept bound timestamps))%nat).

(** No 60 seconds hold more than five of the times of [hist]. *)
Definition bounded (hist : list Z) : Prop :=
  forall T, (length (List.filter (in_window T) hist) <= 5)%nat.

(** ** The rest of the OTP engine *)

(** *** FindExpired and CleanupExpiredOTPs *)

(** [FindExpired] (mongo.go): the documents with [expires_at < now], [now]
    being the clock read when the query is built. The source does not fix
    the order in which the cursor yields them; they are taken here in the
    order of the map, and no property below depends on it. *)
Definition FindExpired (down : bool) (now : time.Time) (c : Collection)
    : list OTP.t * option StoreError :=
  if down then ([], Some ErrUnavailable)
  else (List.filter (fun otp => OTP.ExpiresAt otp <? now)
          (map snd (map_to_list c)), None).

(** The outside world during one [CleanupExpiredOTPs] call; [k_delete_down i]
    is the fate of the delete made in round [i] of the loop. *)
Record CleanupEnv := mkCleanupEnv {
  k_find_down : bool;            (* FindExpired, line 278 *)
  k_now : time.Time;             (* time.Now() inside FindExpired *)
  k_delete_down : nat -> bool    (* DeleteByPhone, line 286 *)
}.

(** The loop [for _, otp := range expiredOTPs], from round [i] on; a failed
    delete is logged and the loop goes on. *)
Fixpoint cleanup_loop (delete_down : nat -> bool) (i : nat)
    (expiredOTPs : list OTP.t) (c : Collection) : Collection :=
  match expiredOTPs with
  | [] => c
  | otp :: rest =>
      let '(c1, _) := repo.DeleteByPhone (delete_down i) (OTP.Phone otp) c in
      cleanup_loop delete_down (S i) rest c1
  end.

Definition CleanupExpiredOTPs (env : CleanupEnv) (w : World) : World :=
  match FindExpired (k_find_down env) (k_now env) (otps w) with
  | (_, Some _) => w
  | (expiredOTPs, None) =>
      with_otps (cleanup_loop (k_delete_down env) 0 expiredOTPs (otps w)) w
  end.

(** *** Calls of the service, in any order *)

Inductive Call :=
| CallSendOTP (env : SendEnv) (req : OTPRequest.t)
| CallVerifyOTP (env : VerifyEnv) (req : VerifyOTPRequest.t)
| CallCleanup (env : CleanupEnv).

Definition call (k : Call) (w : World) : World :=
  match k with
  | CallSendOTP env req => (SendOTP env req w).1
  | CallVerifyOTP env req => (VerifyOTP env req w).1
  | CallCleanup env => CleanupExpiredOTPs env w
  end.

Fixpoint run (calls : list Call) (w : World) : World :=
  match calls with
  | [] => w
  | k :: rest => run rest (call k w)
  end.

(** The five ways a [VerifyOTP] call can go. *)
Inductive verify_branch (env : VerifyEnv) (req : VerifyOTPRequest.t)
    (w : World) : World * (option VerifyOTPResponse.t * option AppError) -> Prop :=
| branch_not_found :
    v_find_down env = true \/
    otps w !! VerifyOTPRequest.PhoneNumber req = None ->
    verify_branch env req w (w, (Some (rejected msgNotFound), None))
| branch_expired storedOTP :
    v_find_down env = false ->
    otps w !! VerifyOTPRequest.PhoneNumber req = Some storedOTP ->
    OTP.ExpiresAt storedOTP < v_now env ->
    verify_branch env req w
      (with_otps (repo.DeleteByPhone (v_delete_down env)
                    (VerifyOTPRequest.PhoneNumber req) (otps w)).1 w,
       (Some (rejected msgExpired), None))
| branch_exhausted storedOTP :
    v_find_down env = false ->
    otps w !! VerifyOTPRequest.PhoneNumber req = Some storedOTP ->
    v_now env <= OTP.ExpiresAt storedOTP ->
    OTP.MaxAttempts storedOTP <= OTP.Attempts storedOTP ->
    verify_branch env req w (w, (Some (rejected msgMaxAttempts), None))
| branch_matched storedOTP :
    v_find_down env = false ->
    otps w !! VerifyOTPRequest.PhoneNumber req = Some storedOTP ->
    v_now env <= OTP.ExpiresAt storedOTP ->
    OTP.Attempts storedOTP < OTP.MaxAttempts storedOTP ->
    VerifyOTPRequest.OTP req = OTP.Code storedOTP ->
    verify_branch env req w
      (with_otps
         (repo.DeleteByPhone (v_delete_down env)
            (VerifyOTPRequest.PhoneNumber req)
            (repo.IncrementAttempts (v_incr_down env) (v_incr_now env)
               (VerifyOTPRequest.PhoneNumber req) (otps w)).1).1 w,
       (Some verified, None))
| branch_mismatched storedOTP :
    v_find_down env = false ->
    otps w !! VerifyOTPRequest.PhoneNumber req = Some storedOTP ->
    v_now env <= OTP.ExpiresAt storedOTP ->
    OTP.Attempts storedOTP < OTP.MaxAttempts storedOTP ->
    VerifyOTPRequest.OTP req <> OTP.Code storedOTP ->
    verify_branch env req w
      (with_otps
         (repo.IncrementAttempts (v_incr_down env) (v_incr_now env)
            (VerifyOTPRequest.PhoneNumber req) (otps w)).1 w,
       (Some (rejected msgInvalid), None)).

(** Every record is stored under its own phone. *)
Definition keyed (c : Collection) : Prop :=
  forall phone otp, c !! phone = Some otp -> OTP.Phone otp = phone.

(** A record as the service makes and keeps them: stored under its own
    phone, a six-digit code, a ceiling of three attempts and a count of
    attempts between zero and the ceiling. *)
Definition sound_record (phone : string) (otp : OTP.t) : Prop :=
  OTP.Phone otp = phone /\
  isValidOTP (OTP.Code otp) = true /\
  OTP.MaxAttempts otp = 3 /\
  0 <= OTP.Attempts otp <= OTP.MaxAttempts otp.

Definition sound (c : Collection) : Prop :=
  forall phone otp, c !! phone = Some otp -> sound_record phone otp.

(** The environment of a [SendOTP] call in which nothing fails. *)
Definition cooperative (env : SendEnv) : Prop :=
  s_find_down env = false /\
  s_resend_delete_down env = false /\
  (forall i, (i < 6)%nat -> s_rand env i <> None) /\
  s_create_down env = false /\
  s_dispatch_fails env = false.

(** The answers of [VerifyOTP] that come from comparing the codes. *)
Definition compared (answer : option VerifyOTPResponse.t * option AppError)
    : bool :=
  match answer.1 with
  | Some resp =>
      String.eqb (VerifyOTPResponse.Message resp) msgInvalid
      || String.eqb (VerifyOTPResponse.Message resp) msgVerified
  | None => false
  end.

(** The comparisons the record of [phone] still allows. *)
Definition guesses_left (phone : string) (c : Collection) : nat :=
  match c !! phone with
  | Some otp => Z.to_nat (OTP.MaxAttempts otp - OTP.Attempts otp)
  | None => 0
  end.

(** ** The rest of the transport *)

(** *** The verify-otp endpoint (endpoints.go) *)

(** What the handler built by [makeVerifyOTPEndpoint] writes; the response
    of a 200 reply is the pointer the service returned, nil included. *)
Inductive VerifyReply :=
| VerifyReplyAppError (appErr : AppError)
| VerifyReplyNotAvailable
| VerifyReplyOK (response : option VerifyOTPResponse.t).

(** The handler built by [makeVerifyOTPEndpoint]; [body] and [svc_ok] are
    as for the send-otp endpoint. *)
Definition makeVerifyOTPEndpoint (svc_ok : bool) (env : VerifyEnv)
    (body : VerifyOTPRequest.t + string) (w : World) : World * VerifyReply :=
  match body with
  | inr err =>
      (w, VerifyReplyAppError
            (NewValidationError ("Invalid request format: " +:+ err)))
  | inl req =>
      (* Validate phone number format *)
      if negb (isValidPhoneNumber (VerifyOTPRequest.PhoneNumber req)) then
        (w, VerifyReplyAppError (NewValidationError "Invalid phone number format"))
      (* Validate OTP format (6 digits) *)
      else if negb (isValidOTP (VerifyOTPRequest.OTP req)) then
        (w, VerifyReplyAppError
              (NewValidationError "Invalid OTP format. Must be 6 digits."))
      else if negb svc_ok then (w, VerifyReplyNotAvailable)
      else
        match VerifyOTP env req w with
        | (w', (_, Some appErr)) => (w', VerifyReplyAppError appErr)
        | (w', (response, None)) => (w', VerifyReplyOK response)
        end
  end.

(** The draw that prints as the digit [ch], if [ch] is a digit. *)
Definition draw_of (ch : ascii) : option (fin 10) :=
  match decide (nat_of_ascii ch - 48 < 10)%nat with
  | left Hlt => if isDigit ch then Some (nat_to_fin Hlt) else None
  | right _ => None
  end.

(** The random source whose draws print as the characters of [code]. *)
Definition draws_of (code : string) : RandSource := fun i =>
  match list_ascii_of_string code !! i with
  | Some ch => draw_of ch
  | None => None
  end.

(** *** States of the rate limiter that later requests cannot tell apart *)

(** From a clock reading [lo] on, two states of the handler are alike when
    they know the same phones and, for each, hold the same timestamps after
    any bound from [lo - 60] on. *)
Definition alike (lo : Z) (a b : Requests) : Prop :=
  forall phone,
    match a !! phone, b !! phone with
    | Some la, Some lb =>
        forall bound, lo - 60 <= bound -> kept bound la = kept bound lb
    | None, None => True
    | _, _ => False
    end.

(** No phone has more than five timestamps recorded. *)
Definition compact (requests : Requests) : Prop :=
  forall phone timestamps,
    requests !! phone = Some timestamps -> (length timestamps <= 5)%nat.

(** ** Plain SMS and callbacks *)

(** *** Object ids *)

(** [primitive.ObjectID] belongs to the BSON library, outside the
    repository. It is taken as any type of ids with a hex form, [id.Hex()],
    and a parser, [primitive.ObjectIDFromHex], that gives back the id whose
    hex form it is given and may refuse other strings. *)
Class ObjectIDs (Oid : Type) `{Countable Oid} := {
  Hex : Oid -> string;
  ObjectIDFromHex : string -> option Oid;
  ObjectIDFromHex_Hex : forall id, ObjectIDFromHex (Hex id) = Some id
}.

(** Errors of the repositories that look records up by id. *)
Inductive RepoError :=
| ErrInvalidHex                 (* primitive.ObjectIDFromHex failed *)
| ErrDriver (e : StoreError).

(** Status constants (models.go). *)
Definition StatusPending : string := "pending".
Definition StatusSent : string := "sent".
Definition StatusFailed : string := "failed".
Definition StatusRequested : string := "requested".

(** *** models.SMS and the SMS repository *)

Module SMS.
Record t (Oid : Type) := mk {
  ID : Oid;
  From : string;
  To : string;
  Message : string;
  Status : string;
  Provider : string;
  ProviderID : string;
  SentAt : time.Time;
  DeliveredAt : option time.Time;
  CreatedAt : time.Time;
  UpdatedAt : time.Time
}.
Arguments mk {Oid}.
Arguments ID {Oid}.
Arguments From {Oid}.
Arguments To {Oid}.
Arguments Message {Oid}.
Arguments Status {Oid}.
Arguments Provider {Oid}.
Arguments ProviderID {Oid}.
Arguments SentAt {Oid}.
Arguments DeliveredAt {Oid}.
Arguments CreatedAt {Oid}.
Arguments UpdatedAt {Oid}.
End SMS.

Module SMSRequest.
Record t := mk { PhoneNumber : string; Message : string }.
End SMSRequest.

Module smsrepo.

(** [SMSRepository.Create]: stamps [CreatedAt], [UpdatedAt] and [SentAt],
    then [InsertOne]; the record comes with the zero id, so the driver
    gives it a new one, [inserted], which the repository writes back. *)
Definition Create `{ObjectIDs Oid} (down : bool) (now1 now2 now3 : time.Time)
    (inserted : Oid) (sms : SMS.t Oid) (c : gmap Oid (SMS.t Oid))
    : gmap Oid (SMS.t Oid) * option Oid * option StoreError :=
  if down then (c, None, Some ErrUnavailable)
  else match c !! inserted with
       | Some _ => (c, None, Some ErrDuplicateKey)
       | None =>
           (<[inserted :=
                SMS.mk inserted (SMS.From sms) (SMS.To sms) (SMS.Message sms)
                  (SMS.Status sms) (SMS.Provider sms) (SMS.ProviderID sms)
                  now3 (SMS.DeliveredAt sms) now1 now2]> c,
            Some inserted, None)
       end.

(** [SMSRepository.UpdateStatus]: parse the id, then [UpdateOne] setting
    [status] and [updated_at]; matching no document is not an error. *)
Definition UpdateStatus `{ObjectIDs Oid} (down : bool) (now : time.Time)
    (id : string) (status : string) (c : gmap Oid (SMS.t Oid))
    : gmap Oid (SMS.t Oid) * option RepoError :=
  match ObjectIDFromHex id with
  | None => (c, Some ErrInvalidHex)
  | Some objectID =>
      if down then (c, Some (ErrDriver ErrUnavailable))
      else (alter (fun sms =>
                     SMS.mk (SMS.ID sms) (SMS.From sms) (SMS.To sms)
                       (SMS.Message sms) status (SMS.Provider sms)
                       (SMS.ProviderID sms) (SMS.SentAt sms)
                       (SMS.DeliveredAt sms) (SMS.CreatedAt sms) now)
              objectID c, None)
  end.

End smsrepo.

(** *** SendSMS (service.go) *)

(** What [SendSMS] acts on: the [sms] collection and the calls made to
    [s.smsClient.SendSMS], as (phone, message) pairs, oldest first. *)
Record SMSWorld (Oid : Type) `{Countable Oid} := mkSMSWorld {
  smss : gmap Oid (SMS.t Oid);
  sms_calls : list (string * string)
}.
Arguments mkSMSWorld {Oid _ _}.
Arguments smss {Oid _ _}.
Arguments sms_calls {Oid _ _}.

(** The outside world during one [SendSMS] call. *)
Record SMSEnv (Oid : Type) := mkSMSEnv {
  m_provider : string;         (* smsClient.GetProvider() *)
  m_create_down : bool;        (* Create, line 60 *)
  m_create_now1 : time.Time;   (* time.Now() for CreatedAt *)
  m_create_now2 : time.Time;   (* time.Now() for UpdatedAt *)
  m_create_now3 : time.Time;   (* time.Now() for SentAt *)
  m_inserted : Oid;              (* result.InsertedID *)
  m_send_fails : bool;         (* smsClient.SendSMS, line 67 *)
  m_update_down : bool;        (* UpdateStatus, line 72 or 78 *)
  m_update_now : time.Time     (* time.Now() inside UpdateStatus *)
}.
Arguments mkSMSEnv {Oid}.
Arguments m_provider {Oid}.
Arguments m_create_down {Oid}.
Arguments m_create_now1 {Oid}.
Arguments m_create_now2 {Oid}.
Arguments m_create_now3 {Oid}.
Arguments m_inserted {Oid}.
Arguments m_send_fails {Oid}.
Arguments m_update_down {Oid}.
Arguments m_update_now {Oid}.

Definition SendSMS `{ObjectIDs Oid} (nil_id : Oid) (env : SMSEnv Oid)
    (req : SMSRequest.t) (w : SMSWorld Oid) : SMSWorld Oid * option AppError :=
  (* Create SMS record *)
  let sms :=
    SMS.mk nil_id (m_provider env) (SMSRequest.PhoneNumber req)
      (SMSRequest.Message req) StatusPending (m_provider env) ""
      zeroTime None zeroTime zeroTime in
  (* Store SMS record *)
  match smsrepo.Create (m_create_down env) (m_create_now1 env)
          (m_create_now2 env) (m_create_now3 env) (m_inserted env) sms
          (smss w) with
  | (c, Some id, None) =>
      (* Send SMS via provider *)
      let calls :=
        (sms_calls w ++ [(SMSRequest.PhoneNumber req, SMSRequest.Message req)])%list in
      if m_send_fails env then
        (* Update status to failed *)
        let '(c1, _) :=
          smsrepo.UpdateStatus (m_update_down env) (m_update_now env)
            (Hex id) StatusFailed c in
        (mkSMSWorld c1 calls, Some (NewServiceUnavailableError "SMS provider"))
      else
        (* Update status to sent; a failure is logged and nothing more *)
        let '(c1, _) :=
          smsrepo.UpdateStatus (m_update_down env) (m_update_now env)
            (Hex id) StatusSent c in
        (mkSMSWorld c1 calls, None)
  | (c, _, _) =>
      (mkSMSWorld c (sms_calls w),
       Some (NewInternalError "Failed to store SMS record"))
  end.

(** *** The send-sms endpoint (endpoints.go) *)

(** What the handler built by [makeSendSMSEndpoint] writes; a 200 reply
    carries the reading of the clock taken for it. *)
Inductive SMSReply :=
| SMSReplyAppError (appErr : AppError)
| SMSReplyNotAvailable
| SMSReplyOK (timestamp : time.Time).

(** The handler built by [makeSendSMSEndpoint]; [body] and [svc_ok] are as
    for the send-otp endpoint, [now] is the clock at the 200 reply. [len] of
    a Go string counts its bytes, as [String.length] does here. *)
Definition makeSendSMSEndpoint `{ObjectIDs Oid} (svc_ok : bool) (nil_id : Oid)
    (env : SMSEnv Oid) (now : time.Time) (body : SMSRequest.t + string)
    (w : SMSWorld Oid) : SMSWorld Oid * SMSReply :=
  match body with
  | inr err =>
      (w, SMSReplyAppError
            (NewValidationError ("Invalid request format: " +:+ err)))
  | inl req =>
      (* Validate phone number format *)
      if negb (isValidPhoneNumber (SMSRequest.PhoneNumber req)) then
        (w, SMSReplyAppError (NewValidationError "Invalid phone number format"))
      (* Validate message length *)
      else if (String.length (SMSRequest.Message req) =? 0)%nat
              || (160 <? String.length (SMSRequest.Message req))%nat then
        (w, SMSReplyAppError
              (NewValidationError "Message must be between 1 and 160 characters"))
      else if negb svc_ok then (w, SMSReplyNotAvailable)
      else
        match SendSMS nil_id env req w with
        | (w', Some appErr) => (w', SMSReplyAppError appErr)
        | (w', None) => (w', SMSReplyOK now)
        end
  end.

(** *** models.Callback and the callback repository *)

Module Callback.
Record t (Oid : Type) := mk {
  ID : Oid;
  PhoneNumber : string;
  Message : string;
  Priority : string;
  Status : string;
  RequestedAt : time.Time;
  CreatedAt : time.Time;
  UpdatedAt : time.Time
}.
Arguments mk {Oid}.
Arguments ID {Oid}.
Arguments PhoneNumber {Oid}.
Arguments Message {Oid}.
Arguments Priority {Oid}.
Arguments Status {Oid}.
Arguments RequestedAt {Oid}.
Arguments CreatedAt {Oid}.
Arguments UpdatedAt {Oid}.
End Callback.

Module CallbackRequest.
Record t := mk { PhoneNumber : string; Message : string; Priority : string }.
End CallbackRequest.

Module CallbackResponse.
Record t := mk {
  Success : bool;
  Message : string;
  RequestID : string;
  Status : string;
  Timestamp : time.Time
}.
End CallbackResponse.

Module cbrepo.

(** The document of [callback] as the collection holds it and gives it
    back: its three times are BSON datetimes. *)
Definition document {Oid : Type} (callback : Callback.t Oid)
    : Callback.t Oid :=
  Callback.mk (Callback.ID callback) (Callback.PhoneNumber callback)
    (Callback.Message callback) (Callback.Priority callback)
    (Callback.Status callback) (stored_time (Callback.RequestedAt callback))
    (stored_time (Callback.CreatedAt callback))
    (stored_time (Callback.UpdatedAt callback)).

(** [CallbackRepository.Create]: stamps [CreatedAt], [UpdatedAt] and
    [RequestedAt], then [InsertOne]; the record comes with the zero id, so
    the driver gives it a new one, [inserted], which the repository writes
    back. The second component of the result is the caller's record as the
    call leaves it, with the times as they were read from the clock. *)
Definition Create `{ObjectIDs Oid} (down : bool) (now1 now2 now3 : time.Time)
    (inserted : Oid) (callback : Callback.t Oid)
    (c : gmap Oid (Callback.t Oid))
    : gmap Oid (Callback.t Oid) * option (Callback.t Oid) * option StoreError :=
  if down then (c, None, Some ErrUnavailable)
  else match c !! inserted with
       | Some _ => (c, None, Some ErrDuplicateKey)
       | None =>
           let callback :=
             Callback.mk inserted (Callback.PhoneNumber callback)
               (Callback.Message callback) (Callback.Priority callback)
               (Callback.Status callback) now3 now1 now2 in
           (<[inserted := document callback]> c, Some callback, None)
       end.

(** [CallbackRepository.FindByID]. *)
Definition FindByID `{ObjectIDs Oid} (down : bool) (id : string)
    (c : gmap Oid (Callback.t Oid))
    : option (Callback.t Oid) * option RepoError :=
  match ObjectIDFromHex id with
  | None => (None, Some ErrInvalidHex)
  | Some objectID =>
      if down then (None, Some (ErrDriver ErrUnavailable))
      else match c !! objectID with
           | Some callback => (Some callback, None)
           | None => (None, Some (ErrDriver ErrNoDocuments))
           end
  end.

(** [CallbackRepository.UpdateStatus]: parse the id, then [UpdateOne]
    setting [status] and [updated_at]; matching no document is not an
    error. *)
Definition UpdateStatus `{ObjectIDs Oid} (down : bool) (now : time.Time)
    (id : string) (status : string) (c : gmap Oid (Callback.t Oid))
    : gmap Oid (Callback.t Oid) * option RepoError :=
  match ObjectIDFromHex id with
  | None => (c, Some ErrInvalidHex)
  | Some objectID =>
      if down then (c, Some (ErrDriver ErrUnavailable))
      else (alter (fun callback =>
                     Callback.mk (Callback.ID callback)
                       (Callback.PhoneNumber callback)
                       (Callback.Message callback)
                       (Callback.Priority callback) status
                       (Callback.RequestedAt callback)
                       (Callback.CreatedAt callback) now)
              objectID c, None)
  end.

End cbrepo.

(** *** The callback service (service.go) *)

(** The errors the callback service returns: those above and
    [common.NewNotFoundError] (code 1002, status 404, details
    [resource +:+ " not found"]), which the OTP engine never builds. *)
Inductive CallbackError :=
| Common (appErr : AppError)
| NewNotFoundError (resource : string).

(** The outside world during one [RequestCallback] call. *)
Record CallbackEnv (Oid : Type) := mkCallbackEnv {
  c_create_down : bool;        (* Create, line 339 *)
  c_create_now1 : time.Time;   (* time.Now() for CreatedAt *)
  c_create_now2 : time.Time;   (* time.Now() for UpdatedAt *)
  c_create_now3 : time.Time;   (* time.Now() for RequestedAt *)
  c_inserted : Oid             (* result.InsertedID *)
}.
Arguments mkCallbackEnv {Oid}.
Arguments c_create_down {Oid}.
Arguments c_create_now1 {Oid}.
Arguments c_create_now2 {Oid}.
Arguments c_create_now3 {Oid}.
Arguments c_inserted {Oid}.

Definition RequestCallback `{ObjectIDs Oid} (nil_id : Oid)
    (env : CallbackEnv Oid) (req : CallbackRequest.t)
    (c : gmap Oid (Callback.t Oid))
    : gmap Oid (Callback.t Oid) * (option CallbackResponse.t * option AppError) :=
  (* Create callback record *)
  let callback :=
    Callback.mk nil_id (CallbackRequest.PhoneNumber req)
      (CallbackRequest.Message req) (CallbackRequest.Priority req)
      StatusRequested zeroTime zeroTime zeroTime in
  (* Store callback request in database *)
  match cbrepo.Create (c_create_down env) (c_create_now1 env)
          (c_create_now2 env) (c_create_now3 env) (c_inserted env)
          callback c with
  | (c', Some stored, None) =>
      (c', (Some (CallbackResponse.mk true
                    "Callback request received successfully"
                    (Hex (Callback.ID stored)) (Callback.Status stored)
                    (Callback.CreatedAt stored)), None))
  | (c', _, _) =>
      (c', (None, Some (NewInternalError "Failed to store callback request")))
  end.

Definition GetCallbackStatus `{ObjectIDs Oid} (down : bool)
    (requestID : string) (c : gmap Oid (Callback.t Oid))
    : option (Callback.t Oid) * option CallbackError :=
  match cbrepo.FindByID down requestID c with
  | (Some callback, None) => (Some callback, None)
  | _ => (None, Some (NewNotFoundError "callback request"))
  end.

Definition UpdateCallbackStatus `{ObjectIDs Oid} (down : bool)
    (now : time.Time) (requestID status : string)
    (c : gmap Oid (Callback.t Oid))
    : gmap Oid (Callback.t Oid) * option AppError :=
  match cbrepo.UpdateStatus down now requestID status c with
  | (c', None) => (c', None)
  | (c', Some _) =>
      (c', Some (NewInternalError "Failed to update callback status"))
  end.

(** *** The callback-status endpoint (endpoints.go) *)

(** What the handler built by [makeGetCallbackStatusEndpoint] writes. *)
Inductive CallbackStatusReply (Oid : Type) :=
| CallbackReplyError (appErr : CallbackError)
| CallbackReplyNotAvailable
| CallbackReplyOK (callback : option (Callback.t Oid)).
Arguments CallbackReplyError {Oid}.
Arguments CallbackReplyNotAvailable {Oid}.
Arguments CallbackReplyOK {Oid}.

(** The handler built by [makeGetCallbackStatusEndpoint]; [requestID] is
    [c.Param("request_id")]. *)
Definition makeGetCallbackStatusEndpoint `{ObjectIDs Oid} (svc_ok : bool)
    (down : bool) (requestID : string) (c : gmap Oid (Callback.t Oid))
    : CallbackStatusReply Oid :=
  if String.eqb requestID "" then
    CallbackReplyError (Common (NewValidationError "Request ID is required"))
  else if negb svc_ok then CallbackReplyNotAvailable
  else
    match GetCallbackStatus down requestID c with
    | (_, Some appErr) => CallbackReplyError appErr
    | (callback, None) => CallbackReplyOK callback
    end.

(** *** Ids for the examples *)

(** Ids written with a leading [#]: enough to run the code above, with
    strings that parse and strings that do not. *)
#[export] Instance string_ids : ObjectIDs string := {
  Hex := fun id => String "#" id;
  ObjectIDFromHex := fun s =>
    match s with
    | String "#" id => Some id
    | _ => None
    end;
  ObjectIDFromHex_Hex := fun id => eq_refl
}.

(** ** Sample data

    The scenario of the specification: an OTP issued for [+15551230000] at
    [t0], hence expiring five minutes later. *)

Definition t0 : time.Time := 1700000000 * time.Second.

Definition phone0 : string := "+15551230000".

Definition otp0 (attempts : Z) : OTP.t :=
  OTP.mk phone0 "123456" (time.Add t0 (5 * time.Minute)) attempts 3 t0 t0.

Definition world0 (attempts : Z) : World :=
  mkWorld {[ phone0 := otp0 attempts ]} [].

(** A [VerifyOTP] call [secs] seconds after [t0] with the store working. *)
Definition verify_at (secs : Z) : VerifyEnv :=
  mkVerifyEnv false (t0 + secs * time.Second) false false
    (t0 + secs * time.Second).

Definition right0 : VerifyOTPRequest.t := VerifyOTPRequest.mk phone0 "123456".
Definition wrong0 : VerifyOTPRequest.t := VerifyOTPRequest.mk phone0 "123457".

(** Three wrong codes, one, two and three seconds after the issue. *)
Definition three_wrong0 : list (VerifyEnv * VerifyOTPRequest.t) :=
  [(verify_at 1, wrong0); (verify_at 2, wrong0); (verify_at 3, wrong0)].

(** A random source drawing 1, 2, 3, ... : the code comes out as 123456. *)
Definition counting : RandSource := fun i =>
  match i with
  | 0%nat => Some 1%fin | 1%nat => Some 2%fin | 2%nat => Some 3%fin
  | 3%nat => Some 4%fin | 4%nat => Some 5%fin | 5%nat => Some 6%fin
  | _ => Some 0%fin
  end.

(** A [SendOTP] call [secs] seconds after [t0], the store working and the
    random source delivering; [dispatch_fails] is the fate of the SMS. *)
Definition send_at (secs : Z) (dispatch_fails : bool) : SendEnv :=
  let now := t0 + secs * time.Second in
  mkSendEnv false now false counting now false now now dispatch_fails false.

Definition request0 : OTPRequest.t := OTPRequest.mk phone0.

(** A clock reading that is not a whole millisecond; [SendOTP] and
    [VerifyOTP] calls at a given reading with everything working. *)
Definition tick0 : time.Time := t0 + 1234567.

Definition issuing_at (now : time.Time) : SendEnv :=
  mkSendEnv false now false counting now false now now false false.

Definition verifying_at (now : time.Time) : VerifyEnv :=
  mkVerifyEnv false now false false now.

(** No OTP outstanding, nothing sent yet. *)
Definition idle : World := mkWorld ∅ [].

(** [VerifyOTP] calls ten seconds after [t0] during which the lookup,
    respectively the attempt increment, fails. *)
Definition lookup_down0 : VerifyEnv :=
  mkVerifyEnv true (t0 + 10 * time.Second) false false (t0 + 10 * time.Second).
Definition increment_down0 : VerifyEnv :=
  mkVerifyEnv false (t0 + 10 * time.Second) false true (t0 + 10 * time.Second).


(** A [SendOTP] call at [t0] during which the dispatch fails and then the
    delete that should undo the issue. *)
Definition rollback_down0 : SendEnv :=
  mkSendEnv false t0 false counting t0 false t0 t0 true true.

(** A POST to send-otp for [phone0]: no route parameter, the phone in the
    body. *)
Definition post0 : Request := mkRequest "" "POST" (Some phone0).

(** Six of them within ten seconds (Unix time, in seconds). *)
Definition burst0 : list (Z * Request) :=
  [(1700000000, post0); (1700000002, post0); (1700000004, post0);
   (1700000006, post0); (1700000008, post0); (1700000010, post0)].

(** Requests as they arrive in real time: the handler reads the clock in
    whole seconds. *)
Definition arriving (times : list time.Time) (c : Request)
    : list (Z * Request) :=
  map (fun t => (time.Unix t, c)) times.

(** Ten arrivals: five in the last nanosecond of the second [t0] falls in,
    five at the start of the second sixty later, so that 59.000000001
    seconds lie between the first and the last. *)
Definition straddle0 : list time.Time :=
  let early := t0 + 999999999 in
  let late := t0 + 60 * time.Second in
  [early; early; early; early; early; late; late; late; late; late].

(** A second phone whose OTP, issued five minutes before [t0], expires at
    [t0]; a store holding both records; a sweep a minute after [t0] with
    the store working. *)
Definition phone1 : string := "+15551230001".

Definition otp1 : OTP.t :=
  OTP.mk phone1 "654321" t0 1 3 (t0 - 5 * time.Minute) (t0 - 5 * time.Minute).

Definition world2 : World :=
  mkWorld (<[phone1 := otp1]> {[ phone0 := otp0 0 ]}) [].

Definition sweep0 : CleanupEnv :=
  mkCleanupEnv false (t0 + time.Minute) (fun _ => false).

(** A [SendOTP] call at [t0] during which the lookup fails and all else
    works. *)
Definition lookup_outage : SendEnv :=
  mkSendEnv true t0 false counting t0 false t0 t0 false false.

(** The handler after the first five requests of [burst0]. *)
Definition full0 : Requests := (serve (take 5 burst0) ∅).1.

(** A callback request, made at [tick0] under the id [a1], and the
    response to it; a collection holding a callback requested at [t0]. *)
Definition callback0 : CallbackRequest.t :=
  CallbackRequest.mk phone0 "call me" "high".

Definition asking0 : CallbackEnv string :=
  mkCallbackEnv false tick0 tick0 tick0 "a1".

Definition callbacks1 : gmap string (Callback.t string) :=
  {[ "a1" := Callback.mk "a1" phone0 "call me" "high" StatusRequested
               t0 t0 t0 ]}.

Definition response0 : CallbackResponse.t :=
  CallbackResponse.mk true "Callback request received successfully" "#a1"
    StatusRequested tick0.

(** A message on record, the collection holding it, and a later message
    that the provider refuses. *)
Definition sms0 : SMS.t string :=
  SMS.mk "s0" "mock" phone0 "hello" StatusSent "mock" "" t0 None t0 t0.

Definition outbox0 : SMSWorld string := mkSMSWorld {[ "s0" := sms0 ]} [].

Definition text0 : SMSRequest.t := SMSRequest.mk phone1 "hi".

Definition refused0 : SMSEnv string :=
  mkSMSEnv "mock" false (t0 + 1) (t0 + 1) (t0 + 1) "s1" true false (t0 + 2).

(** * Properties *)

(** ** Durations *)

(** Clamping does not change how a duration compares with two minutes. *)
Lemma Until_two_minutes (now t : time.Time) :
  (2 * time.Minute <? time.Until now t) = (2 * time.Minute <? t - now).
Proof.
  unfold time.Until, time.Sub, time.Minute, time.Second, time.Nanosecond,
    time.minDuration, time.maxDuration.
  destruct (Z.ltb_spec (t - now) (- 2 ^ 63));
    [|destruct (Z.ltb_spec (2 ^ 63 - 1) (t - now))].
  - destruct (Z.ltb_spec (2 * (60 * (1000000000 * 1))) (t - now)); [lia|].
    reflexivity.
  - destruct (Z.ltb_spec (2 * (60 * (1000000000 * 1))) (t - now)); [|lia].
    reflexivity.
  - reflexivity.
Qed.

(** ** Times in the store *)

(** A stored time is the last whole millisecond not after the time. *)
Lemma stored_time_bounds (t : time.Time) :
  stored_time t <= t < stored_time t + time.Millisecond.
Proof.
  unfold stored_time, primitive.Time, primitive.NewDateTimeFromTime,
    time.Millisecond, time.Nanosecond.
  pose proof (Z.div_mod t (1000000 * 1) ltac:(lia)) as Hdiv.
  pose proof (Z.mod_pos_bound t (1000000 * 1) ltac:(lia)) as Hmod.
  lia.
Qed.

(** Whole milliseconds pass through the store as they are. *)
Lemma stored_time_add (t : time.Time) (k : Z) :
  stored_time (t + k * time.Millisecond)
  = stored_time t + k * time.Millisecond.
Proof.
  unfold stored_time, primitive.Time, primitive.NewDateTimeFromTime,
    time.Millisecond, time.Nanosecond.
  rewrite Z.div_add by lia. lia.
Qed.

(** ** The repository *)

Lemma FindByPhone_found (down : bool) (phone : string) (c : Collection)
    (otp : OTP.t) :
  repo.FindByPhone down phone c = (Some otp, None) <->
  down = false /\ c !! phone = Some otp.
Proof.
  unfold repo.FindByPhone. destruct down.
  - split; [discriminate | intros [? _]; discriminate].
  - destruct (c !! phone) as [o|]; split.
    + intros [= ->]. auto.
    + intros [_ [= ->]]. reflexivity.
    + discriminate.
    + intros [_ ?]. discriminate.
Qed.

Lemma FindByPhone_missing (down : bool) (phone : string) (c : Collection) :
  c !! phone = None ->
  exists err, repo.FindByPhone down phone c = (None, Some err).
Proof.
  intros Hnone. unfold repo.FindByPhone. rewrite Hnone.
  destruct down; eauto.
Qed.

Lemma FindByPhone_down (phone : string) (c : Collection) :
  repo.FindByPhone true phone c = (None, Some ErrUnavailable).
Proof. reflexivity. Qed.

Lemma DeleteByPhone_sub (down : bool) (phone : string) (c : Collection) :
  (repo.DeleteByPhone down phone c).1 ⊆ c.
Proof.
  unfold repo.DeleteByPhone. destruct down; simpl.
  - reflexivity.
  - apply delete_subseteq.
Qed.

Lemma DeleteByPhone_up (phone : string) (c : Collection) :
  (repo.DeleteByPhone false phone c).1 !! phone = None.
Proof. simpl. apply lookup_delete_eq. Qed.

Lemma IncrementAttempts_up (now : time.Time) (phone : string)
    (c : Collection) (otp : OTP.t) :
  c !! phone = Some otp ->
  (repo.IncrementAttempts false now phone c).1 !! phone =
    Some (OTP.mk (OTP.Phone otp) (OTP.Code otp) (OTP.ExpiresAt otp)
            (OTP.Attempts otp + 1) (OTP.MaxAttempts otp) (OTP.CreatedAt otp) now).
Proof.
  intros Hc. simpl. rewrite lookup_alter_eq, Hc. reflexivity.
Qed.

(** ** VerifyOTP, one guard at a time *)

Section VerifyGuards.

Variables (env : VerifyEnv) (req : VerifyOTPRequest.t) (w : World).
Variable storedOTP : OTP.t.

Let phone := VerifyOTPRequest.PhoneNumber req.

Hypothesis Hup : v_find_down env = false.
Hypothesis Hstored : otps w !! phone = Some storedOTP.

Lemma VerifyOTP_expired :
  OTP.ExpiresAt storedOTP < v_now env ->
  VerifyOTP env req w =
    (with_otps (repo.DeleteByPhone (v_delete_down env) phone (otps w)).1 w,
     (Some (rejected msgExpired), None)).
Proof.
  intros Hlate. unfold VerifyOTP. fold phone.
  rewrite (proj2 (FindByPhone_found _ _ _ _) (conj Hup Hstored)).
  unfold time.After. rewrite (proj2 (Z.ltb_lt _ _) Hlate).
  destruct (repo.DeleteByPhone _ _ _). reflexivity.
Qed.

Lemma VerifyOTP_exhausted :
  v_now env <= OTP.ExpiresAt storedOTP ->
  OTP.MaxAttempts storedOTP <= OTP.Attempts storedOTP ->
  VerifyOTP env req w = (w, (Some (rejected msgMaxAttempts), None)).
Proof.
  intros Hlive Hmax. unfold VerifyOTP. fold phone.
  rewrite (proj2 (FindByPhone_found _ _ _ _) (conj Hup Hstored)).
  unfold time.After. rewrite (proj2 (Z.ltb_ge _ _) Hlive).
  rewrite (proj2 (Z.leb_le _ _) Hmax). reflexivity.
Qed.

Lemma VerifyOTP_compared :
  v_now env <= OTP.ExpiresAt storedOTP ->
  OTP.Attempts storedOTP < OTP.MaxAttempts storedOTP ->
  let c1 :=
    (repo.IncrementAttempts (v_incr_down env) (v_incr_now env) phone (otps w)).1 in
  VerifyOTP env req w =
    if String.eqb (OTP.Code storedOTP) (VerifyOTPRequest.OTP req)
    then (with_otps (repo.DeleteByPhone (v_delete_down env) phone c1).1 w,
          (Some verified, None))
    else (with_otps c1 w, (Some (rejected msgInvalid), None)).
Proof.
  intros Hlive Hroom c1. unfold VerifyOTP. fold phone.
  rewrite (proj2 (FindByPhone_found _ _ _ _) (conj Hup Hstored)).
  unfold time.After. rewrite (proj2 (Z.ltb_ge _ _) Hlive).
  rewrite (proj2 (Z.leb_gt _ _) Hroom).
  subst c1. destruct (repo.IncrementAttempts _ _ _ _) as [c1 e1]. simpl.
  destruct (String.eqb _ _); [|reflexivity].
  destruct (repo.DeleteByPhone _ _ _). reflexivity.
Qed.

End VerifyGuards.

(** Whatever the store does, a call answers with a response and no error. *)
Lemma VerifyOTP_answers (env : VerifyEnv) (req : VerifyOTPRequest.t)
    (w : World) :
  exists resp, (VerifyOTP env req w).2 = (Some resp, None).
Proof.
  unfold VerifyOTP.
  destruct (repo.FindByPhone _ _ _) as [[otp|] [e|]]; simpl; eauto.
  destruct (time.After _ _).
  { destruct (repo.DeleteByPhone _ _ _); simpl; eauto. }
  destruct (_ <=? _); simpl; eauto.
  destruct (repo.IncrementAttempts _ _ _ _) as [c1 e1].
  destruct (String.eqb _ _); simpl; eauto.
  destruct (repo.DeleteByPhone _ _ _); simpl; eauto.
Qed.

(** No record, or a lookup that fails: the same rejection, nothing touched. *)
Lemma VerifyOTP_not_found (env : VerifyEnv) (req : VerifyOTPRequest.t)
    (w : World) :
  v_find_down env = true \/ otps w !! VerifyOTPRequest.PhoneNumber req = None ->
  VerifyOTP env req w = (w, (Some (rejected msgNotFound), None)).
Proof.
  intros Hmiss. unfold VerifyOTP.
  destruct Hmiss as [Hdown | Hnone].
  - rewrite Hdown, FindByPhone_down. reflexivity.
  - destruct (FindByPhone_missing (v_find_down env) _ _ Hnone) as [e ->].
    reflexivity.
Qed.

(** ** VerifyOTP: the order of the guards *)

(** C1. For a phone whose record is in the store, [VerifyOTP] goes through
    its guards in a fixed order. An expired record ([now > expiresAt]) is
    never valid, whatever the store does and whatever code is submitted.
    When the lookup returns the record: first, if it has expired, the call
    issues the delete and answers with the 'expired' rejection, and no
    attempt is counted (what is left of the collection is part of what was
    there, and the record is gone once the delete is carried out); second,
    if it has not expired and [attempts >= maxAttempts], the collection is
    left as it is and the answer is the 'max attempts' rejection for every
    submitted code; only otherwise is the attempt counted and the submitted
    code compared with the stored one. *)
Theorem VerifyOTP_guard_order (env : VerifyEnv) (req : VerifyOTPRequest.t)
    (w : World) (storedOTP : OTP.t) :
  let phone := VerifyOTPRequest.PhoneNumber req in
  otps w !! phone = Some storedOTP ->
  (OTP.ExpiresAt storedOTP < v_now env ->
     exists resp,
       (VerifyOTP env req w).2 = (Some resp, None) /\
       VerifyOTPResponse.Valid resp = false /\
       VerifyOTPResponse.Success resp = false) /\
  (v_find_down env = false ->
     (OTP.ExpiresAt storedOTP < v_now env ->
        VerifyOTP env req w =
          (with_otps (repo.DeleteByPhone (v_delete_down env) phone (otps w)).1 w,
           (Some (rejected msgExpired), None)) /\
        otps (VerifyOTP env req w).1 ⊆ otps w /\
        (v_delete_down env = false ->
           otps (VerifyOTP env req w).1 !! phone = None)) /\
     (v_now env <= OTP.ExpiresAt storedOTP ->
      OTP.MaxAttempts storedOTP <= OTP.Attempts storedOTP ->
        forall code,
          VerifyOTP env (VerifyOTPRequest.mk phone code) w =
            (w, (Some (rejected msgMaxAttempts), None))) /\
     (v_now env <= OTP.ExpiresAt storedOTP ->
      OTP.Attempts storedOTP < OTP.MaxAttempts storedOTP ->
        let c1 :=
          (repo.IncrementAttempts (v_incr_down env) (v_incr_now env) phone
             (otps w)).1 in
        (v_incr_down env = false ->
           OTP.Attempts <$> c1 !! phone = Some (OTP.Attempts storedOTP + 1)) /\
        VerifyOTP env req w =
          if String.eqb (OTP.Code storedOTP) (VerifyOTPRequest.OTP req)
          then (with_otps (repo.DeleteByPhone (v_delete_down env) phone c1).1 w,
                (Some verified, None))
          else (with_otps c1 w, (Some (rejected msgInvalid), None)))).
Proof.
  intros phone Hstored. split.
  - intros Hlate. destruct (v_find_down env) eqn:Hdown.
    + rewrite VerifyOTP_not_found by auto. simpl. eauto.
    + rewrite (VerifyOTP_expired env req w storedOTP Hdown Hstored Hlate).
      simpl. eauto.
  - intros Hdown. split; [|split].
    + intros Hlate.
      rewrite (VerifyOTP_expired env req w storedOTP Hdown Hstored Hlate).
      split; [reflexivity|]. split.
      * apply DeleteByPhone_sub.
      * intros ->. apply DeleteByPhone_up.
    + intros Hlive Hmax code.
      apply (VerifyOTP_exhausted env _ w storedOTP); assumption.
    + intros Hlive Hroom c1. split.
      * intros Hincr. subst c1. rewrite Hincr.
        rewrite (IncrementAttempts_up _ _ _ _ Hstored). reflexivity.
      * apply (VerifyOTP_compared env req w storedOTP); assumption.
Qed.

Lemma VerifyOTP_guard_order_witness :
  otps (world0 0) !! phone0 = Some (otp0 0) /\
  otps (world0 3) !! phone0 = Some (otp0 3) /\
  (* 301 s after issue: expired, deleted *)
  (VerifyOTP (verify_at 301) (VerifyOTPRequest.mk phone0 "123456") (world0 0)).2
    = (Some (rejected msgExpired), None) /\
  otps (VerifyOTP (verify_at 301) (VerifyOTPRequest.mk phone0 "123456")
          (world0 0)).1 !! phone0 = None /\
  (* in time, three attempts made: refused, untouched *)
  VerifyOTP (verify_at 10) (VerifyOTPRequest.mk phone0 "123456") (world0 3)
    = (world0 3, (Some (rejected msgMaxAttempts), None)) /\
  (* in time, no attempt made: compared *)
  (VerifyOTP (verify_at 10) (VerifyOTPRequest.mk phone0 "123456") (world0 0)).2
    = (Some verified, None).
Proof.
  assert (H0 : otps (world0 0) !! phone0 = Some (otp0 0)) by reflexivity.
  assert (H3 : otps (world0 3) !! phone0 = Some (otp0 3)) by reflexivity.
  split; [exact H0|]. split; [exact H3|].
  destruct (VerifyOTP_guard_order (verify_at 301)
              (VerifyOTPRequest.mk phone0 "123456") (world0 0) (otp0 0) H0)
    as [_ Hexp].
  destruct (Hexp eq_refl) as [Hexp1 _].
  destruct Hexp1 as [Hres [_ Hgone]]; [vm_compute; reflexivity|].
  split; [rewrite Hres; reflexivity|].
  split; [apply Hgone; reflexivity|].
  destruct (VerifyOTP_guard_order (verify_at 10)
              (VerifyOTPRequest.mk phone0 "123456") (world0 3) (otp0 3) H3)
    as [_ Hmax].
  destruct (Hmax eq_refl) as [_ [Hmax2 _]].
  split; [apply Hmax2; vm_compute; congruence|].
  destruct (VerifyOTP_guard_order (verify_at 10)
              (VerifyOTPRequest.mk phone0 "123456") (world0 0) (otp0 0) H0)
    as [_ Hcmp].
  destruct (Hcmp eq_refl) as [_ [_ Hcmp3]].
  destruct Hcmp3 as [_ Hres3]; [vm_compute; congruence | vm_compute; reflexivity |].
  rewrite Hres3. reflexivity.
Defined.

(** ** VerifyOTP: wrong codes and the ceiling *)

(** A wrong code on a live record below the ceiling, with the store working:
    the 'invalid' rejection, and one more attempt on the record. *)
Lemma VerifyOTP_wrong_code (env : VerifyEnv) (req : VerifyOTPRequest.t)
    (w : World) (storedOTP : OTP.t) :
  let phone := VerifyOTPRequest.PhoneNumber req in
  v_find_down env = false ->
  v_incr_down env = false ->
  otps w !! phone = Some storedOTP ->
  v_now env <= OTP.ExpiresAt storedOTP ->
  OTP.Attempts storedOTP < OTP.MaxAttempts storedOTP ->
  VerifyOTPRequest.OTP req <> OTP.Code storedOTP ->
  (VerifyOTP env req w).2 = (Some (rejected msgInvalid), None) /\
  otps (VerifyOTP env req w).1 !! phone =
    Some (OTP.mk (OTP.Phone storedOTP) (OTP.Code storedOTP)
            (OTP.ExpiresAt storedOTP) (OTP.Attempts storedOTP + 1)
            (OTP.MaxAttempts storedOTP) (OTP.CreatedAt storedOTP)
            (v_incr_now env)).
Proof.
  intros phone Hup Hincr Hstored Hlive Hroom Hwrong.
  rewrite (VerifyOTP_compared env req w storedOTP Hup Hstored Hlive Hroom).
  fold phone. rewrite Hincr.
  destruct (String.eqb_spec (OTP.Code storedOTP) (VerifyOTPRequest.OTP req))
    as [Heq | _]; [congruence|].
  split; [reflexivity|].
  apply IncrementAttempts_up, Hstored.
Qed.

Lemma verify_all_cons (env : VerifyEnv) (req : VerifyOTPRequest.t)
    (calls : list (VerifyEnv * VerifyOTPRequest.t)) (w : World) :
  verify_all ((env, req) :: calls) w =
    ((verify_all calls (VerifyOTP env req w).1).1,
     (VerifyOTP env req w).2 :: (verify_all calls (VerifyOTP env req w).1).2).
Proof.
  cbn [verify_all]. destruct (VerifyOTP env req w) as [w1 answer].
  cbn [fst snd]. destruct (verify_all calls w1) as [w2 answers]. reflexivity.
Qed.

(** C2 (as the code has it). From a fresh record (no attempt made, ceiling
    3) that has not expired at any of the calls, and with the store working,
    three calls with wrong codes are each answered with the 'invalid code'
    rejection, the third one included; they leave three attempts on the
    record. A fourth call, with the right code or any other, is answered
    with the 'max attempts' rejection and changes nothing. *)
Theorem three_wrong_codes_then_locked
    (phone code wrong1 wrong2 wrong3 last : string)
    (expiresAt createdAt updatedAt : time.Time)
    (e1 e2 e3 e4 : VerifyEnv) (w : World) :
  otps w !! phone = Some (OTP.mk phone code expiresAt 0 3 createdAt updatedAt) ->
  wrong1 <> code -> wrong2 <> code -> wrong3 <> code ->
  Forall (fun e => v_find_down e = false /\ v_incr_down e = false /\
                   v_now e <= expiresAt) [e1; e2; e3; e4] ->
  let first3 :=
    verify_all [(e1, VerifyOTPRequest.mk phone wrong1);
                (e2, VerifyOTPRequest.mk phone wrong2);
                (e3, VerifyOTPRequest.mk phone wrong3)] w in
  first3.2 = [(Some (rejected msgInvalid), None);
              (Some (rejected msgInvalid), None);
              (Some (rejected msgInvalid), None)] /\
  OTP.Attempts <$> otps first3.1 !! phone = Some 3 /\
  VerifyOTP e4 (VerifyOTPRequest.mk phone last) first3.1 =
    (first3.1, (Some (rejected msgMaxAttempts), None)).
Proof.
  intros Hfresh Hw1 Hw2 Hw3 Henvs first3.
  apply Forall_cons in Henvs as [(Hf1 & Hi1 & Ht1) Henvs].
  apply Forall_cons in Henvs as [(Hf2 & Hi2 & Ht2) Henvs].
  apply Forall_cons in Henvs as [(Hf3 & Hi3 & Ht3) Henvs].
  apply Forall_cons in Henvs as [(Hf4 & _ & Ht4) _].
  destruct (VerifyOTP_wrong_code e1 (VerifyOTPRequest.mk phone wrong1) w _
              Hf1 Hi1 Hfresh Ht1 ltac:(simpl; lia) Hw1) as [Ha1 Hs1].
  simpl in Hs1.
  destruct (VerifyOTP_wrong_code e2 (VerifyOTPRequest.mk phone wrong2) _ _
              Hf2 Hi2 Hs1 Ht2 ltac:(simpl; lia) Hw2) as [Ha2 Hs2].
  simpl in Hs2.
  destruct (VerifyOTP_wrong_code e3 (VerifyOTPRequest.mk phone wrong3) _ _
              Hf3 Hi3 Hs2 Ht3 ltac:(simpl; lia) Hw3) as [Ha3 Hs3].
  simpl in Hs3.
  subst first3. rewrite !verify_all_cons. cbn [verify_all fst snd].
  rewrite Ha1, Ha2, Ha3. split; [reflexivity|].
  rewrite Hs3. split; [reflexivity|].
  apply (VerifyOTP_exhausted e4 (VerifyOTPRequest.mk phone last) _ _ Hf4 Hs3);
    simpl; [exact Ht4 | lia].
Qed.

Lemma three_wrong_codes_then_locked_witness :
  otps (world0 0) !! phone0 = Some (otp0 0) /\
  (verify_all three_wrong0 (world0 0)).2 =
    [(Some (rejected msgInvalid), None);
     (Some (rejected msgInvalid), None);
     (Some (rejected msgInvalid), None)] /\
  (VerifyOTP (verify_at 4) right0 (verify_all three_wrong0 (world0 0)).1).2 =
    (Some (rejected msgMaxAttempts), None).
Proof.
  assert (H0 : otps (world0 0) !! phone0 = Some (otp0 0)) by reflexivity.
  split; [exact H0|].
  destruct (three_wrong_codes_then_locked phone0 "123456" "123457" "123457"
              "123457" "123456" (time.Add t0 (5 * time.Minute)) t0 t0
              (verify_at 1) (verify_at 2) (verify_at 3) (verify_at 4)
              (world0 0) H0)
    as (Hanswers & _ & Hlocked).
  - discriminate.
  - discriminate.
  - discriminate.
  - repeat constructor; vm_compute; discriminate.
  - split; [exact Hanswers|].
    unfold right0, phone0 in *. unfold three_wrong0, wrong0, phone0.
    rewrite Hlocked. reflexivity.
Defined.

(** C2, as stated, fails: the third wrong code is answered with the
    'invalid code' rejection, not with 'max attempts'. *)
Lemma third_wrong_code_is_invalid_not_max :
  (verify_all three_wrong0 (world0 0)).2 !! 2%nat =
    Some (Some (rejected msgInvalid), None) /\
  (verify_all three_wrong0 (world0 0)).2 !! 2%nat <>
    Some (Some (rejected msgMaxAttempts), None).
Proof. split; [vm_compute; reflexivity | vm_compute; discriminate]. Qed.

(** ** VerifyOTP: the right code *)




(** ** VerifyOTP: when the store fails *)

(** C6, as stated, fails. With a live record and the right code, a failed
    lookup is answered exactly as a phone without any record is ('not found
    or expired', no error); with a wrong code, a failed increment is
    answered exactly as a successful one is ('invalid code', no error), and
    the attempt is not counted. *)
Lemma store_errors_are_not_surfaced :
  (VerifyOTP lookup_down0 right0 (world0 0)).2
    = (Some (rejected msgNotFound), None) /\
  (VerifyOTP lookup_down0 right0 (world0 0)).2
    = (VerifyOTP (verify_at 10) right0 idle).2 /\
  (VerifyOTP increment_down0 wrong0 (world0 0)).2
    = (Some (rejected msgInvalid), None) /\
  (VerifyOTP increment_down0 wrong0 (world0 0)).2
    = (VerifyOTP (verify_at 10) wrong0 (world0 0)).2 /\
  (VerifyOTP increment_down0 wrong0 (world0 0)).1 = world0 0.
Proof. vm_compute. repeat split; reflexivity. Qed.

(** C6 (as the code has it). [VerifyOTP] never returns an error: every call
    returns a response. A failed lookup gives the 'not found or expired'
    rejection and changes nothing, as for a phone without a record. A failed
    increment changes neither the answer, which is the one the call gives
    when the increment succeeds, nor the record's attempts. *)
Theorem VerifyOTP_store_errors (env : VerifyEnv) (req : VerifyOTPRequest.t)
    (w : World) :
  let phone := VerifyOTPRequest.PhoneNumber req in
  (exists resp, (VerifyOTP env req w).2 = (Some resp, None)) /\
  (v_find_down env = true ->
     VerifyOTP env req w = (w, (Some (rejected msgNotFound), None)) /\
     forall w0 : World, otps w0 !! phone = None ->
       (VerifyOTP env req w0).2 = (VerifyOTP env req w).2) /\
  (forall down : bool,
     (VerifyOTP (with_incr_down down env) req w).2 = (VerifyOTP env req w).2) /\
  (v_incr_down env = true ->
     forall phone', OTP.Attempts <$> otps (VerifyOTP env req w).1 !! phone' =
                    OTP.Attempts <$> otps w !! phone' \/
                    otps (VerifyOTP env req w).1 !! phone' = None).
Proof.
  intros phone. split; [apply VerifyOTP_answers|]. split; [|split].
  - intros Hdown. split.
    + apply VerifyOTP_not_found. auto.
    + intros w0 Hnone. rewrite !VerifyOTP_not_found by auto. reflexivity.
  - intros down. unfold VerifyOTP, with_incr_down. simpl.
    destruct (repo.FindByPhone _ _ _) as [[otp|] [e|]]; try reflexivity.
    destruct (time.After _ _).
    { destruct (repo.DeleteByPhone _ _ _). reflexivity. }
    destruct (_ <=? _); [reflexivity|].
    destruct down, (v_incr_down env); simpl;
      destruct (String.eqb _ _); try reflexivity;
      destruct (v_delete_down env); reflexivity.
  - intros Hincr phone'. unfold VerifyOTP. fold phone. rewrite Hincr.
    destruct (repo.FindByPhone _ _ _) as [[otp|] [e|]]; auto.
    destruct (time.After _ _).
    { unfold repo.DeleteByPhone. destruct (v_delete_down env); simpl; auto.
      destruct (decide (phone = phone')) as [<- | Hne].
      - right. apply lookup_delete_eq.
      - left. rewrite lookup_delete_ne by exact Hne. reflexivity. }
    destruct (_ <=? _); auto. simpl.
    destruct (String.eqb _ _); simpl; auto.
    unfold repo.DeleteByPhone. destruct (v_delete_down env); simpl; auto.
    destruct (decide (phone = phone')) as [<- | Hne].
    + right. apply lookup_delete_eq.
    + left. rewrite lookup_delete_ne by exact Hne. reflexivity.
Qed.

(** ** SendOTP: what a call can come to *)

Lemma issue_cases (env : SendEnv) (phone : string) (c : Collection)
    (w : World) :
  issue_outcome env phone c w (issue env phone c w).
Proof.
  unfold issue.
  destruct (generateOTP (s_rand env)) as [otp [e|]] eqn:Hgen.
  { apply no_code. rewrite Hgen. discriminate. }
  unfold repo.Create. cbn [OTP.Phone OTP.Code OTP.ExpiresAt OTP.Attempts
    OTP.MaxAttempts].
  destruct (s_create_down env) eqn:Hdown.
  { eapply not_stored; eauto. }
  destruct (c !! phone) as [old|] eqn:Hold.
  { eapply not_stored; eauto. right. rewrite Hold. discriminate. }
  destruct (s_dispatch_fails env) eqn:Hfail.
  - destruct (repo.DeleteByPhone _ _ _) as [c2 e2] eqn:Hdel.
    replace c2 with
      (repo.DeleteByPhone (s_cleanup_delete_down env) phone
         (<[phone := issued env phone otp]> c)).1
      by (unfold issued; rewrite Hdel; reflexivity).
    apply not_dispatched; auto.
  - apply (sent env phone c w otp); auto.
Qed.

(** The cooldown answer, and the two ways on to [issue]. *)
Lemma SendOTP_already_sent (env : SendEnv) (req : OTPRequest.t) (w : World)
    (existingOTP : OTP.t) :
  repo.FindByPhone (s_find_down env) (OTPRequest.PhoneNumber req) (otps w)
    = (Some existingOTP, None) ->
  OTP.ExpiresAt existingOTP - s_now env > 2 * time.Minute ->
  SendOTP env req w =
    (w, (Some (OTPResponse.mk false msgAlreadySent ""
                 (OTP.ExpiresAt existingOTP)), None)).
Proof.
  intros Hfind Hfar. unfold SendOTP. rewrite Hfind, Until_two_minutes.
  rewrite (proj2 (Z.ltb_lt _ _)) by lia. reflexivity.
Qed.

Lemma SendOTP_resend (env : SendEnv) (req : OTPRequest.t) (w : World)
    (existingOTP : OTP.t) :
  let phone := OTPRequest.PhoneNumber req in
  repo.FindByPhone (s_find_down env) phone (otps w) = (Some existingOTP, None) ->
  OTP.ExpiresAt existingOTP - s_now env <= 2 * time.Minute ->
  SendOTP env req w =
    issue env phone
      (repo.DeleteByPhone (s_resend_delete_down env) phone (otps w)).1 w.
Proof.
  intros phone Hfind Hnear. unfold SendOTP. fold phone.
  rewrite Hfind, Until_two_minutes.
  rewrite (proj2 (Z.ltb_ge _ _)) by lia.
  destruct (repo.DeleteByPhone _ _ _). reflexivity.
Qed.

Lemma SendOTP_first (env : SendEnv) (req : OTPRequest.t) (w : World) :
  let phone := OTPRequest.PhoneNumber req in
  (forall existingOTP,
     repo.FindByPhone (s_find_down env) phone (otps w)
       <> (Some existingOTP, None)) ->
  SendOTP env req w = issue env phone (otps w) w.
Proof.
  intros phone Hnone. unfold SendOTP. fold phone.
  destruct (repo.FindByPhone _ _ _) as [[otp|] [e|]]; try reflexivity.
  destruct (Hnone otp eq_refl).
Qed.

(** Every call is the cooldown answer or an [issue]. *)
Lemma SendOTP_cases (env : SendEnv) (req : OTPRequest.t) (w : World) :
  let phone := OTPRequest.PhoneNumber req in
  (exists existingOTP,
     repo.FindByPhone (s_find_down env) phone (otps w) = (Some existingOTP, None) /\
     OTP.ExpiresAt existingOTP - s_now env > 2 * time.Minute /\
     SendOTP env req w =
       (w, (Some (OTPResponse.mk false msgAlreadySent ""
                    (OTP.ExpiresAt existingOTP)), None))) \/
  (exists c, issue_outcome env phone c w (SendOTP env req w)).
Proof.
  intros phone.
  destruct (repo.FindByPhone (s_find_down env) phone (otps w))
    as [[otp|] [e|]] eqn:Hfind.
  - right. exists (otps w). rewrite SendOTP_first.
    + apply issue_cases.
    + fold phone. rewrite Hfind. discriminate.
  - destruct (Z_gt_le_dec (OTP.ExpiresAt otp - s_now env) (2 * time.Minute))
      as [Hfar | Hnear].
    + left. exists otp. split; [reflexivity|]. split; [exact Hfar|].
      apply SendOTP_already_sent; assumption.
    + right. eexists. rewrite (SendOTP_resend env req w otp Hfind Hnear).
      apply issue_cases.
  - right. exists (otps w). rewrite SendOTP_first.
    + apply issue_cases.
    + fold phone. rewrite Hfind. discriminate.
  - right. exists (otps w). rewrite SendOTP_first.
    + apply issue_cases.
    + fold phone. rewrite Hfind. discriminate.
Qed.

(** ** SendOTP: the cooldown *)

(** C4. When the lookup of [SendOTP] returns a record whose expiry is more
    than two minutes ahead, the call returns, with no error, the 'already
    sent' response carrying that record's expiry, and leaves the world as it
    was: the same collection (so the same code, expiry and attempts for the
    phone) and no call to the SMS client. *)
Theorem SendOTP_cooldown (env : SendEnv) (req : OTPRequest.t) (w : World)
    (existingOTP : OTP.t) :
  let phone := OTPRequest.PhoneNumber req in
  repo.FindByPhone (s_find_down env) phone (otps w) = (Some existingOTP, None) ->
  OTP.ExpiresAt existingOTP - s_now env > 2 * time.Minute ->
  SendOTP env req w =
    (w, (Some (OTPResponse.mk false msgAlreadySent ""
                 (OTP.ExpiresAt existingOTP)), None)) /\
  otps (SendOTP env req w).1 !! phone = Some existingOTP /\
  dispatched (SendOTP env req w).1 = dispatched w.
Proof.
  intros phone Hfind Hfar.
  rewrite (SendOTP_already_sent env req w existingOTP Hfind Hfar).
  split; [reflexivity|]. split; [|reflexivity].
  apply FindByPhone_found in Hfind as [_ Hfind]. exact Hfind.
Qed.

Lemma SendOTP_cooldown_witness :
  repo.FindByPhone (s_find_down (send_at 60 false)) phone0 (otps (world0 0))
    = (Some (otp0 0), None) /\
  OTP.ExpiresAt (otp0 0) - s_now (send_at 60 false) > 2 * time.Minute /\
  SendOTP (send_at 60 false) request0 (world0 0) =
    (world0 0,
     (Some (OTPResponse.mk false msgAlreadySent "" (t0 + 5 * time.Minute)),
      None)).
Proof.
  assert (Hfind : repo.FindByPhone (s_find_down (send_at 60 false)) phone0
                    (otps (world0 0)) = (Some (otp0 0), None)) by reflexivity.
  assert (Hfar : OTP.ExpiresAt (otp0 0) - s_now (send_at 60 false)
                 > 2 * time.Minute) by (vm_compute; reflexivity).
  split; [exact Hfind|]. split; [exact Hfar|].
  exact (proj1 (SendOTP_cooldown (send_at 60 false) request0 (world0 0)
                  (otp0 0) Hfind Hfar)).
Defined.

(** ** SendOTP: a failed dispatch *)

(** C5, as stated, fails. The error of the delete that should undo the
    issue is dropped: when the store does not carry it out, the call returns
    the transport failure all the same, the record stays with its code, and
    that code, which was sent to no one, verifies. *)
Lemma failed_dispatch_leaves_a_valid_code :
  (SendOTP rollback_down0 request0 idle).2
    = (None, Some (NewServiceUnavailableError "SMS provider")) /\
  otps (SendOTP rollback_down0 request0 idle).1 !! phone0 = Some (otp0 0) /\
  otps (SendOTP rollback_down0 request0 idle).1 !! phone0 <> None /\
  (VerifyOTP (verify_at 10) right0 (SendOTP rollback_down0 request0 idle).1).2
    = (Some verified, None).
Proof.
  repeat split; try (vm_compute; reflexivity). vm_compute. discriminate.
Qed.

(** C5 (as the code has it). A [SendOTP] call that returns the transport
    failure (the service-unavailable error) is one whose call to the SMS
    client failed after the record had been stored; it returns no response.
    The delete issued before returning, when the store carries it out,
    leaves no record for the phone. When the store does not carry it out,
    nothing tells the caller: the record of the call stays, and its code,
    up to its expiry, verifies. *)
Theorem SendOTP_dispatch_failure_rolls_back (env : SendEnv)
    (req : OTPRequest.t) (w : World) (service : string) :
  let phone := OTPRequest.PhoneNumber req in
  let w' := (SendOTP env req w).1 in
  (SendOTP env req w).2.2 = Some (NewServiceUnavailableError service) ->
  s_dispatch_fails env = true /\
  (SendOTP env req w).2.1 = None /\
  (s_cleanup_delete_down env = false -> otps w' !! phone = None) /\
  exists otp,
    generateOTP (s_rand env) = (otp, None) /\
    dispatched w' = (dispatched w ++ [(phone, otp)])%list /\
    (s_cleanup_delete_down env = true ->
       otps w' !! phone = Some (issued env phone otp) /\
       forall venv : VerifyEnv,
         v_find_down venv = false ->
         v_now venv <= OTP.ExpiresAt (issued env phone otp) ->
         (VerifyOTP venv (VerifyOTPRequest.mk phone otp) w').2
           = (Some verified, None)).
Proof.
  intros phone w' Herr. subst w'.
  destruct (SendOTP_cases env req w) as [(old & _ & _ & Hrun) | [c Hout]].
  { rewrite Hrun in Herr. discriminate. }
  fold phone in Hout.
  destruct Hout as [Hgen | otp Hgen Hcreate | otp Hgen Hup Hfree Hfail
                   | otp Hgen Hup Hfree Hfail]; try discriminate.
  cbn [fst snd otps dispatched].
  split; [exact Hfail|]. split; [reflexivity|]. split.
  { intros Hdel. rewrite Hdel. apply DeleteByPhone_up. }
  exists otp. split; [exact Hgen|]. split; [reflexivity|].
  intros Hdel. rewrite Hdel. cbn [repo.DeleteByPhone fst].
  assert (Hrec : (<[phone := issued env phone otp]> c : Collection) !! phone
                 = Some (issued env phone otp)) by apply lookup_insert_eq.
  split; [exact Hrec|].
  intros venv Hfind Hlive.
  rewrite (VerifyOTP_compared venv (VerifyOTPRequest.mk phone otp)
             (mkWorld (<[phone := issued env phone otp]> c)
                (dispatched w ++ [(phone, otp)])%list)
             (issued env phone otp) Hfind Hrec Hlive)
    by (cbn; lia).
  cbn [issued repo.document OTP.Code VerifyOTPRequest.OTP].
  rewrite String.eqb_refl. reflexivity.
Qed.

Lemma SendOTP_dispatch_failure_rolls_back_witness :
  (SendOTP (send_at 0 true) request0 idle).2.2
    = Some (NewServiceUnavailableError "SMS provider") /\
  s_cleanup_delete_down (send_at 0 true) = false /\
  otps (SendOTP (send_at 0 true) request0 idle).1 !! phone0 = None.
Proof.
  assert (Herr : (SendOTP (send_at 0 true) request0 idle).2.2
                 = Some (NewServiceUnavailableError "SMS provider"))
    by (vm_compute; reflexivity).
  split; [exact Herr|]. split; [reflexivity|].
  destruct (SendOTP_dispatch_failure_rolls_back (send_at 0 true) request0 idle
              "SMS provider" Herr) as (_ & _ & Hgone & _).
  exact (Hgone eq_refl).
Defined.

(** ** generateOTP *)

Lemma append_empty_r (s : string) : s +:+ "" = s.
Proof.
  induction s as [|ch s IH]; [reflexivity|].
  change (String ch (s +:+ "") = String ch s). rewrite IH. reflexivity.
Qed.

Lemma append_one (s : string) (ch : ascii) (tail : string) :
  (s +:+ String ch "") +:+ tail = s +:+ String ch tail.
Proof.
  induction s as [|ch' s IH]; [reflexivity|].
  change (String ch' ((s +:+ String ch "") +:+ tail)
          = String ch' (s +:+ String ch tail)).
  rewrite IH. reflexivity.
Qed.

(** One draw prints as one digit: the character with code [48 + num]. *)
Lemma Sprintf_d_digit (num : fin 10) :
  Sprintf_d (Int64 num) =
    String (ascii_of_nat (48 + fin_to_nat num)) EmptyString /\
  isDigit (ascii_of_nat (48 + fin_to_nat num)) = true.
Proof.
  unfold Int64. pose proof (fin_to_nat_lt num) as Hlt.
  destruct (fin_to_nat num) as [|[|[|[|[|[|[|[|[|[|n]]]]]]]]]];
    try (split; reflexivity).
  lia.
Qed.

(** Where the loop stands after the rounds still to do: it fails at the
    first failing draw, and otherwise appends one digit per draw. *)
Lemma generateOTP_loop_spec (rand : RandSource) (todo i : nat) (otp : string) :
  (exists k, (k < todo)%nat /\ rand (i + k)%nat = None /\
     generateOTP_loop rand i todo otp =
       ("", Some "failed to generate random number")) \/
  (exists nums : list (fin 10),
     length nums = todo /\
     (forall k num, nums !! k = Some num -> rand (i + k)%nat = Some num) /\
     generateOTP_loop rand i todo otp =
       (otp +:+ string_of_list_ascii
                  (map (fun num => ascii_of_nat (48 + fin_to_nat num)) nums),
        None)).
Proof.
  revert i otp. induction todo as [|todo IH]; intros i otp.
  - right. exists []. simpl. split; [reflexivity|]. split.
    + intros k num Hk. discriminate.
    + simpl. rewrite append_empty_r. reflexivity.
  - simpl. destruct (rand i) as [num|] eqn:Hdraw.
    + destruct (IH (S i) (otp +:+ Sprintf_d (Int64 num)))
        as [(k & Hk & Hfail & Hrun) | (nums & Hlen & Hdraws & Hrun)].
      * left. exists (S k). split; [lia|].
        replace (i + S k)%nat with (S i + k)%nat by lia. auto.
      * right. exists (num :: nums). split; [simpl; congruence|]. split.
        -- intros [|k] num' Hk; simpl in Hk.
           ++ injection Hk as <-. rewrite Nat.add_0_r. exact Hdraw.
           ++ replace (i + S k)%nat with (S i + k)%nat by lia. auto.
        -- rewrite Hrun, (proj1 (Sprintf_d_digit num)), append_one.
           reflexivity.
    + left. exists 0%nat. split; [lia|]. rewrite Nat.add_0_r. auto.
Qed.

Lemma length_string_of_list_ascii (l : list ascii) :
  String.length (string_of_list_ascii l) = length l.
Proof. induction l as [|ch l IH]; simpl; congruence. Qed.

(** A code returned without error is the digits of six draws. *)
Lemma generateOTP_digits (rand : RandSource) (code : string) :
  generateOTP rand = (code, None) ->
  exists nums : list (fin 10),
    length nums = 6%nat /\
    (forall k num, nums !! k = Some num -> rand k = Some num) /\
    code = string_of_list_ascii
             (map (fun num => ascii_of_nat (48 + fin_to_nat num)) nums).
Proof.
  intros Hgen. unfold generateOTP in Hgen.
  destruct (generateOTP_loop_spec rand 6 0 "")
    as [(k & _ & _ & Hrun) | (nums & Hlen & Hdraws & Hrun)].
  { rewrite Hrun in Hgen. discriminate. }
  rewrite Hrun in Hgen.
  set (digits := map (fun num => ascii_of_nat (48 + fin_to_nat num)) nums) in *.
  change ("" +:+ string_of_list_ascii digits)
    with (string_of_list_ascii digits) in Hgen.
  injection Hgen as <-.
  exists nums. split; [exact Hlen|]. split; [|reflexivity].
  intros k num Hk. apply (Hdraws k num Hk).
Qed.

Lemma generateOTP_length (rand : RandSource) (code : string) :
  generateOTP rand = (code, None) -> String.length code = 6%nat.
Proof.
  intros Hgen.
  destruct (generateOTP_digits rand code Hgen) as (nums & Hlen & _ & ->).
  rewrite length_string_of_list_ascii, length_map. exact Hlen.
Qed.

(** C8. Every code [generateOTP] returns without error has exactly six
    characters, each of them a decimal digit (so it passes the transport's
    [isValidOTP]); its k-th character is the digit of the k-th number drawn
    from the random source, [crypto/rand] in the code. The call returns such
    a code whenever its six draws succeed. *)
Theorem generateOTP_six_digits (rand : RandSource) (code : string) :
  generateOTP rand = (code, None) ->
  String.length code = 6%nat /\
  Forall (fun ch => isDigit ch = true) (list_ascii_of_string code) /\
  isValidOTP code = true /\
  exists nums : list (fin 10),
    length nums = 6%nat /\
    (forall k num, nums !! k = Some num -> rand k = Some num) /\
    code = string_of_list_ascii
             (map (fun num => ascii_of_nat (48 + fin_to_nat num)) nums).
Proof.
  intros Hgen.
  pose proof (generateOTP_length rand code Hgen) as Hsize.
  destruct (generateOTP_digits rand code Hgen) as (nums & Hlen & Hdraws & Hcode).
  assert (Hdigits : Forall (fun ch => isDigit ch = true)
            (list_ascii_of_string code)).
  { rewrite Hcode, list_ascii_of_string_of_list_ascii.
    apply List.Forall_map.
    apply List.Forall_forall. intros num _. apply Sprintf_d_digit. }
  split; [exact Hsize|]. split; [exact Hdigits|]. split.
  - unfold isValidOTP. rewrite Hsize. simpl.
    apply forallb_forall. apply List.Forall_forall. exact Hdigits.
  - exists nums. auto.
Qed.

Lemma generateOTP_six_digits_witness :
  generateOTP counting = ("123456", None) /\
  String.length "123456" = 6%nat /\
  isValidOTP "123456" = true.
Proof.
  assert (Hgen : generateOTP counting = ("123456", None)) by reflexivity.
  split; [exact Hgen|].
  destruct (generateOTP_six_digits counting "123456" Hgen)
    as (Hlen & _ & Hvalid & _).
  split; [exact Hlen | exact Hvalid].
Defined.

(** The call is total: it fails exactly when one of its six draws does. *)
Lemma generateOTP_returns (rand : RandSource) :
  (forall k, (k < 6)%nat -> rand k <> None) ->
  exists code, generateOTP rand = (code, None).
Proof.
  intros Hdraws. unfold generateOTP.
  destruct (generateOTP_loop_spec rand 6 0 "")
    as [(k & Hk & Hfail & _) | (nums & _ & _ & Hrun)].
  - destruct (Hdraws k Hk Hfail).
  - eauto.
Qed.

(** ** SendOTP: its answers *)

(** A call that returns a response returns one of two: the 'already sent'
    response of the cooldown, or the response of a completed issuance. *)
Lemma SendOTP_answer (env : SendEnv) (req : OTPRequest.t) (w : World)
    (resp : OTPResponse.t) (err : option AppError) :
  let phone := OTPRequest.PhoneNumber req in
  (SendOTP env req w).2 = (Some resp, err) ->
  err = None /\
  ((exists existingOTP,
      repo.FindByPhone (s_find_down env) phone (otps w)
        = (Some existingOTP, None) /\
      OTP.ExpiresAt existingOTP - s_now env > 2 * time.Minute /\
      resp = OTPResponse.mk false msgAlreadySent "" (OTP.ExpiresAt existingOTP) /\
      (SendOTP env req w).1 = w) \/
   (exists otp,
      generateOTP (s_rand env) = (otp, None) /\
      s_dispatch_fails env = false /\
      resp = OTPResponse.mk true msgSent otp
               (time.Add (s_expiry_now env) (5 * time.Minute)) /\
      otps (SendOTP env req w).1 !! phone = Some (issued env phone otp) /\
      dispatched (SendOTP env req w).1 = (dispatched w ++ [(phone, otp)])%list)).
Proof.
  intros phone Hresp.
  destruct (SendOTP_cases env req w)
    as [(old & Hfind & Hfar & Hrun) | [c Hout]].
  - rewrite Hrun in Hresp |- *. injection Hresp as <- <-.
    split; [reflexivity|]. left. exists old. auto.
  - fold phone in Hout.
    destruct Hout as [Hgen | otp Hgen Hcreate | otp Hgen Hup Hfree Hfail
                     | otp Hgen Hup Hfree Hfail]; try discriminate.
    injection Hresp as <- <-. split; [reflexivity|]. right. exists otp.
    cbn [fst otps dispatched]. rewrite lookup_insert_eq. auto.
Qed.

(** A call that returns an error returns no response. *)
Lemma SendOTP_failure (env : SendEnv) (req : OTPRequest.t) (w : World)
    (err : AppError) :
  (SendOTP env req w).2.2 = Some err -> (SendOTP env req w).2.1 = None.
Proof.
  intros Herr.
  destruct (SendOTP env req w) as [w' [[resp|] e]] eqn:Hrun; [|reflexivity].
  destruct (SendOTP_answer env req w resp e) as [-> _].
  - rewrite Hrun. reflexivity.
  - discriminate.
Qed.

(** A call returns a response or an error, so the handler's
    [response.Success] never meets a nil response. *)
Lemma SendOTP_returns (env : SendEnv) (req : OTPRequest.t) (w : World) :
  (SendOTP env req w).2 <> (None, None).
Proof.
  destruct (SendOTP_cases env req w) as [(old & _ & _ & Hrun) | [c Hout]].
  - rewrite Hrun. discriminate.
  - destruct Hout; discriminate.
Qed.

Lemma makeSendOTPEndpoint_no_panic (svc_ok : bool) (env : SendEnv)
    (body : OTPRequest.t + string) (w : World) :
  (makeSendOTPEndpoint svc_ok env body w).2 <> Panic.
Proof.
  unfold makeSendOTPEndpoint. destruct body as [req | err]; [|discriminate].
  destruct (negb (isValidPhoneNumber _)); [discriminate|].
  destruct (negb svc_ok); [discriminate|].
  pose proof (SendOTP_returns env req w) as Hret.
  destruct (SendOTP env req w) as [w' [[resp|] [e|]]]; try discriminate.
  destruct (Hret eq_refl).
Qed.

(** C9, as stated, fails for the service: the response of a successful
    [SendOTP] call carries the generated code. *)
Lemma SendOTP_response_carries_code :
  generateOTP (s_rand (send_at 0 false)) = ("123456", None) /\
  (SendOTP (send_at 0 false) request0 idle).2 =
    (Some (OTPResponse.mk true msgSent "123456" (t0 + 5 * time.Minute)), None) /\
  "123456" <> "".
Proof.
  split; [reflexivity|]. split; [vm_compute; reflexivity | discriminate].
Qed.

(** C9 (as the code has it). The response of a successful [SendOTP] call of
    the service carries the expiry and the generated six-character code;
    the send-otp endpoint clears the code before replying, so that no reply
    of the endpoint carries a code, and the reply to a successful issuance
    carries the expiry alone. *)
Theorem send_otp_reply_hides_code (svc_ok : bool) (env : SendEnv)
    (body : OTPRequest.t + string) (w : World) :
  (forall response,
     (makeSendOTPEndpoint svc_ok env body w).2 = ReplyOTP response ->
     OTPResponse.OTP response = "") /\
  (forall req resp,
     body = inl req ->
     isValidPhoneNumber (OTPRequest.PhoneNumber req) = true ->
     svc_ok = true ->
     (SendOTP env req w).2 = (Some resp, None) ->
     OTPResponse.Success resp = true ->
     let expiry := time.Add (s_expiry_now env) (5 * time.Minute) in
     generateOTP (s_rand env) = (OTPResponse.OTP resp, None) /\
     String.length (OTPResponse.OTP resp) = 6%nat /\
     OTPResponse.ExpiresAt resp = expiry /\
     makeSendOTPEndpoint svc_ok env body w =
       ((SendOTP env req w).1, ReplyOTP (OTPResponse.mk true msgSent "" expiry))).
Proof.
  split.
  - intros response Hreply. unfold makeSendOTPEndpoint in Hreply.
    destruct body as [req | err]; [|discriminate].
    destruct (negb (isValidPhoneNumber _)); [discriminate|].
    destruct (negb svc_ok); [discriminate|].
    destruct (SendOTP env req w) as [w' [[resp|] [e|]]] eqn:Hrun;
      try discriminate.
    simpl in Hreply. injection Hreply as <-.
    destruct (SendOTP_answer env req w resp None) as [_ Hcase].
    { rewrite Hrun. reflexivity. }
    destruct Hcase as [(old & _ & _ & -> & _) | (otp & _ & _ & -> & _)];
      reflexivity.
  - intros req resp -> Hphone -> Hresp Hsuccess expiry.
    destruct (SendOTP_answer env req w resp None Hresp) as [_ Hcase].
    destruct Hcase as [(old & _ & _ & -> & _) | (otp & Hgen & _ & -> & _)];
      [discriminate|].
    cbn [OTPResponse.OTP OTPResponse.ExpiresAt].
    split; [exact Hgen|].
    split; [apply (generateOTP_length (s_rand env) otp Hgen)|].
    split; [reflexivity|].
    unfold makeSendOTPEndpoint. rewrite Hphone. cbn [negb].
    destruct (SendOTP env req w) as [w' answer]. simpl in Hresp.
    rewrite Hresp. reflexivity.
Qed.

(** C10. On the cooldown path [SendOTP] returns no error and a response
    whose [Success] is false, carrying the 'already sent' message and the
    existing expiry. Every other response it returns is that of a completed
    issuance, with [Success] true and the 'sent' message; a call that fails
    returns an error and no response. So the [Success] flag alone reads the
    same, not set, for the 'already sent' outcome as for every failure, and
    it is the message and the expiry (or the error) that tell them apart. *)
Theorem already_sent_reports_no_success (env : SendEnv) (req : OTPRequest.t)
    (w : World) :
  let phone := OTPRequest.PhoneNumber req in
  (forall existingOTP,
     repo.FindByPhone (s_find_down env) phone (otps w)
       = (Some existingOTP, None) ->
     OTP.ExpiresAt existingOTP - s_now env > 2 * time.Minute ->
     exists resp,
       (SendOTP env req w).2 = (Some resp, None) /\
       OTPResponse.Success resp = false /\
       OTPResponse.Message resp = msgAlreadySent /\
       OTPResponse.ExpiresAt resp = OTP.ExpiresAt existingOTP /\
       success_flag (SendOTP env req w).2 = false) /\
  (forall resp err,
     (SendOTP env req w).2 = (Some resp, err) ->
     err = None /\
     (OTPResponse.Success resp = false /\
      OTPResponse.Message resp = msgAlreadySent /\
      (SendOTP env req w).1 = w \/
      OTPResponse.Success resp = true /\
      OTPResponse.Message resp = msgSent /\
      OTPResponse.ExpiresAt resp = time.Add (s_expiry_now env) (5 * time.Minute) /\
      dispatched (SendOTP env req w).1 =
        (dispatched w ++ [(phone, OTPResponse.OTP resp)])%list)) /\
  (forall err,
     (SendOTP env req w).2.2 = Some err ->
     (SendOTP env req w).2.1 = None /\
     success_flag (SendOTP env req w).2 = false) /\
  msgAlreadySent <> msgSent.
Proof.
  intros phone. split; [|split; [|split]].
  - intros old Hfind Hfar.
    rewrite (SendOTP_already_sent env req w old Hfind Hfar).
    eexists. split; [reflexivity|]. auto.
  - intros resp err Hresp.
    destruct (SendOTP_answer env req w resp err Hresp) as [-> Hcase].
    split; [reflexivity|].
    destruct Hcase as [(old & _ & _ & -> & Hsame)
                      | (otp & _ & _ & -> & _ & Hcalls)].
    + left. auto.
    + right. auto.
  - intros err Herr. pose proof (SendOTP_failure env req w err Herr) as Hnil.
    split; [exact Hnil|]. unfold success_flag. rewrite Hnil. reflexivity.
  - discriminate.
Qed.

Lemma already_sent_reports_no_success_witness :
  exists resp,
    (SendOTP (send_at 60 false) request0 (world0 0)).2 = (Some resp, None) /\
    OTPResponse.Success resp = false /\
    OTPResponse.Message resp = msgAlreadySent.
Proof.
  destruct (already_sent_reports_no_success (send_at 60 false) request0
              (world0 0)) as (Hcool & _).
  destruct (Hcool (otp0 0) eq_refl) as (resp & Hresp & Hflag & Hmsg & _).
  { vm_compute. reflexivity. }
  exists resp. auto.
Defined.

(** ** The rate-limit middleware *)

Lemma wrap64_window (now : Z) :
  - 2 ^ 63 + 60 <= now < 2 ^ 63 -> wrap64 (now - 60) = now - 60.
Proof.
  intros Hnow. unfold wrap64.
  rewrite Z.mod_small by lia. lia.
Qed.

Section Pruning.

Implicit Types (l : list Z) (lo T now : Z).

Lemma kept_app lo l1 l2 : kept lo (l1 ++ l2)%list = (kept lo l1 ++ kept lo l2)%list.
Proof. apply List.filter_app. Qed.

(** Pruning again with a later bound forgets the earlier pruning. *)
Lemma kept_kept lo1 lo2 l : lo1 <= lo2 -> kept lo2 (kept lo1 l) = kept lo2 l.
Proof.
  intros Hlo. induction l as [|ts l IH]; [reflexivity|].
  simpl. destruct (Z.ltb_spec lo1 ts) as [H1 | H1]; simpl.
  - rewrite IH. reflexivity.
  - rewrite IH. destruct (Z.ltb_spec lo2 ts); [lia | reflexivity].
Qed.

Lemma kept_all lo l : Forall (fun ts => lo < ts) l -> kept lo l = l.
Proof.
  induction 1 as [|ts l Hts _ IH]; [reflexivity|].
  simpl. rewrite (proj2 (Z.ltb_lt _ _) Hts), IH. reflexivity.
Qed.

(** What lies in the window ending at [T] is kept by any bound up to
    [T - 60]. *)
Lemma window_le_kept lo T l :
  lo <= T - 60 ->
  (length (List.filter (in_window T) l) <= length (kept lo l))%nat.
Proof.
  intros Hlo. induction l as [|ts l IH]; [reflexivity|].
  simpl. unfold in_window at 1.
  destruct (Z.ltb_spec (T - 60) ts) as [H1 | H1]; simpl.
  - destruct (Z.ltb_spec lo ts); [|lia].
    destruct (ts <=? T); simpl; lia.
  - destruct (lo <? ts); simpl; lia.
Qed.

End Pruning.

(** One request for [phone] at [now]: the list is pruned to the last 60
    seconds; with five or more left the request is turned away and not
    recorded, otherwise it is recorded and let through. *)
Lemma RateLimitMiddleware_known (now : Z) (c : Request) (requests : Requests)
    (timestamps : list Z) :
  phone_of c <> "" ->
  - 2 ^ 63 + 60 <= now < 2 ^ 63 ->
  requests !! phone_of c = Some timestamps ->
  RateLimitMiddleware now c requests =
    if (5 <=? length (kept (now - 60) timestamps))%nat
    then (<[phone_of c := kept (now - 60) timestamps]> requests,
          TooManyRequests)
    else (<[phone_of c := (kept (now - 60) timestamps ++ [now])%list]> requests,
          Next).
Proof.
  intros Hphone Hnow Hsome. unfold RateLimitMiddleware.
  rewrite (proj2 (String.eqb_neq _ _) Hphone). cbn [negb].
  rewrite Hsome, wrap64_window by exact Hnow. fold (kept (now - 60) timestamps).
  destruct (5 <=? _)%nat; [reflexivity|].
  rewrite insert_insert_eq. reflexivity.
Qed.

Lemma RateLimitMiddleware_new (now : Z) (c : Request) (requests : Requests) :
  phone_of c <> "" ->
  requests !! phone_of c = None ->
  RateLimitMiddleware now c requests = (<[phone_of c := [now]]> requests, Next).
Proof.
  intros Hphone Hnone. unfold RateLimitMiddleware.
  rewrite (proj2 (String.eqb_neq _ _) Hphone). cbn [negb].
  rewrite Hnone. reflexivity.
Qed.

(** A request keyed otherwise leaves the list of [phone] alone. *)
Lemma RateLimitMiddleware_other (now : Z) (c : Request) (requests : Requests)
    (phone : string) :
  phone_of c <> phone ->
  (RateLimitMiddleware now c requests).1 !! phone = requests !! phone.
Proof.
  intros Hother. unfold RateLimitMiddleware.
  destruct (negb (String.eqb (phone_of c) "")); [|reflexivity].
  destruct (requests !! phone_of c) as [timestamps|].
  - destruct (5 <=? _)%nat; cbn [fst];
      rewrite ?lookup_insert_ne by exact Hother; reflexivity.
  - cbn [fst]. rewrite lookup_insert_ne by exact Hother. reflexivity.
Qed.

Lemma serve_cons (now : Z) (c : Request) (rest : list (Z * Request))
    (requests : Requests) :
  serve ((now, c) :: rest) requests =
    ((serve rest (RateLimitMiddleware now c requests).1).1,
     (RateLimitMiddleware now c requests).2
       :: (serve rest (RateLimitMiddleware now c requests).1).2).
Proof.
  cbn [serve]. destruct (RateLimitMiddleware now c requests) as [r1 o].
  cbn [fst snd]. destruct (serve rest r1) as [r2 os]. reflexivity.
Qed.

Section Window.

Variable phone : string.
Hypothesis Hphone : phone <> "".

Lemma bounded_snoc (hist : list Z) (now : Z) :
  bounded hist ->
  (length (kept (now - 60) hist) < 5)%nat ->
  bounded (hist ++ [now]).
Proof.
  intros Hhist Hroom T. rewrite List.filter_app, length_app. simpl.
  destruct (in_window T now) eqn:Hin; simpl.
  - unfold in_window in Hin. apply andb_true_iff in Hin as [Hlo Hhi].
    apply Z.ltb_lt in Hlo.
    pose proof (window_le_kept (now - 60) T hist ltac:(lia)). lia.
  - specialize (Hhist T). lia.
Qed.

Lemma serve_bounded (arrivals : list (Z * Request)) :
  forall (lo : Z) (hist : list Z) (requests : Requests),
    tracks phone lo hist requests -> bounded hist -> clock_ok lo arrivals ->
    bounded (hist ++ passed phone arrivals (serve arrivals requests).2).
Proof.
  induction arrivals as [|[now c] rest IH]; intros lo hist requests Htr Hb Hclock.
  { simpl. rewrite List.app_nil_r. exact Hb. }
  destruct Hclock as (Hlo & Hnow & Hclock).
  rewrite serve_cons. cbn [snd passed].
  destruct (String.eqb_spec (phone_of c) phone) as [Hc | Hc]; cbn [andb].
  - (* a request for [phone] *)
    assert (Hkey : phone_of c <> "") by congruence.
    destruct Htr as [[Hnone ->] | (prev & l & Hprev & Hsome & Hcover)].
    + rewrite <- Hc in Hnone.
      rewrite (RateLimitMiddleware_new now c requests Hkey Hnone).
      cbn [fst snd is_Next]. apply (IH now [now]); [|intros T|exact Hclock].
      * right. exists now, [now]. split; [lia|].
        rewrite Hc, lookup_insert_eq. auto.
      * simpl. destruct (in_window T now); simpl; lia.
    + rewrite <- Hc in Hsome.
      rewrite (RateLimitMiddleware_known now c requests _ Hkey Hnow Hsome).
      destruct (Nat.leb_spec 5 (length (kept (now - 60) l))) as [Hfull | Hroom];
        cbn [fst snd is_Next].
      * apply (IH now hist); [|exact Hb|exact Hclock].
        right. exists now, (kept (now - 60) l). split; [lia|].
        rewrite Hc, lookup_insert_eq. split; [reflexivity|].
        intros bound Hbound. rewrite kept_kept by exact Hbound.
        apply Hcover. lia.
      * replace (hist ++ now :: passed phone rest _)%list
          with ((hist ++ [now]) ++ passed phone rest
                  (serve rest (<[phone_of c :=
                     (kept (now - 60) l ++ [now])%list]> requests)).2)%list
          by (rewrite <- List.app_assoc; reflexivity).
        apply (IH now (hist ++ [now])%list); [| |exact Hclock].
        -- right. exists now, (kept (now - 60) l ++ [now])%list.
           split; [lia|]. rewrite Hc, lookup_insert_eq. split; [reflexivity|].
           intros bound Hbound. rewrite !kept_app, !length_app.
           rewrite kept_kept by exact Hbound.
           pose proof (Hcover bound ltac:(lia)). lia.
        -- apply bounded_snoc; [exact Hb|].
           pose proof (Hcover (now - 60) ltac:(lia)). lia.
  - (* a request keyed otherwise *)
    apply (IH now hist); [|exact Hb|exact Hclock].
    destruct Htr as [[Hnone ->] | (prev & l & Hprev & Hsome & Hcover)].
    + left. rewrite RateLimitMiddleware_other by exact Hc. auto.
    + right. exists prev, l. split; [lia|].
      rewrite RateLimitMiddleware_other by exact Hc. auto.
Qed.

(** Any state of the handler tracks the empty history. *)
Lemma tracks_nothing (lo : Z) (requests : Requests) :
  tracks phone lo [] requests.
Proof.
  destruct (requests !! phone) as [l|] eqn:Hl.
  - right. exists lo, l. split; [lia|]. split; [exact Hl|].
    intros bound _. simpl. lia.
  - left. auto.
Qed.

End Window.

(** Take a [Forall] over an explicit list apart, one fact per element. *)
Ltac each_of H :=
  repeat (let K := fresh "K" in apply Forall_cons in H as [K H]).

(** The side conditions of the steps below: the key, the range of the
    clock, the list found, and its timestamps being recent. *)
Ltac step_conditions Hphone :=
  repeat match goal with
         | K : phone_of _ = _ |- _ => rewrite K
         end;
  first [ exact Hphone
        | lia
        | apply lookup_empty
        | apply lookup_insert_eq
        | repeat constructor; lia ].

(** A request for a phone all of whose recorded timestamps are recent. *)
Lemma RateLimitMiddleware_recent (now : Z) (c : Request) (requests : Requests)
    (timestamps : list Z) :
  phone_of c <> "" ->
  - 2 ^ 63 + 60 <= now < 2 ^ 63 ->
  requests !! phone_of c = Some timestamps ->
  Forall (fun ts => now - 60 < ts) timestamps ->
  RateLimitMiddleware now c requests =
    if (5 <=? length timestamps)%nat
    then (<[phone_of c := timestamps]> requests, TooManyRequests)
    else (<[phone_of c := (timestamps ++ [now])%list]> requests, Next).
Proof.
  intros Hphone Hnow Hsome Hrecent.
  rewrite (RateLimitMiddleware_known now c requests timestamps Hphone Hnow Hsome).
  rewrite (kept_all _ _ Hrecent). reflexivity.
Qed.

(** Six requests for one phone within ten seconds, on a fresh handler. *)
Lemma six_in_ten_seconds (phone : string) (c1 c2 c3 c4 c5 c6 : Request)
    (t1 t2 t3 t4 t5 t6 : Z) :
  phone <> "" ->
  Forall (fun c => phone_of c = phone) [c1; c2; c3; c4; c5; c6] ->
  - 2 ^ 63 + 60 <= t1 -> t6 < 2 ^ 63 ->
  t1 <= t2 <= t3 -> t3 <= t4 <= t5 -> t5 <= t6 <= t1 + 10 ->
  (serve [(t1, c1); (t2, c2); (t3, c3); (t4, c4); (t5, c5); (t6, c6)] ∅).2 =
    [Next; Next; Next; Next; Next; TooManyRequests].
Proof.
  intros Hphone Hkeys Hlo Hhi H123 H345 H56. each_of Hkeys.
  rewrite !serve_cons. cbn [serve fst snd].
  rewrite (RateLimitMiddleware_new t1 c1 ∅) by step_conditions Hphone.
  cbn [fst snd].
  rewrite (RateLimitMiddleware_recent t2 c2 _ [t1])
    by step_conditions Hphone.
  cbn [length Nat.leb fst snd app].
  rewrite (RateLimitMiddleware_recent t3 c3 _ [t1; t2])
    by step_conditions Hphone.
  cbn [length Nat.leb fst snd app].
  rewrite (RateLimitMiddleware_recent t4 c4 _ [t1; t2; t3])
    by step_conditions Hphone.
  cbn [length Nat.leb fst snd app].
  rewrite (RateLimitMiddleware_recent t5 c5 _ [t1; t2; t3; t4])
    by step_conditions Hphone.
  cbn [length Nat.leb fst snd app].
  rewrite (RateLimitMiddleware_recent t6 c6 _ [t1; t2; t3; t4; t5])
    by step_conditions Hphone.
  reflexivity.
Qed.

(** Six requests for one phone within ten seconds, whatever the handler
    holds: if the first five are let through, the sixth is turned away. *)
Lemma sixth_turned_away (phone : string) (c1 c2 c3 c4 c5 c6 : Request)
    (t1 t2 t3 t4 t5 t6 : Z) (requests : Requests) (o : Outcome) :
  phone <> "" ->
  Forall (fun c => phone_of c = phone) [c1; c2; c3; c4; c5; c6] ->
  - 2 ^ 63 + 60 <= t1 -> t6 < 2 ^ 63 ->
  t1 <= t2 <= t3 -> t3 <= t4 <= t5 -> t5 <= t6 <= t1 + 10 ->
  (serve [(t1, c1); (t2, c2); (t3, c3); (t4, c4); (t5, c5); (t6, c6)]
     requests).2 = [Next; Next; Next; Next; Next; o] ->
  o = TooManyRequests.
Proof.
  intros Hphone Hkeys Hlo Hhi H123 H345 H56 Hrun.
  destruct o; [exfalso | reflexivity]. each_of Hkeys.
  pose proof (serve_bounded phone Hphone
                [(t1, c1); (t2, c2); (t3, c3); (t4, c4); (t5, c5); (t6, c6)]
                t1 [] requests (tracks_nothing phone t1 requests)) as Hbound.
  rewrite Hrun in Hbound. cbn [passed is_Next app] in Hbound.
  repeat match goal with
         | K : phone_of _ = phone |- _ => rewrite K in Hbound; clear K
         end.
  rewrite String.eqb_refl in Hbound.
  cbn [andb] in Hbound.
  specialize (Hbound ltac:(intros T; simpl; lia)
                ltac:(cbn [clock_ok]; lia) t6).
  unfold in_window in Hbound. cbn [List.filter] in Hbound.
  rewrite !(proj2 (Z.ltb_lt (t6 - 60) _)) in Hbound by lia.
  rewrite !(proj2 (Z.leb_le _ t6)) in Hbound by lia.
  simpl in Hbound. lia.
Qed.

(** C7, as stated, fails. The handler counts clock readings in whole
    seconds and drops a timestamp as soon as the reading is sixty more: ten
    requests for one phone that arrive within 59.000000001 seconds, five at
    the end of one second and five at the start of the second sixty later,
    are all let through on a handler started fresh. *)
Lemma ten_requests_within_a_minute :
  (serve (arriving straddle0 post0) ∅).2
    = [Next; Next; Next; Next; Next; Next; Next; Next; Next; Next] /\
  Forall (fun t => t0 + 999999999 <= t <= t0 + 60 * time.Second) straddle0 /\
  (t0 + 60 * time.Second) - (t0 + 999999999) < 60 * time.Second /\
  passed phone0 (arriving straddle0 post0)
    (serve (arriving straddle0 post0) ∅).2
    = [1700000000; 1700000000; 1700000000; 1700000000; 1700000000;
       1700000060; 1700000060; 1700000060; 1700000060; 1700000060] /\
  clock_ok 0 (arriving straddle0 post0).
Proof.
  split; [vm_compute; reflexivity|].
  split; [repeat constructor; vm_compute; discriminate|].
  split; [vm_compute; reflexivity|].
  split; [vm_compute; reflexivity|].
  vm_compute. intuition discriminate.
Qed.

(** C7 (as the code has it). The window is one of clock readings in whole
    seconds, open at its old end: the readings [t] with [T - 60 < t <= T].
    For every non-empty phone key: a request that arrives when five or more
    of the timestamps recorded for the phone are later than the reading
    minus 60 is turned away with the rate-limit reply and is not recorded
    (the list for the phone is the pruned one). Hence, whatever the handler
    holds at the start and whatever requests arrive, on a clock that never
    goes back no such window holds more than five requests let through for
    the phone; and of six requests for the phone within ten seconds the
    sixth is turned away when the first five were let through, as they are
    on a handler started fresh. *)
Theorem throttle_five_per_minute (phone : string) :
  phone <> "" ->
  (forall (now : Z) (c : Request) (requests : Requests) (timestamps : list Z),
     phone_of c = phone ->
     - 2 ^ 63 + 60 <= now < 2 ^ 63 ->
     requests !! phone = Some timestamps ->
     (5 <= length (kept (now - 60) timestamps))%nat ->
     RateLimitMiddleware now c requests =
       (<[phone := kept (now - 60) timestamps]> requests, TooManyRequests)) /\
  (forall (arrivals : list (Z * Request)) (requests : Requests) (lo T : Z),
     clock_ok lo arrivals ->
     (length (List.filter (in_window T)
                (passed phone arrivals (serve arrivals requests).2)) <= 5)%nat) /\
  (forall (c1 c2 c3 c4 c5 c6 : Request) (t1 t2 t3 t4 t5 t6 : Z),
     Forall (fun c => phone_of c = phone) [c1; c2; c3; c4; c5; c6] ->
     - 2 ^ 63 + 60 <= t1 -> t6 < 2 ^ 63 ->
     t1 <= t2 <= t3 -> t3 <= t4 <= t5 -> t5 <= t6 <= t1 + 10 ->
     let six := [(t1, c1); (t2, c2); (t3, c3); (t4, c4); (t5, c5); (t6, c6)] in
     (serve six ∅).2 = [Next; Next; Next; Next; Next; TooManyRequests] /\
     forall (requests : Requests) (o : Outcome),
       (serve six requests).2 = [Next; Next; Next; Next; Next; o] ->
       o = TooManyRequests).
Proof.
  intros Hphone. split; [|split].
  - intros now c requests timestamps <- Hnow Hsome Hfull.
    rewrite (RateLimitMiddleware_known now c requests timestamps Hphone Hnow Hsome).
    rewrite (proj2 (Nat.leb_le _ _) Hfull). reflexivity.
  - intros arrivals requests lo T Hclock.
    apply (serve_bounded phone Hphone arrivals lo [] requests);
      [apply tracks_nothing|intros T'|exact Hclock].
    simpl. lia.
  - intros c1 c2 c3 c4 c5 c6 t1 t2 t3 t4 t5 t6 Hkeys Hlo Hhi H123 H345 H56 six.
    split.
    + apply (six_in_ten_seconds phone); assumption.
    + intros requests o. apply (sixth_turned_away phone); assumption.
Qed.

Lemma throttle_five_per_minute_witness :
  phone0 <> "" /\
  (serve burst0 ∅).2 = [Next; Next; Next; Next; Next; TooManyRequests] /\
  (length (List.filter (in_window 1700000010)
             (passed phone0 burst0 (serve burst0 ∅).2)) <= 5)%nat.
Proof.
  assert (Hphone : phone0 <> "") by discriminate.
  split; [exact Hphone|].
  destruct (throttle_five_per_minute phone0 Hphone) as (_ & Hwindow & Hsix).
  split.
  - apply (Hsix post0 post0 post0 post0 post0 post0);
      [repeat constructor | lia ..].
  - apply (Hwindow burst0 ∅ 0 1700000010). vm_compute. intuition discriminate.
Defined.

(** * More of the OTP engine *)

(** ** The paths of SendOTP *)

(** Which collection [issue] starts from: the one found, when the lookup
    fails or finds nothing, or the one the resend delete leaves, when the
    record found has two minutes or less to go. *)
Lemma SendOTP_paths (env : SendEnv) (req : OTPRequest.t) (w : World) :
  let phone := OTPRequest.PhoneNumber req in
  (exists existingOTP,
     s_find_down env = false /\ otps w !! phone = Some existingOTP /\
     OTP.ExpiresAt existingOTP - s_now env > 2 * time.Minute /\
     SendOTP env req w =
       (w, (Some (OTPResponse.mk false msgAlreadySent ""
                    (OTP.ExpiresAt existingOTP)), None))) \/
  (exists existingOTP,
     s_find_down env = false /\ otps w !! phone = Some existingOTP /\
     OTP.ExpiresAt existingOTP - s_now env <= 2 * time.Minute /\
     SendOTP env req w =
       issue env phone
         (repo.DeleteByPhone (s_resend_delete_down env) phone (otps w)).1 w) \/
  ((s_find_down env = true \/ otps w !! phone = None) /\
   SendOTP env req w = issue env phone (otps w) w).
Proof.
  intros phone.
  destruct (s_find_down env) eqn:Hdown.
  { right. right. split; [auto|]. apply SendOTP_first. intros old.
    rewrite Hdown, FindByPhone_down. discriminate. }
  destruct (otps w !! phone) as [old|] eqn:Hold.
  - assert (Hfind : repo.FindByPhone (s_find_down env) phone (otps w)
                    = (Some old, None)).
    { apply FindByPhone_found. rewrite Hdown. auto. }
    destruct (Z_gt_le_dec (OTP.ExpiresAt old - s_now env) (2 * time.Minute))
      as [Hfar | Hnear].
    + left. exists old. repeat split; try assumption.
      apply SendOTP_already_sent; assumption.
    + right. left. exists old. repeat split; try assumption.
      apply (SendOTP_resend env req w old); assumption.
  - right. right. split; [auto|]. apply SendOTP_first. intros old Hfind.
    apply FindByPhone_found in Hfind as [_ Hfind]. fold phone in Hfind.
    congruence.
Qed.

(** [issue] touches no phone but its own, and calls the SMS client at most
    once, for that phone. *)
Lemma issue_other (env : SendEnv) (phone other : string) (c : Collection)
    (w : World) :
  phone <> other ->
  otps (issue env phone c w).1 !! other = c !! other.
Proof.
  intros Hother.
  destruct (issue_cases env phone c w); cbn [fst otps with_otps];
    try reflexivity.
  - unfold repo.DeleteByPhone. destruct (s_cleanup_delete_down env); cbn [fst].
    + apply lookup_insert_ne, Hother.
    + rewrite lookup_delete_ne by exact Hother.
      apply lookup_insert_ne, Hother.
  - apply lookup_insert_ne, Hother.
Qed.

Lemma DeleteByPhone_other (down : bool) (phone other : string)
    (c : Collection) :
  phone <> other -> (repo.DeleteByPhone down phone c).1 !! other = c !! other.
Proof.
  intros Hother. unfold repo.DeleteByPhone. destruct down; cbn [fst];
    [reflexivity | apply lookup_delete_ne, Hother].
Qed.

Lemma IncrementAttempts_other (down : bool) (now : time.Time)
    (phone other : string) (c : Collection) :
  phone <> other ->
  (repo.IncrementAttempts down now phone c).1 !! other = c !! other.
Proof.
  intros Hother. unfold repo.IncrementAttempts. destruct down; cbn [fst];
    [reflexivity | apply lookup_alter_ne, Hother].
Qed.

(** ** The branches of VerifyOTP *)

Lemma VerifyOTP_branches (env : VerifyEnv) (req : VerifyOTPRequest.t)
    (w : World) :
  verify_branch env req w (VerifyOTP env req w).
Proof.
  destruct (v_find_down env) eqn:Hdown.
  { rewrite VerifyOTP_not_found by auto. apply branch_not_found. auto. }
  destruct (otps w !! VerifyOTPRequest.PhoneNumber req) as [r|] eqn:Hr.
  2: { rewrite VerifyOTP_not_found by auto. apply branch_not_found. auto. }
  destruct (Z_lt_le_dec (OTP.ExpiresAt r) (v_now env)) as [Hlate | Hlive].
  { rewrite (VerifyOTP_expired env req w r Hdown Hr Hlate).
    apply (branch_expired env req w r); assumption. }
  destruct (Z_le_gt_dec (OTP.MaxAttempts r) (OTP.Attempts r)) as [Hmax | Hroom].
  { rewrite (VerifyOTP_exhausted env req w r Hdown Hr Hlive Hmax).
    apply (branch_exhausted env req w r); assumption. }
  rewrite (VerifyOTP_compared env req w r Hdown Hr Hlive ltac:(lia)).
  destruct (String.eqb_spec (OTP.Code r) (VerifyOTPRequest.OTP req)) as [Heq | Hne].
  - apply (branch_matched env req w r); auto with zarith.
  - apply (branch_mismatched env req w r); auto with zarith.
Qed.

(** ** What a call leaves alone *)

(** X1. A [VerifyOTP] call sends nothing and leaves the records of all
    other phones as they are. Of the record of its own phone it changes at
    most the attempts, by one, and the update time, unless it removes it:
    the code, the expiry and the ceiling of a record never change. *)
Theorem VerifyOTP_touches_one_record (env : VerifyEnv)
    (req : VerifyOTPRequest.t) (w : World) :
  let phone := VerifyOTPRequest.PhoneNumber req in
  let w' := (VerifyOTP env req w).1 in
  dispatched w' = dispatched w /\
  (forall other, phone <> other -> otps w' !! other = otps w !! other) /\
  (forall otp', otps w' !! phone = Some otp' ->
     exists otp, otps w !! phone = Some otp /\
       OTP.Phone otp' = OTP.Phone otp /\
       OTP.Code otp' = OTP.Code otp /\
       OTP.ExpiresAt otp' = OTP.ExpiresAt otp /\
       OTP.MaxAttempts otp' = OTP.MaxAttempts otp /\
       OTP.CreatedAt otp' = OTP.CreatedAt otp /\
       (OTP.Attempts otp' = OTP.Attempts otp \/
        OTP.Attempts otp' = OTP.Attempts otp + 1)).
Proof.
  intros phone w'. subst w'.
  assert (Hincr : forall down now otp',
            (repo.IncrementAttempts down now phone (otps w)).1 !! phone
              = Some otp' ->
            exists otp, otps w !! phone = Some otp /\
              OTP.Phone otp' = OTP.Phone otp /\
              OTP.Code otp' = OTP.Code otp /\
              OTP.ExpiresAt otp' = OTP.ExpiresAt otp /\
              OTP.MaxAttempts otp' = OTP.MaxAttempts otp /\
              OTP.CreatedAt otp' = OTP.CreatedAt otp /\
              (OTP.Attempts otp' = OTP.Attempts otp \/
               OTP.Attempts otp' = OTP.Attempts otp + 1)).
  { intros down now otp'. unfold repo.IncrementAttempts.
    destruct down; cbn [fst].
    - intros Hsame. exists otp'. auto 10.
    - rewrite lookup_alter_eq. destruct (otps w !! phone) as [otp|];
        [|discriminate].
      intros [= <-]. exists otp. cbn. auto 10. }
  assert (Hdel : forall down (c : Collection) otp',
            (repo.DeleteByPhone down phone c).1 !! phone = Some otp' ->
            c !! phone = Some otp').
  { intros down c otp'. unfold repo.DeleteByPhone. destruct down; cbn [fst].
    - auto.
    - rewrite lookup_delete_eq. discriminate. }
  subst phone.
  destruct (VerifyOTP_branches env req w);
    cbn [fst otps dispatched with_otps].
  - split; [reflexivity|]. split; [reflexivity|]. intros otp' Hotp'.
    exists otp'. auto 10.
  - split; [reflexivity|]. split.
    + intros other Hother. apply DeleteByPhone_other, Hother.
    + intros otp' Hotp'. apply Hdel in Hotp'. exists otp'. auto 10.
  - split; [reflexivity|]. split; [reflexivity|]. intros otp' Hotp'.
    exists otp'. auto 10.
  - split; [reflexivity|]. split.
    + intros other Hother. rewrite DeleteByPhone_other by exact Hother.
      apply IncrementAttempts_other, Hother.
    + intros otp' Hotp'. apply Hdel in Hotp'. eapply Hincr, Hotp'.
  - split; [reflexivity|]. split.
    + intros other Hother. apply IncrementAttempts_other, Hother.
    + intros otp' Hotp'. eapply Hincr, Hotp'.
Qed.

(** The calls a [SendOTP] makes to the SMS client: none, or one for the
    requested phone with the code generated in this call. *)
Lemma SendOTP_calls (env : SendEnv) (req : OTPRequest.t) (w : World) :
  let phone := OTPRequest.PhoneNumber req in
  dispatched (SendOTP env req w).1 = dispatched w \/
  exists otp, generateOTP (s_rand env) = (otp, None) /\
    dispatched (SendOTP env req w).1 = (dispatched w ++ [(phone, otp)])%list.
Proof.
  intros phone.
  assert (Hcalls : forall c,
            dispatched (issue env phone c w).1 = dispatched w \/
            exists otp, generateOTP (s_rand env) = (otp, None) /\
              dispatched (issue env phone c w).1
                = (dispatched w ++ [(phone, otp)])%list).
  { intros c. destruct (issue_cases env phone c w); cbn [fst dispatched with_otps];
      eauto. }
  destruct (SendOTP_paths env req w)
    as [(old & _ & _ & _ & Hrun) | [(old & _ & _ & _ & Hrun) | [_ Hrun]]];
    fold phone in Hrun; rewrite Hrun; auto.
Qed.

(** X2. A [SendOTP] call leaves the records of all other phones as they
    are and calls the SMS client at most once: if it does, it is for the
    requested phone and with the code generated in this call. *)
Theorem SendOTP_touches_one_phone (env : SendEnv) (req : OTPRequest.t)
    (w : World) :
  let phone := OTPRequest.PhoneNumber req in
  let w' := (SendOTP env req w).1 in
  (forall other, phone <> other -> otps w' !! other = otps w !! other) /\
  (dispatched w' = dispatched w \/
   exists otp, generateOTP (s_rand env) = (otp, None) /\
     dispatched w' = (dispatched w ++ [(phone, otp)])%list).
Proof.
  intros phone w'. subst w'. split; [|apply SendOTP_calls].
  intros other Hother.
  destruct (SendOTP_paths env req w)
    as [(old & _ & _ & _ & Hrun) | [(old & _ & _ & _ & Hrun) | [_ Hrun]]];
    fold phone in Hrun; rewrite Hrun.
  - reflexivity.
  - rewrite issue_other by exact Hother.
    apply DeleteByPhone_other, Hother.
  - apply issue_other, Hother.
Qed.

(** ** CleanupExpiredOTPs *)

Lemma cleanup_loop_sub (delete_down : nat -> bool) (expiredOTPs : list OTP.t) :
  forall (i : nat) (c : Collection),
    cleanup_loop delete_down i expiredOTPs c ⊆ c.
Proof.
  induction expiredOTPs as [|otp rest IH]; intros i c; cbn [cleanup_loop].
  - reflexivity.
  - destruct (repo.DeleteByPhone (delete_down i) (OTP.Phone otp) c)
      as [c1 e] eqn:Hdel.
    transitivity c1; [apply IH|].
    replace c1 with (repo.DeleteByPhone (delete_down i) (OTP.Phone otp) c).1
      by (rewrite Hdel; reflexivity).
    apply DeleteByPhone_sub.
Qed.

Lemma cleanup_loop_other (delete_down : nat -> bool)
    (expiredOTPs : list OTP.t) (phone : string) :
  Forall (fun otp => OTP.Phone otp <> phone) expiredOTPs ->
  forall (i : nat) (c : Collection),
    cleanup_loop delete_down i expiredOTPs c !! phone = c !! phone.
Proof.
  induction 1 as [|otp rest Hotp _ IH]; intros i c; cbn [cleanup_loop].
  - reflexivity.
  - destruct (repo.DeleteByPhone (delete_down i) (OTP.Phone otp) c)
      as [c1 e] eqn:Hdel.
    rewrite IH.
    replace c1 with (repo.DeleteByPhone (delete_down i) (OTP.Phone otp) c).1
      by (rewrite Hdel; reflexivity).
    apply DeleteByPhone_other, Hotp.
Qed.

(** The record found in round [k] is gone when its delete is carried out,
    whatever becomes of the other deletes. *)
Lemma cleanup_loop_deleted (delete_down : nat -> bool)
    (expiredOTPs : list OTP.t) :
  forall (i k : nat) (c : Collection) (otp : OTP.t),
    expiredOTPs !! k = Some otp ->
    delete_down (i + k)%nat = false ->
    cleanup_loop delete_down i expiredOTPs c !! OTP.Phone otp = None.
Proof.
  induction expiredOTPs as [|first rest IH]; intros i k c otp Hk Hup;
    [discriminate|].
  cbn [cleanup_loop].
  destruct (repo.DeleteByPhone (delete_down i) (OTP.Phone first) c)
    as [c1 e] eqn:Hdel.
  destruct k as [|k].
  - injection Hk as ->. rewrite Nat.add_0_r in Hup.
    assert (Hgone : c1 !! OTP.Phone otp = None).
    { replace c1 with (repo.DeleteByPhone (delete_down i) (OTP.Phone otp) c).1
        by (rewrite Hdel; reflexivity).
      rewrite Hup. apply DeleteByPhone_up. }
    pose proof (cleanup_loop_sub delete_down rest (S i) c1) as Hsub.
    destruct (cleanup_loop delete_down (S i) rest c1 !! OTP.Phone otp)
      as [r|] eqn:Hr; [|reflexivity].
    apply (lookup_weaken _ _ _ _ Hr) in Hsub. congruence.
  - apply (IH (S i) k c1 otp Hk).
    replace (S i + k)%nat with (i + S k)%nat by lia. exact Hup.
Qed.

(** What [FindExpired] finds when the store answers. *)
Lemma FindExpired_spec (now : time.Time) (c : Collection) (otp : OTP.t) :
  In otp (FindExpired false now c).1 <->
  exists phone, c !! phone = Some otp /\ OTP.ExpiresAt otp < now.
Proof.
  unfold FindExpired. cbn [fst]. rewrite List.filter_In, List.in_map_iff.
  split.
  - intros [([phone otp'] & Heq & Hin) Hlate]. cbn in Heq. subst otp'.
    exists phone. split.
    + apply elem_of_map_to_list, list_elem_of_In, Hin.
    + apply Z.ltb_lt, Hlate.
  - intros (phone & Hc & Hlate). split.
    + exists (phone, otp). split; [reflexivity|].
      apply list_elem_of_In, elem_of_map_to_list, Hc.
    + apply Z.ltb_lt, Hlate.
Qed.

Lemma keyed_world2 : keyed (otps world2).
Proof.
  intros phone otp. unfold world2. cbn [otps].
  rewrite lookup_insert. destruct (decide (phone1 = phone)) as [<- | _].
  - intros [= <-]. reflexivity.
  - rewrite lookup_singleton. destruct (decide (phone0 = phone)) as [<- | _].
    + intros [= <-]. reflexivity.
    + discriminate.
Qed.

(** X3. [CleanupExpiredOTPs] sends nothing and only removes records: what
    it leaves is part of what was there. With every record stored under its
    own phone, a record that has not expired at the clock reading of the
    sweep ([expiresAt >= now]) is left in place whatever the store does; and
    when the search for expired records fails, nothing changes at all. *)
Theorem cleanup_keeps_live_records (env : CleanupEnv) (w : World) :
  keyed (otps w) ->
  let w' := CleanupExpiredOTPs env w in
  dispatched w' = dispatched w /\
  otps w' ⊆ otps w /\
  (forall phone otp,
     otps w !! phone = Some otp -> k_now env <= OTP.ExpiresAt otp ->
     otps w' !! phone = Some otp) /\
  (k_find_down env = true -> w' = w).
Proof.
  intros Hkeyed w'. subst w'. unfold CleanupExpiredOTPs.
  destruct (k_find_down env) eqn:Hdown.
  { cbn. repeat split; auto. }
  assert (Hfind : FindExpired false (k_now env) (otps w)
                  = ((FindExpired false (k_now env) (otps w)).1, None))
    by reflexivity.
  rewrite Hfind. cbn [with_otps dispatched otps].
  split; [reflexivity|]. split; [apply cleanup_loop_sub|].
  split; [|discriminate].
  intros phone otp Hotp Hlive. rewrite cleanup_loop_other; [exact Hotp|].
  apply List.Forall_forall. intros found Hfound Hphone.
  apply FindExpired_spec in Hfound as (key & Hkey & Hlate).
  rewrite (Hkeyed key found Hkey) in Hphone. subst key.
  assert (found = otp) by congruence. subst found. lia.
Qed.

Lemma cleanup_keeps_live_records_witness :
  keyed (otps world2) /\
  otps (CleanupExpiredOTPs sweep0 world2) !! phone0 = Some (otp0 0).
Proof.
  split; [exact keyed_world2|].
  destruct (cleanup_keeps_live_records sweep0 world2 keyed_world2)
    as (_ & _ & Hlive & _).
  apply Hlive; [reflexivity | vm_compute; discriminate].
Defined.

(** X4. When the search for expired records succeeds, every record it
    finds whose own delete is carried out is gone after the sweep, whether
    or not the deletes of other records fail; and when all deletes are
    carried out, with every record stored under its own phone, no record
    with [expiresAt < now] is left. *)
Theorem cleanup_removes_expired (env : CleanupEnv) (w : World) :
  k_find_down env = false ->
  let w' := CleanupExpiredOTPs env w in
  (forall k otp,
     (FindExpired false (k_now env) (otps w)).1 !! k = Some otp ->
     k_delete_down env k = false ->
     otps w' !! OTP.Phone otp = None) /\
  ((forall k, k_delete_down env k = false) -> keyed (otps w) ->
   forall phone otp,
     otps w' !! phone = Some otp -> k_now env <= OTP.ExpiresAt otp).
Proof.
  intros Hdown w'. subst w'. unfold CleanupExpiredOTPs. rewrite Hdown.
  assert (Hfind : FindExpired false (k_now env) (otps w)
                  = ((FindExpired false (k_now env) (otps w)).1, None))
    by reflexivity.
  rewrite Hfind. cbn [with_otps otps].
  assert (Hgone : forall k otp,
            (FindExpired false (k_now env) (otps w)).1 !! k = Some otp ->
            k_delete_down env k = false ->
            cleanup_loop (k_delete_down env) 0
              (FindExpired false (k_now env) (otps w)).1 (otps w)
              !! OTP.Phone otp = None).
  { intros k otp Hk Hup.
    apply (cleanup_loop_deleted _ _ 0 k _ otp Hk). exact Hup. }
  split; [exact Hgone|].
  intros Hall Hkeyed phone otp Hleft.
  destruct (Z_le_gt_dec (k_now env) (OTP.ExpiresAt otp)) as [Hlive | Hlate];
    [exact Hlive | exfalso].
  pose proof (lookup_weaken _ _ _ _ Hleft (cleanup_loop_sub _ _ 0 (otps w)))
    as Hwas.
  assert (Hfound : In otp (FindExpired false (k_now env) (otps w)).1).
  { apply FindExpired_spec. exists phone. split; [exact Hwas | lia]. }
  apply list_elem_of_In, list_elem_of_lookup in Hfound as [k Hk].
  specialize (Hgone k otp Hk (Hall k)).
  rewrite (Hkeyed phone otp Hwas) in Hgone. congruence.
Qed.

Lemma cleanup_removes_expired_witness :
  k_find_down sweep0 = false /\
  otps (CleanupExpiredOTPs sweep0 world2) !! phone1 = None.
Proof.
  split; [reflexivity|].
  destruct (cleanup_removes_expired sweep0 world2 eq_refl) as [Hgone _].
  apply (Hgone 0%nat otp1); [vm_compute; reflexivity | reflexivity].
Defined.

(** ** What every reachable store looks like *)

Lemma sound_sub (c c' : Collection) : c' ⊆ c -> sound c -> sound c'.
Proof.
  intros Hsub Hsound phone otp Hotp.
  apply Hsound, (lookup_weaken _ _ _ _ Hotp Hsub).
Qed.

Lemma sound_keyed (c : Collection) : sound c -> keyed c.
Proof. intros Hsound phone otp Hotp. apply (Hsound phone otp Hotp). Qed.

Lemma generateOTP_valid (rand : RandSource) (otp : string) :
  generateOTP rand = (otp, None) -> isValidOTP otp = true.
Proof.
  intros Hgen. unfold isValidOTP.
  rewrite (generateOTP_length rand otp Hgen). cbn [Nat.eqb negb].
  destruct (generateOTP_digits rand otp Hgen) as (nums & _ & _ & ->).
  rewrite list_ascii_of_string_of_list_ascii.
  apply forallb_forall. intros ch Hch.
  apply List.in_map_iff in Hch as (num & <- & _). apply Sprintf_d_digit.
Qed.

Lemma sound_issue (env : SendEnv) (phone : string) (c : Collection)
    (w : World) :
  sound c -> sound (otps (issue env phone c w).1).
Proof.
  intros Hsound.
  assert (Hnew : forall otp, generateOTP (s_rand env) = (otp, None) ->
            sound (<[phone := issued env phone otp]> c)).
  { intros otp Hgen key r. rewrite lookup_insert.
    destruct (decide (phone = key)) as [<- | _]; [|apply Hsound].
    intros [= <-]. unfold sound_record, issued. cbn.
    split; [reflexivity|]. split; [apply (generateOTP_valid _ _ Hgen)|]. lia. }
  destruct (issue_cases env phone c w); cbn [fst otps with_otps]; auto.
  eapply sound_sub; [apply DeleteByPhone_sub | auto].
Qed.

Lemma sound_increment (down : bool) (now : time.Time) (phone : string)
    (c : Collection) (otp : OTP.t) :
  c !! phone = Some otp -> OTP.Attempts otp < OTP.MaxAttempts otp ->
  sound c -> sound (repo.IncrementAttempts down now phone c).1.
Proof.
  intros Hotp Hroom Hsound. unfold repo.IncrementAttempts.
  destruct down; cbn [fst]; [exact Hsound|].
  intros key r. rewrite lookup_alter.
  destruct (decide (phone = key)) as [<- | _]; [|apply Hsound].
  rewrite Hotp. intros [= <-].
  destruct (Hsound phone otp Hotp) as (Hphone & Hcode & Hmax & Hcount).
  unfold sound_record. cbn. repeat split; try assumption; lia.
Qed.

Lemma sound_call (k : Call) (w : World) :
  sound (otps w) -> sound (otps (call k w)).
Proof.
  intros Hsound. destruct k as [env req | env req | env]; cbn [call].
  - destruct (SendOTP_paths env req w)
      as [(old & _ & _ & _ & Hrun) | [(old & _ & _ & _ & Hrun) | [_ Hrun]]];
      rewrite Hrun.
    + exact Hsound.
    + apply sound_issue. eapply sound_sub; [apply DeleteByPhone_sub | auto].
    + apply sound_issue, Hsound.
  - destruct (VerifyOTP_branches env req w); cbn [fst otps with_otps];
      try exact Hsound.
    + eapply sound_sub; [apply DeleteByPhone_sub | auto].
    + eapply sound_sub; [apply DeleteByPhone_sub|].
      eapply sound_increment; eauto.
    + eapply sound_increment; eauto.
  - unfold CleanupExpiredOTPs.
    destruct (FindExpired _ _ _) as [found [e|]]; [exact Hsound|].
    cbn [otps with_otps]. eapply sound_sub; [apply cleanup_loop_sub | auto].
Qed.

(** X5. Whatever calls of [SendOTP], [VerifyOTP] and [CleanupExpiredOTPs]
    are made, in whatever order and whatever fails meanwhile, a store whose
    records are all stored under their own phone with a six-digit code, a
    ceiling of three attempts and between zero and three attempts made stays
    such a store; so does, in particular, every store reached from the empty
    one. *)
Theorem service_keeps_records_sound (calls : list Call) (w : World) :
  sound (otps w) -> sound (otps (run calls w)).
Proof.
  revert w. induction calls as [|k rest IH]; intros w Hsound; cbn [run].
  - exact Hsound.
  - apply IH, sound_call, Hsound.
Qed.

Lemma service_keeps_records_sound_witness :
  sound (otps idle) /\
  sound (otps (run [CallSendOTP (send_at 0 false) request0;
                    CallVerifyOTP (verify_at 1) wrong0;
                    CallCleanup sweep0] idle)).
Proof.
  assert (Hidle : sound (otps idle)).
  { intros phone otp. cbn. rewrite lookup_empty. discriminate. }
  split; [exact Hidle|].
  apply (service_keeps_records_sound _ idle Hidle).
Defined.

(** ** How many guesses a record allows *)

(** One call for [phone] whose increment the store carries out: if the codes
    were compared, the record allows one comparison fewer; if not, it does
    not allow more than before. *)
Lemma VerifyOTP_spends_a_guess (env : VerifyEnv) (req : VerifyOTPRequest.t)
    (w : World) :
  v_incr_down env = false ->
  let phone := VerifyOTPRequest.PhoneNumber req in
  ((if compared (VerifyOTP env req w).2 then 1 else 0)
   + guesses_left phone (otps (VerifyOTP env req w).1)
   <= guesses_left phone (otps w))%nat.
Proof.
  intros Hincr phone. subst phone.
  assert (Hdel : forall down (c : Collection) (n : nat),
            (guesses_left (VerifyOTPRequest.PhoneNumber req) c <= n)%nat ->
            (guesses_left (VerifyOTPRequest.PhoneNumber req)
               (repo.DeleteByPhone down (VerifyOTPRequest.PhoneNumber req) c).1
             <= n)%nat).
  { intros down c n Hn. unfold repo.DeleteByPhone. destruct down; cbn [fst];
      [exact Hn|]. unfold guesses_left. rewrite lookup_delete_eq. lia. }
  assert (Hbump : forall otp,
            otps w !! VerifyOTPRequest.PhoneNumber req = Some otp ->
            OTP.Attempts otp < OTP.MaxAttempts otp ->
            (1 + guesses_left (VerifyOTPRequest.PhoneNumber req)
                   (repo.IncrementAttempts false (v_incr_now env)
                      (VerifyOTPRequest.PhoneNumber req) (otps w)).1
             <= guesses_left (VerifyOTPRequest.PhoneNumber req) (otps w))%nat).
  { intros otp Hotp Hroom. unfold guesses_left.
    rewrite (IncrementAttempts_up _ _ _ _ Hotp), Hotp. cbn. lia. }
  destruct (VerifyOTP_branches env req w) as [Hmiss | otp Hup Hotp Hlate
    | otp Hup Hotp Hlive Hmax | otp Hup Hotp Hlive Hroom Hcode
    | otp Hup Hotp Hlive Hroom Hcode];
    cbn [fst snd otps with_otps]; rewrite ?Hincr.
  - cbn. lia.
  - change (compared (Some (rejected msgExpired), None)) with false.
    cbn. apply Hdel. lia.
  - cbn. lia.
  - change (compared (Some verified, None)) with true.
    specialize (Hbump otp Hotp Hroom).
    pose proof (Hdel (v_delete_down env)
                  (repo.IncrementAttempts false (v_incr_now env)
                     (VerifyOTPRequest.PhoneNumber req) (otps w)).1
                  _ (le_n _)) as Hle.
    cbv iota. lia.
  - change (compared (Some (rejected msgInvalid), None)) with true.
    apply (Hbump otp Hotp Hroom).
Qed.

(** X6. In any series of [VerifyOTP] calls for one phone during which the
    store carries out the increments, the calls that get as far as comparing
    the codes (answered 'invalid code' or VERIFIED) are at most as many as
    the ceiling of the phone's record exceeds its attempts at the start:
    none without a record, three for a fresh one. Expired records, failed
    lookups and failed deletes never add to that number. *)
Theorem guesses_are_bounded (phone : string)
    (calls : list (VerifyEnv * VerifyOTPRequest.t)) (w : World) :
  Forall (fun k => VerifyOTPRequest.PhoneNumber k.2 = phone /\
                   v_incr_down k.1 = false) calls ->
  (length (List.filter compared (verify_all calls w).2)
   <= guesses_left phone (otps w))%nat.
Proof.
  intros Hcalls. revert w.
  induction Hcalls as [|[env req] rest [Hphone Hincr] _ IH]; intros w.
  - cbn. lia.
  - cbn [fst snd] in Hphone, Hincr. rewrite verify_all_cons. cbn [snd List.filter].
    pose proof (VerifyOTP_spends_a_guess env req w Hincr) as Hstep.
    cbv zeta in Hstep. rewrite Hphone in Hstep.
    specialize (IH (VerifyOTP env req w).1).
    destruct (compared (VerifyOTP env req w).2); cbn [length]; lia.
Qed.

Lemma guesses_are_bounded_witness :
  (length (List.filter compared
             (verify_all (three_wrong0 ++ [(verify_at 4, right0);
                                           (verify_at 5, wrong0)])
                (world0 0)).2) <= 3)%nat.
Proof.
  apply (guesses_are_bounded phone0 _ (world0 0)).
  repeat constructor.
Defined.

(** ** Issuing, then verifying *)

(** X7. The code in the response of a completed [SendOTP] is the one
    handed to the SMS client and the one that verifies, up to the expiry the
    store keeps, which is the expiry of the response cut to milliseconds: a
    [VerifyOTP] call for the phone whose lookup succeeds and whose clock has
    not passed the stored expiry is answered VERIFIED for that code and
    'invalid code' for any other; once the clock has passed the stored
    expiry, be it by less than a millisecond and not yet past the expiry of
    the response, every code is answered 'expired'. *)
Theorem issued_code_verifies (env : SendEnv) (req : OTPRequest.t) (w : World)
    (resp : OTPResponse.t) (venv : VerifyEnv) :
  let phone := OTPRequest.PhoneNumber req in
  let w1 := (SendOTP env req w).1 in
  (SendOTP env req w).2 = (Some resp, None) ->
  OTPResponse.Success resp = true ->
  v_find_down venv = false ->
  dispatched w1 = (dispatched w ++ [(phone, OTPResponse.OTP resp)])%list /\
  (v_now venv <= stored_time (OTPResponse.ExpiresAt resp) ->
     (VerifyOTP venv (VerifyOTPRequest.mk phone (OTPResponse.OTP resp)) w1).2
       = (Some verified, None) /\
     forall code, code <> OTPResponse.OTP resp ->
       (VerifyOTP venv (VerifyOTPRequest.mk phone code) w1).2
         = (Some (rejected msgInvalid), None)) /\
  (stored_time (OTPResponse.ExpiresAt resp) < v_now venv ->
     forall code,
       (VerifyOTP venv (VerifyOTPRequest.mk phone code) w1).2
         = (Some (rejected msgExpired), None)).
Proof.
  intros phone w1 Hresp Hsuccess Hup. subst w1.
  destruct (SendOTP_answer env req w resp None Hresp) as [_ Hcase].
  destruct Hcase as [(old & _ & _ & -> & _) | (otp & _ & _ & -> & Hrec & Hcalls)];
    [discriminate|].
  fold phone in Hrec, Hcalls. cbn [OTPResponse.OTP OTPResponse.ExpiresAt] in *.
  split; [exact Hcalls|].
  split.
  2:{ intros Hlate code.
      rewrite (VerifyOTP_expired venv (VerifyOTPRequest.mk phone code) _
                 (issued env phone otp) Hup Hrec); [reflexivity|].
      exact Hlate. }
  intros Hlive.
  assert (Hrun : forall code,
            VerifyOTP venv (VerifyOTPRequest.mk phone code) (SendOTP env req w).1 =
            if String.eqb otp code
            then (with_otps
                    (repo.DeleteByPhone (v_delete_down venv) phone
                       (repo.IncrementAttempts (v_incr_down venv)
                          (v_incr_now venv) phone
                          (otps (SendOTP env req w).1)).1).1
                    (SendOTP env req w).1, (Some verified, None))
            else (with_otps
                    (repo.IncrementAttempts (v_incr_down venv)
                       (v_incr_now venv) phone
                       (otps (SendOTP env req w).1)).1
                    (SendOTP env req w).1, (Some (rejected msgInvalid), None))).
  { intros code.
    apply (VerifyOTP_compared venv (VerifyOTPRequest.mk phone code) _
             (issued env phone otp) Hup Hrec); cbn; [exact Hlive | lia]. }
  split.
  - rewrite Hrun, String.eqb_refl. reflexivity.
  - intros code Hcode. rewrite Hrun.
    destruct (String.eqb_spec otp code) as [<- | _]; [congruence | reflexivity].
Qed.

Lemma issued_code_verifies_witness :
  (SendOTP (issuing_at tick0) request0 idle).2 =
    (Some (OTPResponse.mk true msgSent "123456" 1700000300001234567), None) /\
  (VerifyOTP (verifying_at 1700000300001000000) right0
     (SendOTP (issuing_at tick0) request0 idle).1).2 = (Some verified, None) /\
  (VerifyOTP (verifying_at 1700000300001000001) right0
     (SendOTP (issuing_at tick0) request0 idle).1).2
    = (Some (rejected msgExpired), None).
Proof.
  assert (Hresp : (SendOTP (issuing_at tick0) request0 idle).2 =
            (Some (OTPResponse.mk true msgSent "123456" 1700000300001234567),
             None))
    by (vm_compute; reflexivity).
  split; [exact Hresp|]. split.
  - destruct (issued_code_verifies (issuing_at tick0) request0 idle _
                (verifying_at 1700000300001000000) Hresp eq_refl eq_refl)
      as (_ & Hlive & _).
    apply Hlive. vm_compute. discriminate.
  - destruct (issued_code_verifies (issuing_at tick0) request0 idle _
                (verifying_at 1700000300001000001) Hresp eq_refl eq_refl)
      as (_ & _ & Hlate).
    apply (Hlate ltac:(vm_compute; reflexivity) "123456").
Defined.

(** ** SendOTP when nothing fails *)

Lemma with_otps_same (w : World) : with_otps (otps w) w = w.
Proof. destruct w. reflexivity. Qed.

(** With nothing failing and no record in cooldown, the call issues. *)
Lemma SendOTP_issues (env : SendEnv) (req : OTPRequest.t) (w : World) :
  let phone := OTPRequest.PhoneNumber req in
  cooperative env ->
  (forall existingOTP, otps w !! phone = Some existingOTP ->
     OTP.ExpiresAt existingOTP - s_now env <= 2 * time.Minute) ->
  exists otp,
    generateOTP (s_rand env) = (otp, None) /\
    SendOTP env req w =
      (mkWorld (<[phone := issued env phone otp]> (otps w))
         (dispatched w ++ [(phone, otp)])%list,
       (Some (OTPResponse.mk true msgSent otp
                (time.Add (s_expiry_now env) (5 * time.Minute))), None)).
Proof.
  intros phone (Hfind & Hdel & Hrand & Hcreate & Hsms) Hnear.
  destruct (generateOTP_returns (s_rand env) Hrand) as [otp Hgen].
  exists otp. split; [exact Hgen|].
  assert (Hissue : forall c, c !! phone = None ->
            issue env phone c w =
              (mkWorld (<[phone := issued env phone otp]> c)
                 (dispatched w ++ [(phone, otp)])%list,
               (Some (OTPResponse.mk true msgSent otp
                        (time.Add (s_expiry_now env) (5 * time.Minute))),
                None))).
  { intros c Hfree. unfold issue. rewrite Hgen. unfold repo.Create.
    cbn [OTP.Phone OTP.Code OTP.ExpiresAt OTP.Attempts OTP.MaxAttempts].
    rewrite Hcreate, Hfree, Hsms. reflexivity. }
  destruct (SendOTP_paths env req w)
    as [(old & _ & Hold & Hfar & _) | [(old & _ & Hold & _ & Hrun)
       | [[Hdown | Hnone] Hrun]]]; try fold phone in Hrun.
  - specialize (Hnear old Hold). lia.
  - rewrite Hrun, Hdel. cbn [repo.DeleteByPhone fst].
    rewrite Hissue by apply lookup_delete_eq.
    rewrite insert_delete_eq. reflexivity.
  - congruence.
  - rewrite Hrun, Hissue by exact Hnone. reflexivity.
Qed.

(** X8. When the store, the random source and the SMS client all work and
    the phone has no record, or one with two minutes or less to go (expired
    ones included), [SendOTP] completes: it generates a code, leaves exactly
    one record for the phone, the new one, with no attempt made, whatever
    the old record held, and hands the code to the SMS client once. The
    response gives the expiry as five minutes after the clock reading; the
    record holds it cut to milliseconds, so at most as late and less than a
    millisecond earlier. *)
Theorem SendOTP_completes (env : SendEnv) (req : OTPRequest.t) (w : World) :
  let phone := OTPRequest.PhoneNumber req in
  cooperative env ->
  (forall existingOTP, otps w !! phone = Some existingOTP ->
     OTP.ExpiresAt existingOTP - s_now env <= 2 * time.Minute) ->
  exists otp,
    generateOTP (s_rand env) = (otp, None) /\
    SendOTP env req w =
      (mkWorld (<[phone := issued env phone otp]> (otps w))
         (dispatched w ++ [(phone, otp)])%list,
       (Some (OTPResponse.mk true msgSent otp
                (time.Add (s_expiry_now env) (5 * time.Minute))), None)) /\
    OTP.Attempts (issued env phone otp) = 0 /\
    OTP.ExpiresAt (issued env phone otp)
    = stored_time (s_expiry_now env + 5 * time.Minute) /\
    s_expiry_now env + 5 * time.Minute - time.Millisecond
    < OTP.ExpiresAt (issued env phone otp)
    <= s_expiry_now env + 5 * time.Minute.
Proof.
  intros phone Hco Hnear.
  destruct (SendOTP_issues env req w Hco Hnear) as (otp & Hgen & Hrun).
  exists otp. do 4 (split; [auto|]).
  unfold issued, repo.document, time.Add. cbn [OTP.ExpiresAt].
  pose proof (stored_time_bounds (s_expiry_now env + 5 * time.Minute)). lia.
Qed.

Lemma cooperative_send_at (secs : Z) : cooperative (send_at secs false).
Proof.
  repeat split. intros i _. unfold send_at, counting. cbn [s_rand].
  do 6 (destruct i as [|i]; [discriminate|]). discriminate.
Qed.

Lemma cooperative_issuing_at (now : time.Time) : cooperative (issuing_at now).
Proof.
  repeat split. intros i _. unfold issuing_at, counting. cbn [s_rand].
  do 6 (destruct i as [|i]; [discriminate|]). discriminate.
Qed.

Lemma SendOTP_completes_witness :
  cooperative (issuing_at (tick0 + 200 * time.Second)) /\
  otps (SendOTP (issuing_at (tick0 + 200 * time.Second)) request0
          (world0 2)).1 !! phone0 =
    Some (OTP.mk phone0 "123456" 1700000500001000000 0 3
            1700000200001000000 1700000200001000000) /\
  (SendOTP (issuing_at (tick0 + 200 * time.Second)) request0 (world0 2)).2 =
    (Some (OTPResponse.mk true msgSent "123456" 1700000500001234567), None).
Proof.
  split; [apply cooperative_issuing_at|].
  destruct (SendOTP_completes (issuing_at (tick0 + 200 * time.Second))
              request0 (world0 2) (cooperative_issuing_at _))
    as (otp & Hgen & Hrun & _).
  - intros old Hold. vm_compute in Hold. injection Hold as <-.
    vm_compute. discriminate.
  - rewrite Hrun. cbn [fst snd otps]. rewrite lookup_insert_eq.
    assert (Hotp : otp = "123456").
    { assert (H0 : generateOTP (s_rand (issuing_at (tick0 + 200 * time.Second)))
                   = ("123456", None)) by reflexivity.
      congruence. }
    rewrite Hotp. split; vm_compute; reflexivity.
Defined.

(** X9. After a completed [SendOTP], the next [SendOTP] for the phone
    whose lookup succeeds is answered 'already sent' and changes nothing as
    long as its clock reads less than three minutes after the first issue,
    counted from the reading of the first call cut to milliseconds; the
    expiry it reports is the stored one, that of the first response cut to
    milliseconds. From that moment on, if nothing fails, it issues and
    stores a new code with a new expiry. *)
Theorem second_request_after_issue (env1 env2 : SendEnv) (req : OTPRequest.t)
    (w : World) (resp1 : OTPResponse.t) :
  let phone := OTPRequest.PhoneNumber req in
  let w1 := (SendOTP env1 req w).1 in
  (SendOTP env1 req w).2 = (Some resp1, None) ->
  OTPResponse.Success resp1 = true ->
  s_find_down env2 = false ->
  (s_now env2 < stored_time (s_expiry_now env1) + 3 * time.Minute ->
     SendOTP env2 req w1 =
       (w1, (Some (OTPResponse.mk false msgAlreadySent ""
                     (stored_time (OTPResponse.ExpiresAt resp1))), None))) /\
  (stored_time (s_expiry_now env1) + 3 * time.Minute <= s_now env2 ->
   cooperative env2 ->
     exists otp2,
       generateOTP (s_rand env2) = (otp2, None) /\
       (SendOTP env2 req w1).2 =
         (Some (OTPResponse.mk true msgSent otp2
                  (time.Add (s_expiry_now env2) (5 * time.Minute))), None) /\
       otps (SendOTP env2 req w1).1 !! phone = Some (issued env2 phone otp2)).
Proof.
  intros phone w1 Hresp Hsuccess Hup. subst w1.
  destruct (SendOTP_answer env1 req w resp1 None Hresp) as [_ Hcase].
  destruct Hcase as [(old & _ & _ & -> & _) | (otp & _ & _ & -> & Hrec & _)];
    [discriminate|].
  fold phone in Hrec. cbn [OTPResponse.ExpiresAt].
  assert (Hexpiry : OTP.ExpiresAt (issued env1 phone otp)
                    = stored_time (s_expiry_now env1) + 5 * time.Minute).
  { unfold issued, repo.document, time.Add. cbn [OTP.ExpiresAt].
    replace (5 * time.Minute) with (300000 * time.Millisecond) by reflexivity.
    apply stored_time_add. }
  split.
  - intros Hsoon.
    change (stored_time (time.Add (s_expiry_now env1) (5 * time.Minute)))
      with (OTP.ExpiresAt (issued env1 phone otp)).
    apply (SendOTP_already_sent env2 req _ (issued env1 phone otp)).
    + apply FindByPhone_found. auto.
    + rewrite Hexpiry.
      unfold time.Minute, time.Second, time.Nanosecond in *. lia.
  - intros Hlater Hco.
    destruct (SendOTP_issues env2 req (SendOTP env1 req w).1 Hco)
      as (otp2 & Hgen & Hrun).
    + fold phone. intros old Hold. rewrite Hrec in Hold. injection Hold as <-.
      rewrite Hexpiry.
      unfold time.Minute, time.Second, time.Nanosecond in *. lia.
    + exists otp2. split; [exact Hgen|]. fold phone in Hrun. rewrite Hrun.
      split; [reflexivity|]. cbn [fst otps]. apply lookup_insert_eq.
Qed.

Lemma second_request_after_issue_witness :
  (SendOTP (issuing_at tick0) request0 idle).2 =
    (Some (OTPResponse.mk true msgSent "123456" 1700000300001234567), None) /\
  (SendOTP (send_at 179 false) request0
     (SendOTP (issuing_at tick0) request0 idle).1).2 =
    (Some (OTPResponse.mk false msgAlreadySent "" 1700000300001000000), None) /\
  (SendOTP (issuing_at 1700000180001000000) request0
     (SendOTP (issuing_at tick0) request0 idle).1).2 =
    (Some (OTPResponse.mk true msgSent "123456" 1700000480001000000), None).
Proof.
  assert (Hresp : (SendOTP (issuing_at tick0) request0 idle).2 =
            (Some (OTPResponse.mk true msgSent "123456" 1700000300001234567),
             None))
    by (vm_compute; reflexivity).
  split; [exact Hresp|]. split.
  - destruct (second_request_after_issue (issuing_at tick0)
                (send_at 179 false) request0 idle _ Hresp eq_refl eq_refl)
      as [Hsoon _].
    rewrite Hsoon; [reflexivity | vm_compute; reflexivity].
  - destruct (second_request_after_issue (issuing_at tick0)
                (issuing_at 1700000180001000000) request0 idle _ Hresp
                eq_refl eq_refl) as [_ Hlater].
    destruct (Hlater ltac:(vm_compute; discriminate)
                (cooperative_issuing_at _)) as (otp2 & Hgen & Hrun & _).
    rewrite Hrun.
    assert (Hotp : otp2 = "123456").
    { assert (H0 : generateOTP (s_rand (issuing_at 1700000180001000000))
                   = ("123456", None)) by reflexivity.
      congruence. }
    rewrite Hotp. reflexivity.
Defined.

(** ** SendOTP when the store or the random source fails *)

(** X10. A [SendOTP] call that returns an internal error returns no
    response and has not called the SMS client; the error is 'Failed to
    generate OTP' or 'Failed to store OTP'; and the phone is left with the
    record it had or, when the call had already removed a record about to
    expire, with none: never with a new one. *)
Theorem SendOTP_internal_error (env : SendEnv) (req : OTPRequest.t)
    (w : World) (message : string) :
  let phone := OTPRequest.PhoneNumber req in
  let w' := (SendOTP env req w).1 in
  (SendOTP env req w).2.2 = Some (NewInternalError message) ->
  (SendOTP env req w).2.1 = None /\
  dispatched w' = dispatched w /\
  (message = "Failed to generate OTP" \/ message = "Failed to store OTP") /\
  (otps w' !! phone = otps w !! phone \/
   otps w' !! phone = None /\
   exists existingOTP, otps w !! phone = Some existingOTP /\
     OTP.ExpiresAt existingOTP - s_now env <= 2 * time.Minute).
Proof.
  intros phone w' Herr. subst w'.
  assert (Hissue : forall c,
            (issue env phone c w).2.2 = Some (NewInternalError message) ->
            (issue env phone c w).2.1 = None /\
            dispatched (issue env phone c w).1 = dispatched w /\
            (message = "Failed to generate OTP" \/
             message = "Failed to store OTP") /\
            otps (issue env phone c w).1 = c).
  { intros c. destruct (issue_cases env phone c w);
      cbn [fst snd otps dispatched with_otps]; try discriminate;
      intros [= <-]; auto. }
  destruct (SendOTP_paths env req w)
    as [(old & _ & _ & _ & Hrun) | [(old & _ & Hold & Hnear & Hrun)
       | [_ Hrun]]]; fold phone in Hrun; rewrite Hrun in Herr |- *.
  - discriminate.
  - fold phone in Hold.
    destruct (Hissue _ Herr) as (Hnil & Hcalls & Hmsg & ->).
    repeat split; try assumption.
    unfold repo.DeleteByPhone. destruct (s_resend_delete_down env); cbn [fst].
    + left. reflexivity.
    + right. split; [apply lookup_delete_eq | eauto].
  - destruct (Hissue _ Herr) as (Hnil & Hcalls & Hmsg & ->). auto.
Qed.

(** X11. A record the call cannot get out of the way blocks the issue:
    when the phone has a record and either the lookup fails, or the record
    has two minutes or less to go and its delete fails, then, with a code
    generated, [SendOTP] returns 'Failed to store OTP' (the store refuses
    a second record for the phone), sends nothing and leaves the world as
    it was, the old record included. *)
Theorem stale_record_blocks_issue (env : SendEnv) (req : OTPRequest.t)
    (w : World) (existingOTP : OTP.t) :
  let phone := OTPRequest.PhoneNumber req in
  otps w !! phone = Some existingOTP ->
  s_find_down env = true \/
  (OTP.ExpiresAt existingOTP - s_now env <= 2 * time.Minute /\
   s_resend_delete_down env = true) ->
  (forall i, (i < 6)%nat -> s_rand env i <> None) ->
  SendOTP env req w = (w, (None, Some (NewInternalError "Failed to store OTP"))).
Proof.
  intros phone Hold Hstuck Hrand.
  destruct (generateOTP_returns (s_rand env) Hrand) as [otp Hgen].
  assert (Hissue : issue env phone (otps w) w =
            (w, (None, Some (NewInternalError "Failed to store OTP")))).
  { unfold issue. rewrite Hgen. unfold repo.Create.
    cbn [OTP.Phone OTP.Code OTP.ExpiresAt OTP.Attempts OTP.MaxAttempts].
    rewrite Hold. destruct (s_create_down env); rewrite with_otps_same;
      reflexivity. }
  destruct (SendOTP_paths env req w)
    as [(old & Hup & Hold' & Hfar & _) | [(old & Hup & Hold' & _ & Hrun)
       | [[Hdown | Hnone] Hrun]]]; try fold phone in Hrun;
    try fold phone in Hold'.
  - destruct Hstuck as [Hdown | [Hnear _]]; [congruence|].
    assert (old = existingOTP) by congruence. subst old. lia.
  - destruct Hstuck as [Hdown | [_ Hdel]]; [congruence|].
    rewrite Hrun, Hdel. exact Hissue.
  - rewrite Hrun. exact Hissue.
  - fold phone in Hnone. congruence.
Qed.

Lemma stale_record_blocks_issue_witness :
  otps (world0 2) !! phone0 = Some (otp0 2) /\
  SendOTP lookup_outage request0 (world0 2) =
    (world0 2, (None, Some (NewInternalError "Failed to store OTP"))).
Proof.
  split; [reflexivity|].
  apply (stale_record_blocks_issue _ request0 (world0 2) (otp0 2)).
  - reflexivity.
  - left. reflexivity.
  - intros i _. unfold lookup_outage, counting. cbn [s_rand].
    do 6 (destruct i as [|i]; [discriminate|]). discriminate.
Defined.

Lemma SendOTP_internal_error_witness :
  (SendOTP lookup_outage request0 (world0 2)).2.2
    = Some (NewInternalError "Failed to store OTP") /\
  dispatched (SendOTP lookup_outage request0 (world0 2)).1 = [] /\
  otps (SendOTP lookup_outage request0 (world0 2)).1 !! phone0 = Some (otp0 2).
Proof.
  assert (Herr : (SendOTP lookup_outage request0 (world0 2)).2.2
                 = Some (NewInternalError "Failed to store OTP"))
    by (vm_compute; reflexivity).
  split; [exact Herr|].
  destruct (SendOTP_internal_error lookup_outage request0 (world0 2) _ Herr)
    as (_ & Hcalls & _ & Hrec).
  split; [exact Hcalls|].
  destruct Hrec as [Hsame | [_ (old & _ & Hnear)]].
  - exact Hsame.
  - vm_compute. reflexivity.
Defined.

(** * More of the transport *)

(** ** The endpoints as gates *)

(** X12. The verify-otp endpoint hands a request on to [VerifyOTP] only
    when the body binds, the phone passes [isValidPhoneNumber], the code
    passes [isValidOTP] and the service is there; its reply is then a 200
    carrying the response of the service, never nil. In every other case the
    reply is a validation error or 'not available' and the world is left as
    it was: a malformed code costs no attempt. No failure of the store
    turns into an error reply. *)
Theorem verify_endpoint_gate (svc_ok : bool) (env : VerifyEnv)
    (body : VerifyOTPRequest.t + string) (w : World) :
  let reply := makeVerifyOTPEndpoint svc_ok env body w in
  (exists req resp,
     body = inl req /\
     isValidPhoneNumber (VerifyOTPRequest.PhoneNumber req) = true /\
     isValidOTP (VerifyOTPRequest.OTP req) = true /\
     svc_ok = true /\
     (VerifyOTP env req w).2 = (Some resp, None) /\
     reply = ((VerifyOTP env req w).1, VerifyReplyOK (Some resp))) \/
  (reply.1 = w /\
   (reply.2 = VerifyReplyNotAvailable \/
    exists message, reply.2 = VerifyReplyAppError (NewValidationError message))).
Proof.
  intros reply. subst reply. unfold makeVerifyOTPEndpoint.
  destruct body as [req | err]; [|right; eauto].
  destruct (isValidPhoneNumber _) eqn:Hphone; cbn [negb]; [|right; eauto].
  destruct (isValidOTP _) eqn:Hotp; cbn [negb]; [|right; eauto].
  destruct svc_ok; cbn [negb]; [|right; eauto].
  left. destruct (VerifyOTP_answers env req w) as [resp Hresp].
  exists req, resp. destruct (VerifyOTP env req w) as [w' answer].
  cbn [fst snd] in *. subst answer. auto 10.
Qed.

(** ** Codes that pass the format check *)

Lemma draw_of_digit (ch : ascii) :
  isDigit ch = true ->
  exists num, draw_of ch = Some num /\
    Sprintf_d (Int64 num) = String ch EmptyString.
Proof.
  intros Hdigit. unfold draw_of.
  assert (Hrange : (48 <= nat_of_ascii ch <= 57)%nat).
  { unfold isDigit in Hdigit. apply andb_true_iff in Hdigit as [H1 H2].
    apply Nat.leb_le in H1, H2. lia. }
  destruct (decide (nat_of_ascii ch - 48 < 10)%nat) as [Hlt | Hge]; [|lia].
  rewrite Hdigit. eexists. split; [reflexivity|].
  rewrite (proj1 (Sprintf_d_digit _)), fin_to_nat_to_fin.
  replace (48 + (nat_of_ascii ch - 48))%nat with (nat_of_ascii ch) by lia.
  rewrite ascii_nat_embedding. reflexivity.
Qed.

(** The loop run on the draws of [code], from round [i] on. *)
Lemma generateOTP_loop_draws_of (code : string) (rest : list ascii) :
  forall (i : nat) (otp : string),
    drop i (list_ascii_of_string code) = rest ->
    Forall (fun ch => isDigit ch = true) rest ->
    generateOTP_loop (draws_of code) i (length rest) otp =
      (otp +:+ string_of_list_ascii rest, None).
Proof.
  induction rest as [|ch rest IH]; intros i otp Hdrop Hdigits.
  - cbn. rewrite append_empty_r. reflexivity.
  - apply Forall_cons in Hdigits as [Hch Hdigits].
    assert (Hi : list_ascii_of_string code !! i = Some ch).
    { assert (H0 : drop i (list_ascii_of_string code) !! 0%nat = Some ch)
        by (rewrite Hdrop; reflexivity).
      rewrite lookup_drop, Nat.add_0_r in H0. exact H0. }
    destruct (draw_of_digit ch Hch) as (num & Hdraw & Hprint).
    cbn [length generateOTP_loop]. unfold draws_of at 1. rewrite Hi, Hdraw.
    rewrite (IH (S i)); [|  |exact Hdigits].
    + rewrite Hprint, append_one. reflexivity.
    + replace (S i) with (i + 1)%nat by lia.
      rewrite <- drop_drop, Hdrop. reflexivity.
Qed.

(** X13. The codes [isValidOTP] accepts are exactly the codes
    [generateOTP] can return: every generated code passes the check of the
    verify-otp endpoint, and every string that passes it is the code of
    some six draws. *)
Theorem valid_codes_are_the_generated_ones (code : string) :
  isValidOTP code = true <->
  exists rand, generateOTP rand = (code, None).
Proof.
  split.
  - intros Hvalid. unfold isValidOTP in Hvalid.
    destruct (Nat.eqb_spec (String.length code) 6) as [Hlen | _];
      [|discriminate].
    cbn [negb] in Hvalid.
    exists (draws_of code). unfold generateOTP.
    assert (Hsix : length (list_ascii_of_string code) = 6%nat).
    { rewrite <- Hlen.
      rewrite <- (string_of_list_ascii_of_string code) at 2.
      symmetry. apply length_string_of_list_ascii. }
    rewrite <- Hsix.
    rewrite (generateOTP_loop_draws_of code (list_ascii_of_string code) 0 "").
    + rewrite string_of_list_ascii_of_string. reflexivity.
    + reflexivity.
    + apply List.Forall_forall. apply forallb_forall. exact Hvalid.
  - intros [rand Hgen]. apply (generateOTP_valid rand code Hgen).
Qed.

(** ** Phones that pass the format check *)

(** X14. [isValidPhoneNumber] accepts exactly the strings made of a [+]
    followed by nine or more digits and nothing else; the empty string, a
    number without the [+] and a [+] with eight digits are refused. *)
Theorem valid_phone_numbers (phone : string) :
  isValidPhoneNumber phone = true <->
  exists rest,
    phone = String "+"%char rest /\
    (9 <= String.length rest)%nat /\
    Forall (fun ch => isDigit ch = true) (list_ascii_of_string rest).
Proof.
  unfold isValidPhoneNumber. destruct phone as [|first rest].
  { split; [discriminate | intros (rest & Hrest & _); discriminate]. }
  cbn [String.length].
  destruct (Nat.ltb_spec (S (String.length rest)) 10) as [Hshort | Hlong];
    cbn [orb].
  { split; [discriminate|]. intros (rest' & [= _ <-] & Hlen & _). lia. }
  destruct (Ascii.eqb_spec first "+"%char) as [-> | Hfirst]; cbn [negb].
  - split.
    + intros Hdigits. exists rest. split; [reflexivity|]. split; [lia|].
      apply List.Forall_forall. apply forallb_forall. exact Hdigits.
    + intros (rest' & [= <-] & _ & Hdigits).
      apply forallb_forall. apply List.Forall_forall. exact Hdigits.
  - split; [discriminate|]. intros (rest' & [= -> _] & _). congruence.
Qed.

(** X15. The send-otp endpoint leaves the world as it was unless the body
    binds, its phone passes [isValidPhoneNumber] and the service is there;
    so an SMS only ever goes to a phone that passed the check, and the
    service is never called for the empty phone. *)
Theorem send_endpoint_gate (svc_ok : bool) (env : SendEnv)
    (body : OTPRequest.t + string) (w : World) :
  let w' := (makeSendOTPEndpoint svc_ok env body w).1 in
  (w' = w \/
   exists req,
     body = inl req /\
     isValidPhoneNumber (OTPRequest.PhoneNumber req) = true /\
     OTPRequest.PhoneNumber req <> "" /\
     svc_ok = true /\
     w' = (SendOTP env req w).1) /\
  (forall phone otp,
     In (phone, otp) (dispatched w') ->
     In (phone, otp) (dispatched w) \/ isValidPhoneNumber phone = true).
Proof.
  intros w'.
  assert (Hgate : w' = w \/
            exists req,
              body = inl req /\
              isValidPhoneNumber (OTPRequest.PhoneNumber req) = true /\
              OTPRequest.PhoneNumber req <> "" /\
              svc_ok = true /\
              w' = (SendOTP env req w).1).
  { subst w'. unfold makeSendOTPEndpoint.
    destruct body as [req | err]; [|left; reflexivity].
    destruct (isValidPhoneNumber _) eqn:Hphone; cbn [negb];
      [|left; reflexivity].
    destruct svc_ok; cbn [negb]; [|left; reflexivity].
    right. exists req. repeat split; try assumption.
    - intros Hempty. rewrite Hempty in Hphone. discriminate.
    - destruct (SendOTP env req w) as [w1 [[resp|] [e|]]]; reflexivity. }
  split; [exact Hgate|].
  intros phone otp Hin.
  destruct Hgate as [-> | (req & _ & Hvalid & _ & _ & ->)]; [auto|].
  destruct (SendOTP_calls env req w) as [Hsame | (code & _ & Hcalls)].
  - rewrite Hsame in Hin. auto.
  - rewrite Hcalls in Hin. apply List.in_app_or in Hin as [Hold | Hnew];
      [auto|].
    destruct Hnew as [[= <- _] | []]. auto.
Qed.

(** ** More on the rate limiter *)

Lemma kept_length (lo : Z) (l : list Z) : (length (kept lo l) <= length l)%nat.
Proof. apply List.filter_length_le. Qed.

Lemma compact_step (now : Z) (c : Request) (requests : Requests) :
  compact requests -> compact (RateLimitMiddleware now c requests).1.
Proof.
  intros Hcompact. unfold RateLimitMiddleware.
  destruct (negb (String.eqb (phone_of c) "")); [|exact Hcompact].
  destruct (requests !! phone_of c) as [timestamps|] eqn:Hl.
  - fold (kept (wrap64 (now - 60)) timestamps).
    destruct (Nat.leb_spec 5 (length (kept (wrap64 (now - 60)) timestamps)))
      as [Hfull | Hroom]; cbn [fst]; intros phone l; rewrite ?insert_insert_eq;
      rewrite lookup_insert;
      (destruct (decide (phone_of c = phone)) as [_ | _]; [|apply Hcompact]);
      intros [= <-].
    + pose proof (kept_length (wrap64 (now - 60)) timestamps).
      pose proof (Hcompact _ _ Hl). lia.
    + rewrite length_app. cbn. lia.
  - cbn [fst]. intros phone l. rewrite lookup_insert.
    destruct (decide (phone_of c = phone)) as [_ | _]; [|apply Hcompact].
    intros [= <-]. cbn. lia.
Qed.

(** X16. The handler never holds more than five timestamps for a phone:
    a state in which no list is longer than five stays so through any
    requests, whatever the clock reads (going back or out of range
    included); the fresh handler is such a state. *)
Theorem rate_limiter_stays_compact (arrivals : list (Z * Request))
    (requests : Requests) :
  compact requests -> compact (serve arrivals requests).1.
Proof.
  revert requests.
  induction arrivals as [|[now c] rest IH]; intros requests Hcompact.
  - exact Hcompact.
  - rewrite serve_cons. cbn [fst]. apply IH, compact_step, Hcompact.
Qed.

Lemma rate_limiter_stays_compact_witness :
  compact ∅ /\ compact (serve burst0 ∅).1.
Proof.
  assert (Hfresh : compact ∅).
  { intros phone l. rewrite lookup_empty. discriminate. }
  split; [exact Hfresh|].
  apply (rate_limiter_stays_compact burst0 ∅ Hfresh).
Defined.

(** Requests at [now] on states alike from [lo <= now] on get the same
    outcome and leave states alike from [now] on. *)
Lemma alike_step (lo now : Z) (c : Request) (a b : Requests) :
  alike lo a b -> lo <= now -> - 2 ^ 63 + 60 <= now < 2 ^ 63 ->
  (RateLimitMiddleware now c a).2 = (RateLimitMiddleware now c b).2 /\
  alike now (RateLimitMiddleware now c a).1 (RateLimitMiddleware now c b).1.
Proof.
  intros Halike Hlo Hnow.
  assert (Hlater : alike now a b).
  { intros phone. specialize (Halike phone).
    destruct (a !! phone), (b !! phone); try exact Halike.
    intros bound Hbound. apply Halike. lia. }
  unfold RateLimitMiddleware.
  destruct (negb (String.eqb (phone_of c) "")); [|split; [reflexivity|exact Hlater]].
  rewrite wrap64_window by exact Hnow.
  pose proof (Halike (phone_of c)) as Hkey.
  destruct (a !! phone_of c) as [la|], (b !! phone_of c) as [lb|];
    try contradiction.
  - fold (kept (now - 60) la). fold (kept (now - 60) lb).
    rewrite (Hkey (now - 60)) by lia.
    destruct (5 <=? length (kept (now - 60) lb))%nat; cbn [fst snd];
      (split; [reflexivity|]); intros phone; rewrite ?insert_insert_eq;
      rewrite !lookup_insert;
      (destruct (decide (phone_of c = phone)) as [_ | _]; [|apply Hlater]);
      intros bound Hbound; reflexivity.
  - cbn [fst snd]. split; [reflexivity|]. intros phone. rewrite !lookup_insert.
    destruct (decide (phone_of c = phone)) as [_ | _]; [|apply Hlater].
    reflexivity.
Qed.

Lemma alike_serve (arrivals : list (Z * Request)) :
  forall (lo : Z) (a b : Requests),
    alike lo a b -> clock_ok lo arrivals ->
    (serve arrivals a).2 = (serve arrivals b).2.
Proof.
  induction arrivals as [|[now c] rest IH]; intros lo a b Halike Hclock.
  - reflexivity.
  - destruct Hclock as (Hlo & Hnow & Hclock). rewrite !serve_cons. cbn [snd].
    destruct (alike_step lo now c a b Halike Hlo Hnow) as [-> Hnext].
    f_equal. apply (IH now _ _ Hnext Hclock).
Qed.

(** X17. A request that is turned away leaves no trace on later decisions:
    on a clock that never goes back, every later request is decided exactly
    as it would have been had the request turned away never come, so being
    turned away does not prolong the wait. *)
Theorem turned_away_leaves_no_trace (now : Z) (c : Request)
    (requests : Requests) (later : list (Z * Request)) :
  (RateLimitMiddleware now c requests).2 = TooManyRequests ->
  - 2 ^ 63 + 60 <= now < 2 ^ 63 ->
  clock_ok now later ->
  (serve ((now, c) :: later) requests).2 =
    TooManyRequests :: (serve later requests).2.
Proof.
  intros Haway Hnow Hclock. rewrite serve_cons. cbn [snd]. rewrite Haway.
  f_equal. apply (alike_serve later now); [|exact Hclock].
  revert Haway. unfold RateLimitMiddleware.
  destruct (negb (String.eqb (phone_of c) "")); [|discriminate].
  rewrite wrap64_window by exact Hnow.
  destruct (requests !! phone_of c) as [timestamps|] eqn:Hl; [|discriminate].
  fold (kept (now - 60) timestamps).
  destruct (5 <=? length (kept (now - 60) timestamps))%nat; [|discriminate].
  intros _. cbn [fst]. intros phone. rewrite lookup_insert.
  destruct (decide (phone_of c = phone)) as [<- | _].
  - rewrite Hl. intros bound Hbound. apply kept_kept. exact Hbound.
  - destruct (requests !! phone); auto.
Qed.

Lemma turned_away_leaves_no_trace_witness :
  (RateLimitMiddleware 1700000010 post0 full0).2 = TooManyRequests /\
  (serve [(1700000010, post0); (1700000061, post0)] full0).2 =
    [TooManyRequests; Next].
Proof.
  assert (Haway : (RateLimitMiddleware 1700000010 post0 full0).2
                  = TooManyRequests) by (vm_compute; reflexivity).
  split; [exact Haway|].
  rewrite (turned_away_leaves_no_trace 1700000010 post0 full0
             [(1700000061, post0)] Haway).
  - vm_compute. reflexivity.
  - lia.
  - cbn. lia.
Defined.

(** * Plain SMS and callbacks *)

Section SMSAndCallbacks.

Context `{ObjectIDs Oid}.

(** ** Plain SMS *)

(** The two ways [smsrepo.Create] ends. *)
Lemma smsrepo_Create_cases (down : bool) (now1 now2 now3 : time.Time)
    (inserted : Oid) (sms : SMS.t Oid) (c : gmap Oid (SMS.t Oid)) :
  ((down = true \/ is_Some (c !! inserted)) /\
   exists e, smsrepo.Create down now1 now2 now3 inserted sms c
             = (c, None, Some e)) \/
  (down = false /\ c !! inserted = None /\
   smsrepo.Create down now1 now2 now3 inserted sms c
   = (<[inserted :=
          SMS.mk inserted (SMS.From sms) (SMS.To sms) (SMS.Message sms)
            (SMS.Status sms) (SMS.Provider sms) (SMS.ProviderID sms)
            now3 (SMS.DeliveredAt sms) now1 now2]> c,
      Some inserted, None)).
Proof.
  unfold smsrepo.Create. destruct down; [left; split; eauto|].
  destruct (c !! inserted) eqn:Hold; [left; split; eauto|].
  right. auto.
Qed.

(** [smsrepo.UpdateStatus] on the hex form of an id. *)
Lemma smsrepo_UpdateStatus_Hex (down : bool) (now : time.Time) (id : Oid)
    (status : string) (c : gmap Oid (SMS.t Oid)) :
  (smsrepo.UpdateStatus down now (Hex id) status c).1
  = if down then c
    else alter (fun sms =>
                  SMS.mk (SMS.ID sms) (SMS.From sms) (SMS.To sms)
                    (SMS.Message sms) status (SMS.Provider sms)
                    (SMS.ProviderID sms) (SMS.SentAt sms)
                    (SMS.DeliveredAt sms) (SMS.CreatedAt sms) now) id c.
Proof.
  unfold smsrepo.UpdateStatus. rewrite ObjectIDFromHex_Hex.
  destruct down; reflexivity.
Qed.

(** A status update by the hex form of an id just inserted finds it. *)
Lemma smsrepo_UpdateStatus_new (down : bool) (now : time.Time) (id : Oid)
    (status : string) (sms : SMS.t Oid) (c : gmap Oid (SMS.t Oid)) :
  is_Some ((smsrepo.UpdateStatus down now (Hex id) status
              (<[id := sms]> c)).1 !! id).
Proof.
  rewrite smsrepo_UpdateStatus_Hex. destruct down.
  - rewrite lookup_insert_eq. eauto.
  - rewrite lookup_alter_eq, lookup_insert_eq. cbn. eauto.
Qed.

(** [SendSMS] once the record is stored. *)
Lemma SendSMS_stored (nil_id : Oid) (env : SMSEnv Oid) (req : SMSRequest.t)
    (w : SMSWorld Oid) :
  m_create_down env = false ->
  smss w !! m_inserted env = None ->
  let status := if m_send_fails env then StatusFailed else StatusSent in
  let sms :=
    SMS.mk (m_inserted env) (m_provider env) (SMSRequest.PhoneNumber req)
      (SMSRequest.Message req) StatusPending (m_provider env) ""
      (m_create_now3 env) None (m_create_now1 env) (m_create_now2 env) in
  SendSMS nil_id env req w
  = (mkSMSWorld
       (smsrepo.UpdateStatus (m_update_down env) (m_update_now env)
          (Hex (m_inserted env)) status (<[m_inserted env := sms]> (smss w))).1
       (sms_calls w
        ++ [(SMSRequest.PhoneNumber req, SMSRequest.Message req)])%list,
     if m_send_fails env
     then Some (NewServiceUnavailableError "SMS provider") else None).
Proof.
  intros Hup Hfresh status sms. subst status sms. unfold SendSMS.
  destruct (smsrepo_Create_cases (m_create_down env) (m_create_now1 env)
              (m_create_now2 env) (m_create_now3 env) (m_inserted env)
              (SMS.mk nil_id (m_provider env) (SMSRequest.PhoneNumber req)
                 (SMSRequest.Message req) StatusPending (m_provider env) ""
                 zeroTime None zeroTime zeroTime) (smss w))
    as [[[Hdown | Hold] _] | (_ & _ & Hrun)].
  - congruence.
  - rewrite Hfresh in Hold. destruct Hold; discriminate.
  - rewrite Hrun. cbn [SMS.From SMS.To SMS.Message SMS.Status SMS.Provider
                       SMS.ProviderID SMS.DeliveredAt].
    destruct (m_send_fails env);
      destruct (smsrepo.UpdateStatus _ _ _ _ _); reflexivity.
Qed.

(** [SendSMS] when the record cannot be stored. *)
Lemma SendSMS_not_stored (nil_id : Oid) (env : SMSEnv Oid)
    (req : SMSRequest.t) (w : SMSWorld Oid) :
  m_create_down env = true \/ is_Some (smss w !! m_inserted env) ->
  SendSMS nil_id env req w
  = (w, Some (NewInternalError "Failed to store SMS record")).
Proof.
  intros Hrefused. unfold SendSMS, smsrepo.Create.
  destruct Hrefused as [-> | [old Hold]]; [destruct w; reflexivity|].
  rewrite Hold. destruct (m_create_down env); destruct w; reflexivity.
Qed.

(** X18. [SendSMS] calls the provider only for a message it has stored, and
    what it stored stays: when the record cannot be created the caller gets
    an internal error, the provider is not called and nothing changes;
    otherwise the provider is called once and the collection holds the
    record of the message under the new id, whatever the provider answered.
    Its status tells the result of the dispatch, [failed] or [sent], unless
    the status update itself failed, which leaves it [pending]; the caller
    is told of the dispatch only. *)
Theorem SendSMS_keeps_a_record (nil_id : Oid) (env : SMSEnv Oid)
    (req : SMSRequest.t) (w : SMSWorld Oid) :
  let phone := SMSRequest.PhoneNumber req in
  let message := SMSRequest.Message req in
  let w' := (SendSMS nil_id env req w).1 in
  let err := (SendSMS nil_id env req w).2 in
  ((m_create_down env = true \/ is_Some (smss w !! m_inserted env)) /\
   err = Some (NewInternalError "Failed to store SMS record") /\
   w' = w) \/
  (m_create_down env = false /\
   smss w !! m_inserted env = None /\
   sms_calls w' = (sms_calls w ++ [(phone, message)])%list /\
   err = (if m_send_fails env
          then Some (NewServiceUnavailableError "SMS provider") else None) /\
   exists sms,
     smss w' !! m_inserted env = Some sms /\
     SMS.ID sms = m_inserted env /\
     SMS.To sms = phone /\
     SMS.Message sms = message /\
     SMS.From sms = m_provider env /\
     SMS.Provider sms = m_provider env /\
     SMS.SentAt sms = m_create_now3 env /\
     SMS.Status sms
     = if m_update_down env then StatusPending
       else if m_send_fails env then StatusFailed else StatusSent).
Proof.
  intros phone message w' err. subst phone message w' err.
  destruct (m_create_down env) eqn:Hdown.
  { left. rewrite SendSMS_not_stored by auto. auto. }
  destruct (smss w !! m_inserted env) eqn:Hold.
  { left. rewrite SendSMS_not_stored by (rewrite Hold; eauto). eauto. }
  right. rewrite (SendSMS_stored nil_id env req w Hdown Hold).
  cbn [fst snd sms_calls smss]. rewrite smsrepo_UpdateStatus_Hex.
  do 4 (split; [reflexivity|]).
  destruct (m_update_down env).
  - eexists. rewrite lookup_insert_eq. repeat split; reflexivity.
  - eexists. rewrite lookup_alter_eq, lookup_insert_eq. cbn [fmap option_fmap option_map].
    repeat split; reflexivity.
Qed.

(** X19. [SendSMS] touches one record at most, the one it creates: every
    record the collection held before the call is still there afterwards,
    unchanged, also when the driver comes up with an id that is taken. *)
Theorem SendSMS_touches_one_record (nil_id : Oid) (env : SMSEnv Oid)
    (req : SMSRequest.t) (w : SMSWorld Oid) :
  let w' := (SendSMS nil_id env req w).1 in
  forall id sms, smss w !! id = Some sms -> smss w' !! id = Some sms.
Proof.
  intros w' id sms Hsms. subst w'.
  destruct (m_create_down env) eqn:Hdown.
  { rewrite SendSMS_not_stored by auto. exact Hsms. }
  destruct (smss w !! m_inserted env) eqn:Hold.
  { rewrite SendSMS_not_stored by (rewrite Hold; eauto). exact Hsms. }
  rewrite (SendSMS_stored nil_id env req w Hdown Hold).
  cbn [fst snd smss]. rewrite smsrepo_UpdateStatus_Hex.
  assert (id <> m_inserted env) as Hother by congruence.
  destruct (m_update_down env).
  - rewrite lookup_insert_ne by auto. exact Hsms.
  - rewrite lookup_alter_ne, lookup_insert_ne by auto. exact Hsms.
Qed.

(** X20. The send-sms endpoint as a gate: the provider is called only for a
    body that binds, with a phone that passes [isValidPhoneNumber] and a
    message of 1 to 160 bytes, and then once, with that phone and message;
    a 200 reply means the provider accepted the message and its record is
    in the collection. *)
Theorem send_sms_endpoint_gate (svc_ok : bool) (nil_id : Oid)
    (env : SMSEnv Oid) (now : time.Time) (body : SMSRequest.t + string)
    (w : SMSWorld Oid) :
  let reply := makeSendSMSEndpoint svc_ok nil_id env now body w in
  (sms_calls reply.1 = sms_calls w \/
   exists req,
     body = inl req /\
     isValidPhoneNumber (SMSRequest.PhoneNumber req) = true /\
     (1 <= String.length (SMSRequest.Message req) <= 160)%nat /\
     sms_calls reply.1
     = (sms_calls w
        ++ [(SMSRequest.PhoneNumber req, SMSRequest.Message req)])%list) /\
  (forall timestamp, reply.2 = SMSReplyOK timestamp ->
     sms_calls reply.1 <> sms_calls w /\
     m_send_fails env = false /\
     is_Some (smss reply.1 !! m_inserted env)).
Proof.
  intros reply. subst reply. unfold makeSendSMSEndpoint.
  destruct body as [req | err]; [|split; [auto | discriminate]].
  destruct (isValidPhoneNumber _) eqn:Hphone; cbn [negb];
    [|split; [auto | discriminate]].
  destruct (_ || _) eqn:Hlen; [split; [auto | discriminate]|].
  apply orb_false_iff in Hlen. destruct Hlen as [Hlo Hhi].
  apply Nat.eqb_neq in Hlo. apply Nat.ltb_ge in Hhi.
  destruct svc_ok; cbn [negb]; [|split; [auto | discriminate]].
  destruct (m_create_down env) eqn:Hdown.
  { rewrite SendSMS_not_stored by auto. split; [auto | discriminate]. }
  destruct (smss w !! m_inserted env) eqn:Hold.
  { rewrite SendSMS_not_stored by (rewrite Hold; eauto).
    split; [auto | discriminate]. }
  rewrite (SendSMS_stored nil_id env req w Hdown Hold).
  set (calls := (sms_calls w ++ _)%list).
  assert (calls <> sms_calls w) as Hgrown.
  { subst calls. intros Heq. apply (f_equal length) in Heq.
    rewrite length_app in Heq. cbn in Heq. lia. }
  destruct (m_send_fails env); cbn [fst snd sms_calls smss].
  - split; [|discriminate]. right. exists req. auto with lia.
  - split; [right; exists req; auto with lia|].
    intros _ _. repeat split; auto. apply smsrepo_UpdateStatus_new.
Qed.

(** ** Callbacks *)

(** The two ways [cbrepo.Create] ends. *)
Lemma cbrepo_Create_cases (down : bool) (now1 now2 now3 : time.Time)
    (inserted : Oid) (callback : Callback.t Oid)
    (c : gmap Oid (Callback.t Oid)) :
  ((down = true \/ is_Some (c !! inserted)) /\
   exists e, cbrepo.Create down now1 now2 now3 inserted callback c
             = (c, None, Some e)) \/
  (down = false /\ c !! inserted = None /\
   let stamped :=
     Callback.mk inserted (Callback.PhoneNumber callback)
       (Callback.Message callback) (Callback.Priority callback)
       (Callback.Status callback) now3 now1 now2 in
   cbrepo.Create down now1 now2 now3 inserted callback c
   = (<[inserted := cbrepo.document stamped]> c, Some stamped, None)).
Proof.
  unfold cbrepo.Create. destruct down; [left; split; eauto|].
  destruct (c !! inserted) eqn:Hold; [left; split; eauto|].
  right. auto.
Qed.

(** [GetCallbackStatus] finds what the collection holds under the id. *)
Lemma GetCallbackStatus_Hex (id : Oid) (c : gmap Oid (Callback.t Oid)) :
  GetCallbackStatus false (Hex id) c
  = match c !! id with
    | Some callback => (Some callback, None)
    | None => (None, Some (NewNotFoundError "callback request"))
    end.
Proof.
  unfold GetCallbackStatus, cbrepo.FindByID. rewrite ObjectIDFromHex_Hex.
  destruct (c !! id); reflexivity.
Qed.

(** X21. A callback request that was accepted can be looked up by the
    request id of its response: [GetCallbackStatus] then returns the record
    of the request, with its phone, message and priority, in status
    [requested], which is the status of the response. The timestamp of the
    response is the clock reading taken for the creation time; the record
    read back holds it cut to milliseconds, so at most as late and less
    than a millisecond earlier. Every record held before is still there. *)
Theorem requested_callback_is_found (nil_id : Oid) (env : CallbackEnv Oid)
    (req : CallbackRequest.t) (c c' : gmap Oid (Callback.t Oid))
    (response : CallbackResponse.t) :
  RequestCallback nil_id env req c = (c', (Some response, None)) ->
  (exists callback,
     GetCallbackStatus false (CallbackResponse.RequestID response) c'
     = (Some callback, None) /\
     Hex (Callback.ID callback) = CallbackResponse.RequestID response /\
     Callback.PhoneNumber callback = CallbackRequest.PhoneNumber req /\
     Callback.Message callback = CallbackRequest.Message req /\
     Callback.Priority callback = CallbackRequest.Priority req /\
     Callback.Status callback = StatusRequested /\
     CallbackResponse.Status response = StatusRequested /\
     CallbackResponse.Timestamp response = c_create_now1 env /\
     Callback.CreatedAt callback
     = stored_time (CallbackResponse.Timestamp response) /\
     CallbackResponse.Timestamp response - time.Millisecond
     < Callback.CreatedAt callback
     <= CallbackResponse.Timestamp response /\
     CallbackResponse.Success response = true) /\
  (forall id old, c !! id = Some old -> c' !! id = Some old).
Proof.
  unfold RequestCallback. intros Hrun.
  destruct (cbrepo_Create_cases (c_create_down env) (c_create_now1 env)
              (c_create_now2 env) (c_create_now3 env) (c_inserted env)
              (Callback.mk nil_id (CallbackRequest.PhoneNumber req)
                 (CallbackRequest.Message req) (CallbackRequest.Priority req)
                 StatusRequested zeroTime zeroTime zeroTime) c)
    as [[_ [e Hcreate]] | (_ & Hfresh & Hcreate)];
    cbv zeta in Hcreate; rewrite Hcreate in Hrun; [discriminate|].
  injection Hrun as <- <-. cbn [CallbackResponse.RequestID Callback.ID].
  split.
  - eexists.
    split; [rewrite GetCallbackStatus_Hex, lookup_insert_eq; reflexivity|].
    cbn [cbrepo.document Callback.ID Callback.PhoneNumber Callback.Message
         Callback.Priority Callback.Status Callback.CreatedAt
         CallbackResponse.Status CallbackResponse.Timestamp
         CallbackResponse.Success].
    pose proof (stored_time_bounds (c_create_now1 env)).
    repeat split; try reflexivity; lia.
  - intros id old Hold. rewrite lookup_insert_ne by congruence. exact Hold.
Qed.

(** X22. [UpdateCallbackStatus] on a record that is there sets its status
    and its update time and nothing else: looking the id up afterwards
    gives the record as it was with these two fields replaced, and the
    records under other ids are as before. *)
Theorem updated_callback_status_is_read_back (now : time.Time)
    (requestID status : string) (c : gmap Oid (Callback.t Oid))
    (callback : Callback.t Oid) :
  GetCallbackStatus false requestID c = (Some callback, None) ->
  let c' := (UpdateCallbackStatus false now requestID status c).1 in
  (UpdateCallbackStatus false now requestID status c).2 = None /\
  GetCallbackStatus false requestID c'
  = (Some (Callback.mk (Callback.ID callback) (Callback.PhoneNumber callback)
             (Callback.Message callback) (Callback.Priority callback) status
             (Callback.RequestedAt callback) (Callback.CreatedAt callback)
             now), None) /\
  (forall objectID other,
     ObjectIDFromHex requestID = Some objectID -> other <> objectID ->
     c' !! other = c !! other).
Proof.
  unfold GetCallbackStatus, UpdateCallbackStatus, cbrepo.FindByID,
    cbrepo.UpdateStatus.
  destruct (ObjectIDFromHex requestID) as [objectID|] eqn:Hid;
    [|discriminate].
  destruct (c !! objectID) as [found|] eqn:Hfound; [|discriminate].
  intros Hget. injection Hget as ->. cbn [fst snd].
  rewrite lookup_alter_eq, Hfound. cbn [fmap option_fmap option_map].
  repeat split. intros objectID' other Heq Hother.
  injection Heq as <-. apply lookup_alter_ne. congruence.
Qed.

(** X23. Updating the status of a callback that does not exist reports
    success and creates nothing: for a well-formed id the collection holds
    no record of, [UpdateCallbackStatus] returns no error and leaves the
    collection as it was, while [GetCallbackStatus] on the same id reports
    'not found'. *)
Theorem update_of_unknown_callback_is_silent (now : time.Time)
    (requestID status : string) (objectID : Oid)
    (c : gmap Oid (Callback.t Oid)) :
  ObjectIDFromHex requestID = Some objectID ->
  c !! objectID = None ->
  UpdateCallbackStatus false now requestID status c = (c, None) /\
  GetCallbackStatus false requestID c
  = (None, Some (NewNotFoundError "callback request")).
Proof.
  intros Hid Hnone.
  unfold GetCallbackStatus, UpdateCallbackStatus, cbrepo.FindByID,
    cbrepo.UpdateStatus.
  rewrite Hid, Hnone. split; [|reflexivity].
  f_equal. apply map_eq. intros k.
  destruct (decide (k = objectID)) as [-> | Hne].
  - rewrite lookup_alter_eq, Hnone. reflexivity.
  - apply lookup_alter_ne. congruence.
Qed.

(** X24. The callback-status endpoint answers with a record exactly when
    the id is not empty, the service is there, the id parses, the store
    answers and holds a record under the id; the reply is then that record.
    In every other case past the empty-id check and the service check the
    reply is the same 'not found' error, whether the id was malformed, the
    store was down or the record was missing. *)
Theorem callback_status_endpoint (svc_ok down : bool) (requestID : string)
    (c : gmap Oid (Callback.t Oid)) :
  let reply := makeGetCallbackStatusEndpoint svc_ok down requestID c in
  (forall callback,
     reply = CallbackReplyOK callback <->
     exists found objectID,
       callback = Some found /\
       requestID <> "" /\ svc_ok = true /\ down = false /\
       ObjectIDFromHex requestID = Some objectID /\
       c !! objectID = Some found) /\
  (requestID <> "" -> svc_ok = true ->
   (forall callback, reply <> CallbackReplyOK callback) ->
   reply = CallbackReplyError (NewNotFoundError "callback request")).
Proof.
  intros reply. subst reply.
  unfold makeGetCallbackStatusEndpoint, GetCallbackStatus, cbrepo.FindByID.
  destruct (String.eqb_spec requestID "") as [-> | Hne].
  { split; [|congruence]. intros callback. split; [discriminate|].
    intros (? & ? & _ & Habs & _). congruence. }
  destruct svc_ok; cbn [negb].
  2:{ split; [|congruence]. intros callback. split; [discriminate|].
      intros (? & ? & _ & _ & Habs & _). congruence. }
  destruct (ObjectIDFromHex requestID) as [objectID|] eqn:Hid.
  2:{ split; [|auto]. intros callback. split; [discriminate|].
      intros (? & ? & _ & _ & _ & _ & Habs & _). congruence. }
  destruct down.
  { split; [|auto]. intros callback. split; [discriminate|].
    intros (? & ? & _ & _ & _ & Habs & _). congruence. }
  destruct (c !! objectID) as [found|] eqn:Hfound.
  - split.
    + intros callback. split.
      * intros Heq. injection Heq as <-. exists found, objectID. auto 10.
      * intros (found' & objectID' & -> & _ & _ & _ & Heq & Hfound').
        injection Heq as <-. congruence.
    + intros _ _ Hnot. exfalso. exact (Hnot _ eq_refl).
  - split; [|auto]. intros callback. split; [discriminate|].
    intros (found' & objectID' & _ & _ & _ & _ & Heq & Hfound').
    injection Heq as <-. congruence.
Qed.

End SMSAndCallbacks.

(** The sample request is accepted and found under [#a1], its creation
    time cut to milliseconds. *)
Lemma requested_callback_is_found_witness :
  exists callback,
    GetCallbackStatus false "#a1" (RequestCallback "" asking0 callback0 ∅).1
    = (Some callback, None) /\
    Callback.PhoneNumber callback = phone0 /\
    CallbackResponse.Timestamp response0 = 1700000000001234567 /\
    Callback.CreatedAt callback = 1700000000001000000.
Proof.
  destruct (requested_callback_is_found "" asking0 callback0 ∅
              (RequestCallback "" asking0 callback0 ∅).1 response0)
    as [(callback & Hget & _ & Hphone & _ & _ & _ & _ & _ & Hcut & _) _].
  - vm_compute. reflexivity.
  - exists callback. split; [exact Hget|]. split; [exact Hphone|].
    split; [reflexivity|]. rewrite Hcut. vm_compute. reflexivity.
Defined.

(** The sample callback is marked completed and read back so. *)
Lemma updated_callback_status_is_read_back_witness :
  exists callback,
    GetCallbackStatus false "#a1"
      (UpdateCallbackStatus false (t0 + 1) "#a1" "completed" callbacks1).1
    = (Some callback, None) /\
    Callback.Status callback = "completed".
Proof.
  destruct (updated_callback_status_is_read_back (t0 + 1) "#a1" "completed"
              callbacks1
              (Callback.mk "a1" phone0 "call me" "high" StatusRequested
                 t0 t0 t0))
    as (_ & Hget & _).
  - vm_compute. reflexivity.
  - eexists. split; [exact Hget | reflexivity].
Defined.

(** No callback was requested under [#b2]: the update passes for done. *)
Lemma update_of_unknown_callback_is_silent_witness :
  UpdateCallbackStatus false (t0 + 1) "#b2" "completed" callbacks1
  = (callbacks1, None).
Proof.
  apply (update_of_unknown_callback_is_silent (t0 + 1) "#b2" "completed" "b2"
           callbacks1).
  - reflexivity.
  - vm_compute. reflexivity.
Defined.

(** The message on record outlives a later message that fails. *)
Lemma SendSMS_touches_one_record_witness :
  smss (SendSMS "" refused0 text0 outbox0).1 !! "s0" = Some sms0.
Proof.
  apply (SendSMS_touches_one_record "" refused0 text0 outbox0 "s0" sms0).
  vm_compute. reflexivity.
Defined.
